(** * ASKql: the query-processing workflow, embedded and verified

    A shallow embedding of
      - [askql-backend/src/workflow/askql-workflow.ts]: the state graph, its
        seven nodes, its three routers and [processQuery];
      - [askql-backend/src/agents/sql-execution.agent.ts]: [executeSQL];
      - [askql-backend/src/agents/sql-validation.agent.ts]: [validateSQL]
        and [experimentWithQuery];
      - [askql-backend/src/agents/nl-to-sql.agent.ts]: [convertNLToSQL];
      - [askql-backend/src/websocket/workflow-streaming.service.ts]: the
        progress notifications, down to the gateway call each one makes;
      - [askql-backend/src/websocket/askql.gateway.ts]: the session table and
        the methods that hand a message to a client's socket;
      - [askql-backend/src/askql/askql.service.ts]: [processNaturalLanguageQuery],
        [extractWorkflowSteps], [getQuerySuggestions], and the database
        service's [executeReadOnlyQuery] with what it calls;
      - [askql-backend/src/agents/drill-down.agent.ts] and
        [askql-backend/src/agents/visualization-edit.agent.ts]: the helpers
        that do not call the model.

    How the code is read:
      - asynchronous code is run in sequence (every call is awaited in the
        source); a rejected promise and a thrown exception are the same
        thing, a [Throw] carrying the [message] of the JavaScript error;
      - what a run does outside its state is a world: the gateway calls it
        made and the queries it sent, in order. The workflow's agents, the
        schema service and the gateway are opaque: any of them may throw,
        and the agents may act on the world;
      - the graph library is not part of the repository. Its [invoke] is
        taken to run the node [__start__] leads to, merge what a node returns
        into last-value channels, follow the node's edge on the merged state,
        stop at END, and reject with the exception of a node that throws;
      - confidences, counts and times are integers; a string is held as its
        UTF-8 bytes, and [trim] and [toUpperCase] work on its code points:
        white space is what ECMAScript calls WhiteSpace and LineTerminator,
        upper case is given by the unconditional mappings of Unicode 14.0. *)

From Stdlib Require Import String Ascii List ZArith Bool Lia DecimalString Sorted.
Import ListNotations.

Local Open Scope string_scope.
Local Open Scope Z_scope.

(* ================================================================== *)
(** ** JavaScript values as the code uses them *)

Module JS.

(** Truthiness of an optional string: [undefined] and [''] are falsy. *)
Definition truthy_string (s : option string) : bool :=
  match s with
  | Some EmptyString => false
  | Some _ => true
  | None => false
  end.

(** Truthiness of an optional number: [undefined] and [0] are falsy. *)
Definition truthy_number (n : option Z) : bool :=
  match n with
  | Some 0 => false
  | Some _ => true
  | None => false
  end.

(** Truthiness of an optional object: only [undefined] is falsy. *)
Definition truthy_object {A : Type} (o : option A) : bool :=
  match o with
  | Some _ => true
  | None => false
  end.

(** [n || 0] on an optional number. *)
Definition number_or_zero (n : option Z) : Z :=
  match n with
  | Some z => z
  | None => 0
  end.

(** [s || ''] on an optional string. *)
Definition string_or_empty (s : option string) : string :=
  match s with
  | Some x => x
  | None => ""
  end.

(** A number inside a template literal. *)
Definition string_of_number (z : Z) : string :=
  NilZero.string_of_int (Z.to_int z).

(** An optional string inside a template literal. *)
Definition string_of_optional (s : option string) : string :=
  match s with
  | Some x => x
  | None => "undefined"
  end.

(** *** Text

    A string is held as its UTF-8 bytes: one byte for an ASCII character,
    two to four for any other code point. [startsWith], [includes] and
    [+] act on the bytes; [trim] and [toUpperCase] act on the code
    points, as ECMAScript has them. *)

(** A byte 10xxxxxx, which continues a code point. *)
Definition is_continuation (b : ascii) : bool :=
  let n := nat_of_ascii b in ((128 <=? n) && (n <? 192))%nat.

(** The number of bytes a first byte announces after itself. *)
Definition followers (b : ascii) : nat :=
  let n := nat_of_ascii b in
  if (n <? 192)%nat then 0%nat
  else if (n <? 224)%nat then 1%nat
  else if (n <? 240)%nat then 2%nat
  else 3%nat.

(** [pieces k s]: the rest of the code point that is being read, of which
    at most [k] bytes are missing, and the code points of [s] after it. A
    code point ends early where the text ends or no continuation byte
    follows. *)
Fixpoint pieces (k : nat) (s : string) : string * list string :=
  match s with
  | EmptyString => (EmptyString, [])
  | String b rest =>
      match k, is_continuation b with
      | S k', true => let (c, l) := pieces k' rest in (String b c, l)
      | _, _ =>
          let (c, l) := pieces (followers b) rest in (EmptyString, String b c :: l)
      end
  end.

(** The code points of a string, each as its bytes. *)
Definition code_points (s : string) : list string := snd (pieces 0 s).

(** The string made of these code points. *)
Fixpoint text (l : list string) : string :=
  match l with
  | [] => EmptyString
  | c :: rest => c ++ text rest
  end.

Fixpoint payload (acc : N) (s : string) : N :=
  match s with
  | EmptyString => acc
  | String b rest => payload (acc * 64 + (N_of_ascii b - 128))%N rest
  end.

(** The bytes of a code point. *)
Definition utf8 (n : N) : string :=
  let byte (x : N) := ascii_of_N x in
  if (n <? 0x80)%N then String (byte n) EmptyString
  else if (n <? 0x800)%N then
    String (byte (192 + n / 64)%N) (String (byte (128 + n mod 64)%N) EmptyString)
  else if (n <? 0x10000)%N then
    String (byte (224 + n / 4096)%N)
      (String (byte (128 + (n / 64) mod 64)%N)
         (String (byte (128 + n mod 64)%N) EmptyString))
  else
    String (byte (240 + n / 262144)%N)
      (String (byte (128 + (n / 4096) mod 64)%N)
         (String (byte (128 + (n / 64) mod 64)%N)
            (String (byte (128 + n mod 64)%N) EmptyString))).

(** What the first byte and the continuation bytes spell. *)
Definition decode (c : string) : N :=
  match c with
  | EmptyString => 0%N
  | String b rest =>
      let n := N_of_ascii b in
      payload (if (n <? 192)%N then n
               else if (n <? 224)%N then (n - 192)%N
               else if (n <? 240)%N then (n - 224)%N
               else (n - 240)%N) rest
  end.

(** The number of a code point; none for bytes that are not the bytes of
    a code point. *)
Definition number (c : string) : option N :=
  if String.eqb (utf8 (decode c)) c then Some (decode c) else None.

(** WhiteSpace and LineTerminator of ECMAScript: what [trim] removes and
    [\s] matches. *)
Definition white_space : list N :=
  [0x0009; 0x000A; 0x000B; 0x000C; 0x000D; 0x0020; 0x00A0; 0x1680;
   0x2000; 0x2001; 0x2002; 0x2003; 0x2004; 0x2005; 0x2006; 0x2007;
   0x2008; 0x2009; 0x200A; 0x2028; 0x2029; 0x202F; 0x205F; 0x3000;
   0xFEFF]%N.

Definition is_whitespace (c : string) : bool :=
  match number c with
  | Some n => existsb (N.eqb n) white_space
  | None => false
  end.

Fixpoint drop_while {A : Type} (f : A -> bool) (l : list A) : list A :=
  match l with
  | [] => []
  | x :: rest => if f x then drop_while f rest else l
  end.

Definition trimStart (s : string) : string :=
  text (drop_while is_whitespace (code_points s)).

Definition trimEnd (s : string) : string :=
  text (rev (drop_while is_whitespace (rev (code_points s)))).

Definition trim (s : string) : string := trimEnd (trimStart s).

(** The upper-case mappings of Unicode 14.0 that [toUpperCase] applies
    whatever the locale: the mappings to several code points, which
    SpecialCasing.txt lists without a condition, *)
Definition special_upper_case : list (N * list N) :=
  [(0x00DF, [0x0053; 0x0053]); (0x0149, [0x02BC; 0x004E]);
   (0x01F0, [0x004A; 0x030C]); (0x0390, [0x0399; 0x0308; 0x0301]);
   (0x03B0, [0x03A5; 0x0308; 0x0301]); (0x0587, [0x0535; 0x0552]);
   (0x1E96, [0x0048; 0x0331]); (0x1E97, [0x0054; 0x0308]);
   (0x1E98, [0x0057; 0x030A]); (0x1E99, [0x0059; 0x030A]);
   (0x1E9A, [0x0041; 0x02BE]); (0x1F50, [0x03A5; 0x0313]);
   (0x1F52, [0x03A5; 0x0313; 0x0300]); (0x1F54, [0x03A5; 0x0313; 0x0301]);
   (0x1F56, [0x03A5; 0x0313; 0x0342]); (0x1F80, [0x1F08; 0x0399]);
   (0x1F81, [0x1F09; 0x0399]); (0x1F82, [0x1F0A; 0x0399]);
   (0x1F83, [0x1F0B; 0x0399]); (0x1F84, [0x1F0C; 0x0399]);
   (0x1F85, [0x1F0D; 0x0399]); (0x1F86, [0x1F0E; 0x0399]);
   (0x1F87, [0x1F0F; 0x0399]); (0x1F88, [0x1F08; 0x0399]);
   (0x1F89, [0x1F09; 0x0399]); (0x1F8A, [0x1F0A; 0x0399]);
   (0x1F8B, [0x1F0B; 0x0399]); (0x1F8C, [0x1F0C; 0x0399]);
   (0x1F8D, [0x1F0D; 0x0399]); (0x1F8E, [0x1F0E; 0x0399]);
   (0x1F8F, [0x1F0F; 0x0399]); (0x1F90, [0x1F28; 0x0399]);
   (0x1F91, [0x1F29; 0x0399]); (0x1F92, [0x1F2A; 0x0399]);
   (0x1F93, [0x1F2B; 0x0399]); (0x1F94, [0x1F2C; 0x0399]);
   (0x1F95, [0x1F2D; 0x0399]); (0x1F96, [0x1F2E; 0x0399]);
   (0x1F97, [0x1F2F; 0x0399]); (0x1F98, [0x1F28; 0x0399]);
   (0x1F99, [0x1F29; 0x0399]); (0x1F9A, [0x1F2A; 0x0399]);
   (0x1F9B, [0x1F2B; 0x0399]); (0x1F9C, [0x1F2C; 0x0399]);
   (0x1F9D, [0x1F2D; 0x0399]); (0x1F9E, [0x1F2E; 0x0399]);
   (0x1F9F, [0x1F2F; 0x0399]); (0x1FA0, [0x1F68; 0x0399]);
   (0x1FA1, [0x1F69; 0x0399]); (0x1FA2, [0x1F6A; 0x0399]);
   (0x1FA3, [0x1F6B; 0x0399]); (0x1FA4, [0x1F6C; 0x0399]);
   (0x1FA5, [0x1F6D; 0x0399]); (0x1FA6, [0x1F6E; 0x0399]);
   (0x1FA7, [0x1F6F; 0x0399]); (0x1FA8, [0x1F68; 0x0399]);
   (0x1FA9, [0x1F69; 0x0399]); (0x1FAA, [0x1F6A; 0x0399]);
   (0x1FAB, [0x1F6B; 0x0399]); (0x1FAC, [0x1F6C; 0x0399]);
   (0x1FAD, [0x1F6D; 0x0399]); (0x1FAE, [0x1F6E; 0x0399]);
   (0x1FAF, [0x1F6F; 0x0399]); (0x1FB2, [0x1FBA; 0x0399]);
   (0x1FB3, [0x0391; 0x0399]); (0x1FB4, [0x0386; 0x0399]);
   (0x1FB6, [0x0391; 0x0342]); (0x1FB7, [0x0391; 0x0342; 0x0399]);
   (0x1FBC, [0x0391; 0x0399]); (0x1FC2, [0x1FCA; 0x0399]);
   (0x1FC3, [0x0397; 0x0399]); (0x1FC4, [0x0389; 0x0399]);
   (0x1FC6, [0x0397; 0x0342]); (0x1FC7, [0x0397; 0x0342; 0x0399]);
   (0x1FCC, [0x0397; 0x0399]); (0x1FD2, [0x0399; 0x0308; 0x0300]);
   (0x1FD3, [0x0399; 0x0308; 0x0301]); (0x1FD6, [0x0399; 0x0342]);
   (0x1FD7, [0x0399; 0x0308; 0x0342]); (0x1FE2, [0x03A5; 0x0308; 0x0300]);
   (0x1FE3, [0x03A5; 0x0308; 0x0301]); (0x1FE4, [0x03A1; 0x0313]);
   (0x1FE6, [0x03A5; 0x0342]); (0x1FE7, [0x03A5; 0x0308; 0x0342]);
   (0x1FF2, [0x1FFA; 0x0399]); (0x1FF3, [0x03A9; 0x0399]);
   (0x1FF4, [0x038F; 0x0399]); (0x1FF6, [0x03A9; 0x0342]);
   (0x1FF7, [0x03A9; 0x0342; 0x0399]); (0x1FFC, [0x03A9; 0x0399]);
   (0xFB00, [0x0046; 0x0046]); (0xFB01, [0x0046; 0x0049]);
   (0xFB02, [0x0046; 0x004C]); (0xFB03, [0x0046; 0x0046; 0x0049]);
   (0xFB04, [0x0046; 0x0046; 0x004C]); (0xFB05, [0x0053; 0x0054]);
   (0xFB06, [0x0053; 0x0054]); (0xFB13, [0x0544; 0x0546]);
   (0xFB14, [0x0544; 0x0535]); (0xFB15, [0x0544; 0x053B]);
   (0xFB16, [0x054E; 0x0546]); (0xFB17, [0x0544; 0x053D])]%N.

(** and, for the other code points, the simple upper-case mapping of
    UnicodeData.txt. *)
Definition simple_upper_case : list (N * N) :=
  [(0x0061, 0x0041); (0x0062, 0x0042); (0x0063, 0x0043); (0x0064, 0x0044);
   (0x0065, 0x0045); (0x0066, 0x0046); (0x0067, 0x0047); (0x0068, 0x0048);
   (0x0069, 0x0049); (0x006A, 0x004A); (0x006B, 0x004B); (0x006C, 0x004C);
   (0x006D, 0x004D); (0x006E, 0x004E); (0x006F, 0x004F); (0x0070, 0x0050);
   (0x0071, 0x0051); (0x0072, 0x0052); (0x0073, 0x0053); (0x0074, 0x0054);
   (0x0075, 0x0055); (0x0076, 0x0056); (0x0077, 0x0057); (0x0078, 0x0058);
   (0x0079, 0x0059); (0x007A, 0x005A); (0x00B5, 0x039C); (0x00E0, 0x00C0);
   (0x00E1, 0x00C1); (0x00E2, 0x00C2); (0x00E3, 0x00C3); (0x00E4, 0x00C4);
   (0x00E5, 0x00C5); (0x00E6, 0x00C6); (0x00E7, 0x00C7); (0x00E8, 0x00C8);
   (0x00E9, 0x00C9); (0x00EA, 0x00CA); (0x00EB, 0x00CB); (0x00EC, 0x00CC);
   (0x00ED, 0x00CD); (0x00EE, 0x00CE); (0x00EF, 0x00CF); (0x00F0, 0x00D0);
   (0x00F1, 0x00D1); (0x00F2, 0x00D2); (0x00F3, 0x00D3); (0x00F4, 0x00D4);
   (0x00F5, 0x00D5); (0x00F6, 0x00D6); (0x00F8, 0x00D8); (0x00F9, 0x00D9);
   (0x00FA, 0x00DA); (0x00FB, 0x00DB); (0x00FC, 0x00DC); (0x00FD, 0x00DD);
   (0x00FE, 0x00DE); (0x00FF, 0x0178); (0x0101, 0x0100); (0x0103, 0x0102);
   (0x0105, 0x0104); (0x0107, 0x0106); (0x0109, 0x0108); (0x010B, 0x010A);
   (0x010D, 0x010C); (0x010F, 0x010E); (0x0111, 0x0110); (0x0113, 0x0112);
   (0x0115, 0x0114); (0x0117, 0x0116); (0x0119, 0x0118); (0x011B, 0x011A);
   (0x011D, 0x011C); (0x011F, 0x011E); (0x0121, 0x0120); (0x0123, 0x0122);
   (0x0125, 0x0124); (0x0127, 0x0126); (0x0129, 0x0128); (0x012B, 0x012A);
   (0x012D, 0x012C); (0x012F, 0x012E); (0x0131, 0x0049); (0x0133, 0x0132);
   (0x0135, 0x0134); (0x0137, 0x0136); (0x013A, 0x0139); (0x013C, 0x013B);
   (0x013E, 0x013D); (0x0140, 0x013F); (0x0142, 0x0141); (0x0144, 0x0143);
   (0x0146, 0x0145); (0x0148, 0x0147); (0x014B, 0x014A); (0x014D, 0x014C);
   (0x014F, 0x014E); (0x0151, 0x0150); (0x0153, 0x0152); (0x0155, 0x0154);
   (0x0157, 0x0156); (0x0159, 0x0158); (0x015B, 0x015A); (0x015D, 0x015C);
   (0x015F, 0x015E); (0x0161, 0x0160); (0x0163, 0x0162); (0x0165, 0x0164);
   (0x0167, 0x0166); (0x0169, 0x0168); (0x016B, 0x016A); (0x016D, 0x016C);
   (0x016F, 0x016E); (0x0171, 0x0170); (0x0173, 0x0172); (0x0175, 0x0174);
   (0x0177, 0x0176); (0x017A, 0x0179); (0x017C, 0x017B); (0x017E, 0x017D);
   (0x017F, 0x0053); (0x0180, 0x0243); (0x0183, 0x0182); (0x0185, 0x0184);
   (0x0188, 0x0187); (0x018C, 0x018B); (0x0192, 0x0191); (0x0195, 0x01F6);
   (0x0199, 0x0198); (0x019A, 0x023D); (0x019E, 0x0220); (0x01A1, 0x01A0);
   (0x01A3, 0x01A2); (0x01A5, 0x01A4); (0x01A8, 0x01A7); (0x01AD, 0x01AC);
   (0x01B0, 0x01AF); (0x01B4, 0x01B3); (0x01B6, 0x01B5); (0x01B9, 0x01B8);
   (0x01BD, 0x01BC); (0x01BF, 0x01F7); (0x01C5, 0x01C4); (0x01C6, 0x01C4);
   (0x01C8, 0x01C7); (0x01C9, 0x01C7); (0x01CB, 0x01CA); (0x01CC, 0x01CA);
   (0x01CE, 0x01CD); (0x01D0, 0x01CF); (0x01D2, 0x01D1); (0x01D4, 0x01D3);
   (0x01D6, 0x01D5); (0x01D8, 0x01D7); (0x01DA, 0x01D9); (0x01DC, 0x01DB);
   (0x01DD, 0x018E); (0x01DF, 0x01DE); (0x01E1, 0x01E0); (0x01E3, 0x01E2);
   (0x01E5, 0x01E4); (0x01E7, 0x01E6); (0x01E9, 0x01E8); (0x01EB, 0x01EA);
   (0x01ED, 0x01EC); (0x01EF, 0x01EE); (0x01F2, 0x01F1); (0x01F3, 0x01F1);
   (0x01F5, 0x01F4); (0x01F9, 0x01F8); (0x01FB, 0x01FA); (0x01FD, 0x01FC);
   (0x01FF, 0x01FE); (0x0201, 0x0200); (0x0203, 0x0202); (0x0205, 0x0204);
   (0x0207, 0x0206); (0x0209, 0x0208); (0x020B, 0x020A); (0x020D, 0x020C);
   (0x020F, 0x020E); (0x0211, 0x0210); (0x0213, 0x0212); (0x0215, 0x0214);
   (0x0217, 0x0216); (0x0219, 0x0218); (0x021B, 0x021A); (0x021D, 0x021C);
   (0x021F, 0x021E); (0x0223, 0x0222); (0x0225, 0x0224); (0x0227, 0x0226);
   (0x0229, 0x0228); (0x022B, 0x022A); (0x022D, 0x022C); (0x022F, 0x022E);
   (0x0231, 0x0230); (0x0233, 0x0232); (0x023C, 0x023B); (0x023F, 0x2C7E);
   (0x0240, 0x2C7F); (0x0242, 0x0241); (0x0247, 0x0246); (0x0249, 0x0248);
   (0x024B, 0x024A); (0x024D, 0x024C); (0x024F, 0x024E); (0x0250, 0x2C6F);
   (0x0251, 0x2C6D); (0x0252, 0x2C70); (0x0253, 0x0181); (0x0254, 0x0186);
   (0x0256, 0x0189); (0x0257, 0x018A); (0x0259, 0x018F); (0x025B, 0x0190);
   (0x025C, 0xA7AB); (0x0260, 0x0193); (0x0261, 0xA7AC); (0x0263, 0x0194);
   (0x0265, 0xA78D); (0x0266, 0xA7AA); (0x0268, 0x0197); (0x0269, 0x0196);
   (0x026A, 0xA7AE); (0x026B, 0x2C62); (0x026C, 0xA7AD); (0x026F, 0x019C);
   (0x0271, 0x2C6E); (0x0272, 0x019D); (0x0275, 0x019F); (0x027D, 0x2C64);
   (0x0280, 0x01A6); (0x0282, 0xA7C5); (0x0283, 0x01A9); (0x0287, 0xA7B1);
   (0x0288, 0x01AE); (0x0289, 0x0244); (0x028A, 0x01B1); (0x028B, 0x01B2);
   (0x028C, 0x0245); (0x0292, 0x01B7); (0x029D, 0xA7B2); (0x029E, 0xA7B0);
   (0x0345, 0x0399); (0x0371, 0x0370); (0x0373, 0x0372); (0x0377, 0x0376);
   (0x037B, 0x03FD); (0x037C, 0x03FE); (0x037D, 0x03FF); (0x03AC, 0x0386);
   (0x03AD, 0x0388); (0x03AE, 0x0389); (0x03AF, 0x038A); (0x03B1, 0x0391);
   (0x03B2, 0x0392); (0x03B3, 0x0393); (0x03B4, 0x0394); (0x03B5, 0x0395);
   (0x03B6, 0x0396); (0x03B7, 0x0397); (0x03B8, 0x0398); (0x03B9, 0x0399);
   (0x03BA, 0x039A); (0x03BB, 0x039B); (0x03BC, 0x039C); (0x03BD, 0x039D);
   (0x03BE, 0x039E); (0x03BF, 0x039F); (0x03C0, 0x03A0); (0x03C1, 0x03A1);
   (0x03C2, 0x03A3); (0x03C3, 0x03A3); (0x03C4, 0x03A4); (0x03C5, 0x03A5);
   (0x03C6, 0x03A6); (0x03C7, 0x03A7); (0x03C8, 0x03A8); (0x03C9, 0x03A9);
   (0x03CA, 0x03AA); (0x03CB, 0x03AB); (0x03CC, 0x038C); (0x03CD, 0x038E);
   (0x03CE, 0x038F); (0x03D0, 0x0392); (0x03D1, 0x0398); (0x03D5, 0x03A6);
   (0x03D6, 0x03A0); (0x03D7, 0x03CF); (0x03D9, 0x03D8); (0x03DB, 0x03DA);
   (0x03DD, 0x03DC); (0x03DF, 0x03DE); (0x03E1, 0x03E0); (0x03E3, 0x03E2);
   (0x03E5, 0x03E4); (0x03E7, 0x03E6); (0x03E9, 0x03E8); (0x03EB, 0x03EA);
   (0x03ED, 0x03EC); (0x03EF, 0x03EE); (0x03F0, 0x039A); (0x03F1, 0x03A1);
   (0x03F2, 0x03F9); (0x03F3, 0x037F); (0x03F5, 0x0395); (0x03F8, 0x03F7);
   (0x03FB, 0x03FA); (0x0430, 0x0410); (0x0431, 0x0411); (0x0432, 0x0412);
   (0x0433, 0x0413); (0x0434, 0x0414); (0x0435, 0x0415); (0x0436, 0x0416);
   (0x0437, 0x0417); (0x0438, 0x0418); (0x0439, 0x0419); (0x043A, 0x041A);
   (0x043B, 0x041B); (0x043C, 0x041C); (0x043D, 0x041D); (0x043E, 0x041E);
   (0x043F, 0x041F); (0x0440, 0x0420); (0x0441, 0x0421); (0x0442, 0x0422);
   (0x0443, 0x0423); (0x0444, 0x0424); (0x0445, 0x0425); (0x0446, 0x0426);
   (0x0447, 0x0427); (0x0448, 0x0428); (0x0449, 0x0429); (0x044A, 0x042A);
   (0x044B, 0x042B); (0x044C, 0x042C); (0x044D, 0x042D); (0x044E, 0x042E);
   (0x044F, 0x042F); (0x0450, 0x0400); (0x0451, 0x0401); (0x0452, 0x0402);
   (0x0453, 0x0403); (0x0454, 0x0404); (0x0455, 0x0405); (0x0456, 0x0406);
   (0x0457, 0x0407); (0x0458, 0x0408); (0x0459, 0x0409); (0x045A, 0x040A);
   (0x045B, 0x040B); (0x045C, 0x040C); (0x045D, 0x040D); (0x045E, 0x040E);
   (0x045F, 0x040F); (0x0461, 0x0460); (0x0463, 0x0462); (0x0465, 0x0464);
   (0x0467, 0x0466); (0x0469, 0x0468); (0x046B, 0x046A); (0x046D, 0x046C);
   (0x046F, 0x046E); (0x0471, 0x0470); (0x0473, 0x0472); (0x0475, 0x0474);
   (0x0477, 0x0476); (0x0479, 0x0478); (0x047B, 0x047A); (0x047D, 0x047C);
   (0x047F, 0x047E); (0x0481, 0x0480); (0x048B, 0x048A); (0x048D, 0x048C);
   (0x048F, 0x048E); (0x0491, 0x0490); (0x0493, 0x0492); (0x0495, 0x0494);
   (0x0497, 0x0496); (0x0499, 0x0498); (0x049B, 0x049A); (0x049D, 0x049C);
   (0x049F, 0x049E); (0x04A1, 0x04A0); (0x04A3, 0x04A2); (0x04A5, 0x04A4);
   (0x04A7, 0x04A6); (0x04A9, 0x04A8); (0x04AB, 0x04AA); (0x04AD, 0x04AC);
   (0x04AF, 0x04AE); (0x04B1, 0x04B0); (0x04B3, 0x04B2); (0x04B5, 0x04B4);
   (0x04B7, 0x04B6); (0x04B9, 0x04B8); (0x04BB, 0x04BA); (0x04BD, 0x04BC);
   (0x04BF, 0x04BE); (0x04C2, 0x04C1); (0x04C4, 0x04C3); (0x04C6, 0x04C5);
   (0x04C8, 0x04C7); (0x04CA, 0x04C9); (0x04CC, 0x04CB); (0x04CE, 0x04CD);
   (0x04CF, 0x04C0); (0x04D1, 0x04D0); (0x04D3, 0x04D2); (0x04D5, 0x04D4);
   (0x04D7, 0x04D6); (0x04D9, 0x04D8); (0x04DB, 0x04DA); (0x04DD, 0x04DC);
   (0x04DF, 0x04DE); (0x04E1, 0x04E0); (0x04E3, 0x04E2); (0x04E5, 0x04E4);
   (0x04E7, 0x04E6); (0x04E9, 0x04E8); (0x04EB, 0x04EA); (0x04ED, 0x04EC);
   (0x04EF, 0x04EE); (0x04F1, 0x04F0); (0x04F3, 0x04F2); (0x04F5, 0x04F4);
   (0x04F7, 0x04F6); (0x04F9, 0x04F8); (0x04FB, 0x04FA); (0x04FD, 0x04FC);
   (0x04FF, 0x04FE); (0x0501, 0x0500); (0x0503, 0x0502); (0x0505, 0x0504);
   (0x0507, 0x0506); (0x0509, 0x0508); (0x050B, 0x050A); (0x050D, 0x050C);
   (0x050F, 0x050E); (0x0511, 0x0510); (0x0513, 0x0512); (0x0515, 0x0514);
   (0x0517, 0x0516); (0x0519, 0x0518); (0x051B, 0x051A); (0x051D, 0x051C);
   (0x051F, 0x051E); (0x0521, 0x0520); (0x0523, 0x0522); (0x0525, 0x0524);
   (0x0527, 0x0526); (0x0529, 0x0528); (0x052B, 0x052A); (0x052D, 0x052C);
   (0x052F, 0x052E); (0x0561, 0x0531); (0x0562, 0x0532); (0x0563, 0x0533);
   (0x0564, 0x0534); (0x0565, 0x0535); (0x0566, 0x0536); (0x0567, 0x0537);
   (0x0568, 0x0538); (0x0569, 0x0539); (0x056A, 0x053A); (0x056B, 0x053B);
   (0x056C, 0x053C); (0x056D, 0x053D); (0x056E, 0x053E); (0x056F, 0x053F);
   (0x0570, 0x0540); (0x0571, 0x0541); (0x0572, 0x0542); (0x0573, 0x0543);
   (0x0574, 0x0544); (0x0575, 0x0545); (0x0576, 0x0546); (0x0577, 0x0547);
   (0x0578, 0x0548); (0x0579, 0x0549); (0x057A, 0x054A); (0x057B, 0x054B);
   (0x057C, 0x054C); (0x057D, 0x054D); (0x057E, 0x054E); (0x057F, 0x054F);
   (0x0580, 0x0550); (0x0581, 0x0551); (0x0582, 0x0552); (0x0583, 0x0553);
   (0x0584, 0x0554); (0x0585, 0x0555); (0x0586, 0x0556); (0x10D0, 0x1C90);
   (0x10D1, 0x1C91); (0x10D2, 0x1C92); (0x10D3, 0x1C93); (0x10D4, 0x1C94);
   (0x10D5, 0x1C95); (0x10D6, 0x1C96); (0x10D7, 0x1C97); (0x10D8, 0x1C98);
   (0x10D9, 0x1C99); (0x10DA, 0x1C9A); (0x10DB, 0x1C9B); (0x10DC, 0x1C9C);
   (0x10DD, 0x1C9D); (0x10DE, 0x1C9E); (0x10DF, 0x1C9F); (0x10E0, 0x1CA0);
   (0x10E1, 0x1CA1); (0x10E2, 0x1CA2); (0x10E3, 0x1CA3); (0x10E4, 0x1CA4);
   (0x10E5, 0x1CA5); (0x10E6, 0x1CA6); (0x10E7, 0x1CA7); (0x10E8, 0x1CA8);
   (0x10E9, 0x1CA9); (0x10EA, 0x1CAA); (0x10EB, 0x1CAB); (0x10EC, 0x1CAC);
   (0x10ED, 0x1CAD); (0x10EE, 0x1CAE); (0x10EF, 0x1CAF); (0x10F0, 0x1CB0);
   (0x10F1, 0x1CB1); (0x10F2, 0x1CB2); (0x10F3, 0x1CB3); (0x10F4, 0x1CB4);
   (0x10F5, 0x1CB5); (0x10F6, 0x1CB6); (0x10F7, 0x1CB7); (0x10F8, 0x1CB8);
   (0x10F9, 0x1CB9); (0x10FA, 0x1CBA); (0x10FD, 0x1CBD); (0x10FE, 0x1CBE);
   (0x10FF, 0x1CBF); (0x13F8, 0x13F0); (0x13F9, 0x13F1); (0x13FA, 0x13F2);
   (0x13FB, 0x13F3); (0x13FC, 0x13F4); (0x13FD, 0x13F5); (0x1C80, 0x0412);
   (0x1C81, 0x0414); (0x1C82, 0x041E); (0x1C83, 0x0421); (0x1C84, 0x0422);
   (0x1C85, 0x0422); (0x1C86, 0x042A); (0x1C87, 0x0462); (0x1C88, 0xA64A);
   (0x1D79, 0xA77D); (0x1D7D, 0x2C63); (0x1D8E, 0xA7C6); (0x1E01, 0x1E00);
   (0x1E03, 0x1E02); (0x1E05, 0x1E04); (0x1E07, 0x1E06); (0x1E09, 0x1E08);
   (0x1E0B, 0x1E0A); (0x1E0D, 0x1E0C); (0x1E0F, 0x1E0E); (0x1E11, 0x1E10);
   (0x1E13, 0x1E12); (0x1E15, 0x1E14); (0x1E17, 0x1E16); (0x1E19, 0x1E18);
   (0x1E1B, 0x1E1A); (0x1E1D, 0x1E1C); (0x1E1F, 0x1E1E); (0x1E21, 0x1E20);
   (0x1E23, 0x1E22); (0x1E25, 0x1E24); (0x1E27, 0x1E26); (0x1E29, 0x1E28);
   (0x1E2B, 0x1E2A); (0x1E2D, 0x1E2C); (0x1E2F, 0x1E2E); (0x1E31, 0x1E30);
   (0x1E33, 0x1E32); (0x1E35, 0x1E34); (0x1E37, 0x1E36); (0x1E39, 0x1E38);
   (0x1E3B, 0x1E3A); (0x1E3D, 0x1E3C); (0x1E3F, 0x1E3E); (0x1E41, 0x1E40);
   (0x1E43, 0x1E42); (0x1E45, 0x1E44); (0x1E47, 0x1E46); (0x1E49, 0x1E48);
   (0x1E4B, 0x1E4A); (0x1E4D, 0x1E4C); (0x1E4F, 0x1E4E); (0x1E51, 0x1E50);
   (0x1E53, 0x1E52); (0x1E55, 0x1E54); (0x1E57, 0x1E56); (0x1E59, 0x1E58);
   (0x1E5B, 0x1E5A); (0x1E5D, 0x1E5C); (0x1E5F, 0x1E5E); (0x1E61, 0x1E60);
   (0x1E63, 0x1E62); (0x1E65, 0x1E64); (0x1E67, 0x1E66); (0x1E69, 0x1E68);
   (0x1E6B, 0x1E6A); (0x1E6D, 0x1E6C); (0x1E6F, 0x1E6E); (0x1E71, 0x1E70);
   (0x1E73, 0x1E72); (0x1E75, 0x1E74); (0x1E77, 0x1E76); (0x1E79, 0x1E78);
   (0x1E7B, 0x1E7A); (0x1E7D, 0x1E7C); (0x1E7F, 0x1E7E); (0x1E81, 0x1E80);
   (0x1E83, 0x1E82); (0x1E85, 0x1E84); (0x1E87, 0x1E86); (0x1E89, 0x1E88);
   (0x1E8B, 0x1E8A); (0x1E8D, 0x1E8C); (0x1E8F, 0x1E8E); (0x1E91, 0x1E90);
   (0x1E93, 0x1E92); (0x1E95, 0x1E94); (0x1E9B, 0x1E60); (0x1EA1, 0x1EA0);
   (0x1EA3, 0x1EA2); (0x1EA5, 0x1EA4); (0x1EA7, 0x1EA6); (0x1EA9, 0x1EA8);
   (0x1EAB, 0x1EAA); (0x1EAD, 0x1EAC); (0x1EAF, 0x1EAE); (0x1EB1, 0x1EB0);
   (0x1EB3, 0x1EB2); (0x1EB5, 0x1EB4); (0x1EB7, 0x1EB6); (0x1EB9, 0x1EB8);
   (0x1EBB, 0x1EBA); (0x1EBD, 0x1EBC); (0x1EBF, 0x1EBE); (0x1EC1, 0x1EC0);
   (0x1EC3, 0x1EC2); (0x1EC5, 0x1EC4); (0x1EC7, 0x1EC6); (0x1EC9, 0x1EC8);
   (0x1ECB, 0x1ECA); (0x1ECD, 0x1ECC); (0x1ECF, 0x1ECE); (0x1ED1, 0x1ED0);
   (0x1ED3, 0x1ED2); (0x1ED5, 0x1ED4); (0x1ED7, 0x1ED6); (0x1ED9, 0x1ED8);
   (0x1EDB, 0x1EDA); (0x1EDD, 0x1EDC); (0x1EDF, 0x1EDE); (0x1EE1, 0x1EE0);
   (0x1EE3, 0x1EE2); (0x1EE5, 0x1EE4); (0x1EE7, 0x1EE6); (0x1EE9, 0x1EE8);
   (0x1EEB, 0x1EEA); (0x1EED, 0x1EEC); (0x1EEF, 0x1EEE); (0x1EF1, 0x1EF0);
   (0x1EF3, 0x1EF2); (0x1EF5, 0x1EF4); (0x1EF7, 0x1EF6); (0x1EF9, 0x1EF8);
   (0x1EFB, 0x1EFA); (0x1EFD, 0x1EFC); (0x1EFF, 0x1EFE); (0x1F00, 0x1F08);
   (0x1F01, 0x1F09); (0x1F02, 0x1F0A); (0x1F03, 0x1F0B); (0x1F04, 0x1F0C);
   (0x1F05, 0x1F0D); (0x1F06, 0x1F0E); (0x1F07, 0x1F0F); (0x1F10, 0x1F18);
   (0x1F11, 0x1F19); (0x1F12, 0x1F1A); (0x1F13, 0x1F1B); (0x1F14, 0x1F1C);
   (0x1F15, 0x1F1D); (0x1F20, 0x1F28); (0x1F21, 0x1F29); (0x1F22, 0x1F2A);
   (0x1F23, 0x1F2B); (0x1F24, 0x1F2C); (0x1F25, 0x1F2D); (0x1F26, 0x1F2E);
   (0x1F27, 0x1F2F); (0x1F30, 0x1F38); (0x1F31, 0x1F39); (0x1F32, 0x1F3A);
   (0x1F33, 0x1F3B); (0x1F34, 0x1F3C); (0x1F35, 0x1F3D); (0x1F36, 0x1F3E);
   (0x1F37, 0x1F3F); (0x1F40, 0x1F48); (0x1F41, 0x1F49); (0x1F42, 0x1F4A);
   (0x1F43, 0x1F4B); (0x1F44, 0x1F4C); (0x1F45, 0x1F4D); (0x1F51, 0x1F59);
   (0x1F53, 0x1F5B); (0x1F55, 0x1F5D); (0x1F57, 0x1F5F); (0x1F60, 0x1F68);
   (0x1F61, 0x1F69); (0x1F62, 0x1F6A); (0x1F63, 0x1F6B); (0x1F64, 0x1F6C);
   (0x1F65, 0x1F6D); (0x1F66, 0x1F6E); (0x1F67, 0x1F6F); (0x1F70, 0x1FBA);
   (0x1F71, 0x1FBB); (0x1F72, 0x1FC8); (0x1F73, 0x1FC9); (0x1F74, 0x1FCA);
   (0x1F75, 0x1FCB); (0x1F76, 0x1FDA); (0x1F77, 0x1FDB); (0x1F78, 0x1FF8);
   (0x1F79, 0x1FF9); (0x1F7A, 0x1FEA); (0x1F7B, 0x1FEB); (0x1F7C, 0x1FFA);
   (0x1F7D, 0x1FFB); (0x1FB0, 0x1FB8); (0x1FB1, 0x1FB9); (0x1FBE, 0x0399);
   (0x1FD0, 0x1FD8); (0x1FD1, 0x1FD9); (0x1FE0, 0x1FE8); (0x1FE1, 0x1FE9);
   (0x1FE5, 0x1FEC); (0x214E, 0x2132); (0x2170, 0x2160); (0x2171, 0x2161);
   (0x2172, 0x2162); (0x2173, 0x2163); (0x2174, 0x2164); (0x2175, 0x2165);
   (0x2176, 0x2166); (0x2177, 0x2167); (0x2178, 0x2168); (0x2179, 0x2169);
   (0x217A, 0x216A); (0x217B, 0x216B); (0x217C, 0x216C); (0x217D, 0x216D);
   (0x217E, 0x216E); (0x217F, 0x216F); (0x2184, 0x2183); (0x24D0, 0x24B6);
   (0x24D1, 0x24B7); (0x24D2, 0x24B8); (0x24D3, 0x24B9); (0x24D4, 0x24BA);
   (0x24D5, 0x24BB); (0x24D6, 0x24BC); (0x24D7, 0x24BD); (0x24D8, 0x24BE);
   (0x24D9, 0x24BF); (0x24DA, 0x24C0); (0x24DB, 0x24C1); (0x24DC, 0x24C2);
   (0x24DD, 0x24C3); (0x24DE, 0x24C4); (0x24DF, 0x24C5); (0x24E0, 0x24C6);
   (0x24E1, 0x24C7); (0x24E2, 0x24C8); (0x24E3, 0x24C9); (0x24E4, 0x24CA);
   (0x24E5, 0x24CB); (0x24E6, 0x24CC); (0x24E7, 0x24CD); (0x24E8, 0x24CE);
   (0x24E9, 0x24CF); (0x2C30, 0x2C00); (0x2C31, 0x2C01); (0x2C32, 0x2C02);
   (0x2C33, 0x2C03); (0x2C34, 0x2C04); (0x2C35, 0x2C05); (0x2C36, 0x2C06);
   (0x2C37, 0x2C07); (0x2C38, 0x2C08); (0x2C39, 0x2C09); (0x2C3A, 0x2C0A);
   (0x2C3B, 0x2C0B); (0x2C3C, 0x2C0C); (0x2C3D, 0x2C0D); (0x2C3E, 0x2C0E);
   (0x2C3F, 0x2C0F); (0x2C40, 0x2C10); (0x2C41, 0x2C11); (0x2C42, 0x2C12);
   (0x2C43, 0x2C13); (0x2C44, 0x2C14); (0x2C45, 0x2C15); (0x2C46, 0x2C16);
   (0x2C47, 0x2C17); (0x2C48, 0x2C18); (0x2C49, 0x2C19); (0x2C4A, 0x2C1A);
   (0x2C4B, 0x2C1B); (0x2C4C, 0x2C1C); (0x2C4D, 0x2C1D); (0x2C4E, 0x2C1E);
   (0x2C4F, 0x2C1F); (0x2C50, 0x2C20); (0x2C51, 0x2C21); (0x2C52, 0x2C22);
   (0x2C53, 0x2C23); (0x2C54, 0x2C24); (0x2C55, 0x2C25); (0x2C56, 0x2C26);
   (0x2C57, 0x2C27); (0x2C58, 0x2C28); (0x2C59, 0x2C29); (0x2C5A, 0x2C2A);
   (0x2C5B, 0x2C2B); (0x2C5C, 0x2C2C); (0x2C5D, 0x2C2D); (0x2C5E, 0x2C2E);
   (0x2C5F, 0x2C2F); (0x2C61, 0x2C60); (0x2C65, 0x023A); (0x2C66, 0x023E);
   (0x2C68, 0x2C67); (0x2C6A, 0x2C69); (0x2C6C, 0x2C6B); (0x2C73, 0x2C72);
   (0x2C76, 0x2C75); (0x2C81, 0x2C80); (0x2C83, 0x2C82); (0x2C85, 0x2C84);
   (0x2C87, 0x2C86); (0x2C89, 0x2C88); (0x2C8B, 0x2C8A); (0x2C8D, 0x2C8C);
   (0x2C8F, 0x2C8E); (0x2C91, 0x2C90); (0x2C93, 0x2C92); (0x2C95, 0x2C94);
   (0x2C97, 0x2C96); (0x2C99, 0x2C98); (0x2C9B, 0x2C9A); (0x2C9D, 0x2C9C);
   (0x2C9F, 0x2C9E); (0x2CA1, 0x2CA0); (0x2CA3, 0x2CA2); (0x2CA5, 0x2CA4);
   (0x2CA7, 0x2CA6); (0x2CA9, 0x2CA8); (0x2CAB, 0x2CAA); (0x2CAD, 0x2CAC);
   (0x2CAF, 0x2CAE); (0x2CB1, 0x2CB0); (0x2CB3, 0x2CB2); (0x2CB5, 0x2CB4);
   (0x2CB7, 0x2CB6); (0x2CB9, 0x2CB8); (0x2CBB, 0x2CBA); (0x2CBD, 0x2CBC);
   (0x2CBF, 0x2CBE); (0x2CC1, 0x2CC0); (0x2CC3, 0x2CC2); (0x2CC5, 0x2CC4);
   (0x2CC7, 0x2CC6); (0x2CC9, 0x2CC8); (0x2CCB, 0x2CCA); (0x2CCD, 0x2CCC);
   (0x2CCF, 0x2CCE); (0x2CD1, 0x2CD0); (0x2CD3, 0x2CD2); (0x2CD5, 0x2CD4);
   (0x2CD7, 0x2CD6); (0x2CD9, 0x2CD8); (0x2CDB, 0x2CDA); (0x2CDD, 0x2CDC);
   (0x2CDF, 0x2CDE); (0x2CE1, 0x2CE0); (0x2CE3, 0x2CE2); (0x2CEC, 0x2CEB);
   (0x2CEE, 0x2CED); (0x2CF3, 0x2CF2); (0x2D00, 0x10A0); (0x2D01, 0x10A1);
   (0x2D02, 0x10A2); (0x2D03, 0x10A3); (0x2D04, 0x10A4); (0x2D05, 0x10A5);
   (0x2D06, 0x10A6); (0x2D07, 0x10A7); (0x2D08, 0x10A8); (0x2D09, 0x10A9);
   (0x2D0A, 0x10AA); (0x2D0B, 0x10AB); (0x2D0C, 0x10AC); (0x2D0D, 0x10AD);
   (0x2D0E, 0x10AE); (0x2D0F, 0x10AF); (0x2D10, 0x10B0); (0x2D11, 0x10B1);
   (0x2D12, 0x10B2); (0x2D13, 0x10B3); (0x2D14, 0x10B4); (0x2D15, 0x10B5);
   (0x2D16, 0x10B6); (0x2D17, 0x10B7); (0x2D18, 0x10B8); (0x2D19, 0x10B9);
   (0x2D1A, 0x10BA); (0x2D1B, 0x10BB); (0x2D1C, 0x10BC); (0x2D1D, 0x10BD);
   (0x2D1E, 0x10BE); (0x2D1F, 0x10BF); (0x2D20, 0x10C0); (0x2D21, 0x10C1);
   (0x2D22, 0x10C2); (0x2D23, 0x10C3); (0x2D24, 0x10C4); (0x2D25, 0x10C5);
   (0x2D27, 0x10C7); (0x2D2D, 0x10CD); (0xA641, 0xA640); (0xA643, 0xA642);
   (0xA645, 0xA644); (0xA647, 0xA646); (0xA649, 0xA648); (0xA64B, 0xA64A);
   (0xA64D, 0xA64C); (0xA64F, 0xA64E); (0xA651, 0xA650); (0xA653, 0xA652);
   (0xA655, 0xA654); (0xA657, 0xA656); (0xA659, 0xA658); (0xA65B, 0xA65A);
   (0xA65D, 0xA65C); (0xA65F, 0xA65E); (0xA661, 0xA660); (0xA663, 0xA662);
   (0xA665, 0xA664); (0xA667, 0xA666); (0xA669, 0xA668); (0xA66B, 0xA66A);
   (0xA66D, 0xA66C); (0xA681, 0xA680); (0xA683, 0xA682); (0xA685, 0xA684);
   (0xA687, 0xA686); (0xA689, 0xA688); (0xA68B, 0xA68A); (0xA68D, 0xA68C);
   (0xA68F, 0xA68E); (0xA691, 0xA690); (0xA693, 0xA692); (0xA695, 0xA694);
   (0xA697, 0xA696); (0xA699, 0xA698); (0xA69B, 0xA69A); (0xA723, 0xA722);
   (0xA725, 0xA724); (0xA727, 0xA726); (0xA729, 0xA728); (0xA72B, 0xA72A);
   (0xA72D, 0xA72C); (0xA72F, 0xA72E); (0xA733, 0xA732); (0xA735, 0xA734);
   (0xA737, 0xA736); (0xA739, 0xA738); (0xA73B, 0xA73A); (0xA73D, 0xA73C);
   (0xA73F, 0xA73E); (0xA741, 0xA740); (0xA743, 0xA742); (0xA745, 0xA744);
   (0xA747, 0xA746); (0xA749, 0xA748); (0xA74B, 0xA74A); (0xA74D, 0xA74C);
   (0xA74F, 0xA74E); (0xA751, 0xA750); (0xA753, 0xA752); (0xA755, 0xA754);
   (0xA757, 0xA756); (0xA759, 0xA758); (0xA75B, 0xA75A); (0xA75D, 0xA75C);
   (0xA75F, 0xA75E); (0xA761, 0xA760); (0xA763, 0xA762); (0xA765, 0xA764);
   (0xA767, 0xA766); (0xA769, 0xA768); (0xA76B, 0xA76A); (0xA76D, 0xA76C);
   (0xA76F, 0xA76E); (0xA77A, 0xA779); (0xA77C, 0xA77B); (0xA77F, 0xA77E);
   (0xA781, 0xA780); (0xA783, 0xA782); (0xA785, 0xA784); (0xA787, 0xA786);
   (0xA78C, 0xA78B); (0xA791, 0xA790); (0xA793, 0xA792); (0xA794, 0xA7C4);
   (0xA797, 0xA796); (0xA799, 0xA798); (0xA79B, 0xA79A); (0xA79D, 0xA79C);
   (0xA79F, 0xA79E); (0xA7A1, 0xA7A0); (0xA7A3, 0xA7A2); (0xA7A5, 0xA7A4);
   (0xA7A7, 0xA7A6); (0xA7A9, 0xA7A8); (0xA7B5, 0xA7B4); (0xA7B7, 0xA7B6);
   (0xA7B9, 0xA7B8); (0xA7BB, 0xA7BA); (0xA7BD, 0xA7BC); (0xA7BF, 0xA7BE);
   (0xA7C1, 0xA7C0); (0xA7C3, 0xA7C2); (0xA7C8, 0xA7C7); (0xA7CA, 0xA7C9);
   (0xA7D1, 0xA7D0); (0xA7D7, 0xA7D6); (0xA7D9, 0xA7D8); (0xA7F6, 0xA7F5);
   (0xAB53, 0xA7B3); (0xAB70, 0x13A0); (0xAB71, 0x13A1); (0xAB72, 0x13A2);
   (0xAB73, 0x13A3); (0xAB74, 0x13A4); (0xAB75, 0x13A5); (0xAB76, 0x13A6);
   (0xAB77, 0x13A7); (0xAB78, 0x13A8); (0xAB79, 0x13A9); (0xAB7A, 0x13AA);
   (0xAB7B, 0x13AB); (0xAB7C, 0x13AC); (0xAB7D, 0x13AD); (0xAB7E, 0x13AE);
   (0xAB7F, 0x13AF); (0xAB80, 0x13B0); (0xAB81, 0x13B1); (0xAB82, 0x13B2);
   (0xAB83, 0x13B3); (0xAB84, 0x13B4); (0xAB85, 0x13B5); (0xAB86, 0x13B6);
   (0xAB87, 0x13B7); (0xAB88, 0x13B8); (0xAB89, 0x13B9); (0xAB8A, 0x13BA);
   (0xAB8B, 0x13BB); (0xAB8C, 0x13BC); (0xAB8D, 0x13BD); (0xAB8E, 0x13BE);
   (0xAB8F, 0x13BF); (0xAB90, 0x13C0); (0xAB91, 0x13C1); (0xAB92, 0x13C2);
   (0xAB93, 0x13C3); (0xAB94, 0x13C4); (0xAB95, 0x13C5); (0xAB96, 0x13C6);
   (0xAB97, 0x13C7); (0xAB98, 0x13C8); (0xAB99, 0x13C9); (0xAB9A, 0x13CA);
   (0xAB9B, 0x13CB); (0xAB9C, 0x13CC); (0xAB9D, 0x13CD); (0xAB9E, 0x13CE);
   (0xAB9F, 0x13CF); (0xABA0, 0x13D0); (0xABA1, 0x13D1); (0xABA2, 0x13D2);
   (0xABA3, 0x13D3); (0xABA4, 0x13D4); (0xABA5, 0x13D5); (0xABA6, 0x13D6);
   (0xABA7, 0x13D7); (0xABA8, 0x13D8); (0xABA9, 0x13D9); (0xABAA, 0x13DA);
   (0xABAB, 0x13DB); (0xABAC, 0x13DC); (0xABAD, 0x13DD); (0xABAE, 0x13DE);
   (0xABAF, 0x13DF); (0xABB0, 0x13E0); (0xABB1, 0x13E1); (0xABB2, 0x13E2);
   (0xABB3, 0x13E3); (0xABB4, 0x13E4); (0xABB5, 0x13E5); (0xABB6, 0x13E6);
   (0xABB7, 0x13E7); (0xABB8, 0x13E8); (0xABB9, 0x13E9); (0xABBA, 0x13EA);
   (0xABBB, 0x13EB); (0xABBC, 0x13EC); (0xABBD, 0x13ED); (0xABBE, 0x13EE);
   (0xABBF, 0x13EF); (0xFF41, 0xFF21); (0xFF42, 0xFF22); (0xFF43, 0xFF23);
   (0xFF44, 0xFF24); (0xFF45, 0xFF25); (0xFF46, 0xFF26); (0xFF47, 0xFF27);
   (0xFF48, 0xFF28); (0xFF49, 0xFF29); (0xFF4A, 0xFF2A); (0xFF4B, 0xFF2B);
   (0xFF4C, 0xFF2C); (0xFF4D, 0xFF2D); (0xFF4E, 0xFF2E); (0xFF4F, 0xFF2F);
   (0xFF50, 0xFF30); (0xFF51, 0xFF31); (0xFF52, 0xFF32); (0xFF53, 0xFF33);
   (0xFF54, 0xFF34); (0xFF55, 0xFF35); (0xFF56, 0xFF36); (0xFF57, 0xFF37);
   (0xFF58, 0xFF38); (0xFF59, 0xFF39); (0xFF5A, 0xFF3A); (0x10428, 0x10400);
   (0x10429, 0x10401); (0x1042A, 0x10402); (0x1042B, 0x10403);
   (0x1042C, 0x10404); (0x1042D, 0x10405); (0x1042E, 0x10406);
   (0x1042F, 0x10407); (0x10430, 0x10408); (0x10431, 0x10409);
   (0x10432, 0x1040A); (0x10433, 0x1040B); (0x10434, 0x1040C);
   (0x10435, 0x1040D); (0x10436, 0x1040E); (0x10437, 0x1040F);
   (0x10438, 0x10410); (0x10439, 0x10411); (0x1043A, 0x10412);
   (0x1043B, 0x10413); (0x1043C, 0x10414); (0x1043D, 0x10415);
   (0x1043E, 0x10416); (0x1043F, 0x10417); (0x10440, 0x10418);
   (0x10441, 0x10419); (0x10442, 0x1041A); (0x10443, 0x1041B);
   (0x10444, 0x1041C); (0x10445, 0x1041D); (0x10446, 0x1041E);
   (0x10447, 0x1041F); (0x10448, 0x10420); (0x10449, 0x10421);
   (0x1044A, 0x10422); (0x1044B, 0x10423); (0x1044C, 0x10424);
   (0x1044D, 0x10425); (0x1044E, 0x10426); (0x1044F, 0x10427);
   (0x104D8, 0x104B0); (0x104D9, 0x104B1); (0x104DA, 0x104B2);
   (0x104DB, 0x104B3); (0x104DC, 0x104B4); (0x104DD, 0x104B5);
   (0x104DE, 0x104B6); (0x104DF, 0x104B7); (0x104E0, 0x104B8);
   (0x104E1, 0x104B9); (0x104E2, 0x104BA); (0x104E3, 0x104BB);
   (0x104E4, 0x104BC); (0x104E5, 0x104BD); (0x104E6, 0x104BE);
   (0x104E7, 0x104BF); (0x104E8, 0x104C0); (0x104E9, 0x104C1);
   (0x104EA, 0x104C2); (0x104EB, 0x104C3); (0x104EC, 0x104C4);
   (0x104ED, 0x104C5); (0x104EE, 0x104C6); (0x104EF, 0x104C7);
   (0x104F0, 0x104C8); (0x104F1, 0x104C9); (0x104F2, 0x104CA);
   (0x104F3, 0x104CB); (0x104F4, 0x104CC); (0x104F5, 0x104CD);
   (0x104F6, 0x104CE); (0x104F7, 0x104CF); (0x104F8, 0x104D0);
   (0x104F9, 0x104D1); (0x104FA, 0x104D2); (0x104FB, 0x104D3);
   (0x10597, 0x10570); (0x10598, 0x10571); (0x10599, 0x10572);
   (0x1059A, 0x10573); (0x1059B, 0x10574); (0x1059C, 0x10575);
   (0x1059D, 0x10576); (0x1059E, 0x10577); (0x1059F, 0x10578);
   (0x105A0, 0x10579); (0x105A1, 0x1057A); (0x105A3, 0x1057C);
   (0x105A4, 0x1057D); (0x105A5, 0x1057E); (0x105A6, 0x1057F);
   (0x105A7, 0x10580); (0x105A8, 0x10581); (0x105A9, 0x10582);
   (0x105AA, 0x10583); (0x105AB, 0x10584); (0x105AC, 0x10585);
   (0x105AD, 0x10586); (0x105AE, 0x10587); (0x105AF, 0x10588);
   (0x105B0, 0x10589); (0x105B1, 0x1058A); (0x105B3, 0x1058C);
   (0x105B4, 0x1058D); (0x105B5, 0x1058E); (0x105B6, 0x1058F);
   (0x105B7, 0x10590); (0x105B8, 0x10591); (0x105B9, 0x10592);
   (0x105BB, 0x10594); (0x105BC, 0x10595); (0x10CC0, 0x10C80);
   (0x10CC1, 0x10C81); (0x10CC2, 0x10C82); (0x10CC3, 0x10C83);
   (0x10CC4, 0x10C84); (0x10CC5, 0x10C85); (0x10CC6, 0x10C86);
   (0x10CC7, 0x10C87); (0x10CC8, 0x10C88); (0x10CC9, 0x10C89);
   (0x10CCA, 0x10C8A); (0x10CCB, 0x10C8B); (0x10CCC, 0x10C8C);
   (0x10CCD, 0x10C8D); (0x10CCE, 0x10C8E); (0x10CCF, 0x10C8F);
   (0x10CD0, 0x10C90); (0x10CD1, 0x10C91); (0x10CD2, 0x10C92);
   (0x10CD3, 0x10C93); (0x10CD4, 0x10C94); (0x10CD5, 0x10C95);
   (0x10CD6, 0x10C96); (0x10CD7, 0x10C97); (0x10CD8, 0x10C98);
   (0x10CD9, 0x10C99); (0x10CDA, 0x10C9A); (0x10CDB, 0x10C9B);
   (0x10CDC, 0x10C9C); (0x10CDD, 0x10C9D); (0x10CDE, 0x10C9E);
   (0x10CDF, 0x10C9F); (0x10CE0, 0x10CA0); (0x10CE1, 0x10CA1);
   (0x10CE2, 0x10CA2); (0x10CE3, 0x10CA3); (0x10CE4, 0x10CA4);
   (0x10CE5, 0x10CA5); (0x10CE6, 0x10CA6); (0x10CE7, 0x10CA7);
   (0x10CE8, 0x10CA8); (0x10CE9, 0x10CA9); (0x10CEA, 0x10CAA);
   (0x10CEB, 0x10CAB); (0x10CEC, 0x10CAC); (0x10CED, 0x10CAD);
   (0x10CEE, 0x10CAE); (0x10CEF, 0x10CAF); (0x10CF0, 0x10CB0);
   (0x10CF1, 0x10CB1); (0x10CF2, 0x10CB2); (0x118C0, 0x118A0);
   (0x118C1, 0x118A1); (0x118C2, 0x118A2); (0x118C3, 0x118A3);
   (0x118C4, 0x118A4); (0x118C5, 0x118A5); (0x118C6, 0x118A6);
   (0x118C7, 0x118A7); (0x118C8, 0x118A8); (0x118C9, 0x118A9);
   (0x118CA, 0x118AA); (0x118CB, 0x118AB); (0x118CC, 0x118AC);
   (0x118CD, 0x118AD); (0x118CE, 0x118AE); (0x118CF, 0x118AF);
   (0x118D0, 0x118B0); (0x118D1, 0x118B1); (0x118D2, 0x118B2);
   (0x118D3, 0x118B3); (0x118D4, 0x118B4); (0x118D5, 0x118B5);
   (0x118D6, 0x118B6); (0x118D7, 0x118B7); (0x118D8, 0x118B8);
   (0x118D9, 0x118B9); (0x118DA, 0x118BA); (0x118DB, 0x118BB);
   (0x118DC, 0x118BC); (0x118DD, 0x118BD); (0x118DE, 0x118BE);
   (0x118DF, 0x118BF); (0x16E60, 0x16E40); (0x16E61, 0x16E41);
   (0x16E62, 0x16E42); (0x16E63, 0x16E43); (0x16E64, 0x16E44);
   (0x16E65, 0x16E45); (0x16E66, 0x16E46); (0x16E67, 0x16E47);
   (0x16E68, 0x16E48); (0x16E69, 0x16E49); (0x16E6A, 0x16E4A);
   (0x16E6B, 0x16E4B); (0x16E6C, 0x16E4C); (0x16E6D, 0x16E4D);
   (0x16E6E, 0x16E4E); (0x16E6F, 0x16E4F); (0x16E70, 0x16E50);
   (0x16E71, 0x16E51); (0x16E72, 0x16E52); (0x16E73, 0x16E53);
   (0x16E74, 0x16E54); (0x16E75, 0x16E55); (0x16E76, 0x16E56);
   (0x16E77, 0x16E57); (0x16E78, 0x16E58); (0x16E79, 0x16E59);
   (0x16E7A, 0x16E5A); (0x16E7B, 0x16E5B); (0x16E7C, 0x16E5C);
   (0x16E7D, 0x16E5D); (0x16E7E, 0x16E5E); (0x16E7F, 0x16E5F);
   (0x1E922, 0x1E900); (0x1E923, 0x1E901); (0x1E924, 0x1E902);
   (0x1E925, 0x1E903); (0x1E926, 0x1E904); (0x1E927, 0x1E905);
   (0x1E928, 0x1E906); (0x1E929, 0x1E907); (0x1E92A, 0x1E908);
   (0x1E92B, 0x1E909); (0x1E92C, 0x1E90A); (0x1E92D, 0x1E90B);
   (0x1E92E, 0x1E90C); (0x1E92F, 0x1E90D); (0x1E930, 0x1E90E);
   (0x1E931, 0x1E90F); (0x1E932, 0x1E910); (0x1E933, 0x1E911);
   (0x1E934, 0x1E912); (0x1E935, 0x1E913); (0x1E936, 0x1E914);
   (0x1E937, 0x1E915); (0x1E938, 0x1E916); (0x1E939, 0x1E917);
   (0x1E93A, 0x1E918); (0x1E93B, 0x1E919); (0x1E93C, 0x1E91A);
   (0x1E93D, 0x1E91B); (0x1E93E, 0x1E91C); (0x1E93F, 0x1E91D);
   (0x1E940, 0x1E91E); (0x1E941, 0x1E91F); (0x1E942, 0x1E920);
   (0x1E943, 0x1E921)]%N.

Fixpoint mapping {A : Type} (n : N) (table : list (N * A)) : option A :=
  match table with
  | [] => None
  | (k, v) :: rest => if (k =? n)%N then Some v else mapping n rest
  end.

(** The upper case of a code point; bytes that are no code point stay. *)
Definition upper_char (c : string) : string :=
  match number c with
  | Some n =>
      match mapping n special_upper_case with
      | Some l => text (map utf8 l)
      | None =>
          match mapping n simple_upper_case with
          | Some u => utf8 u
          | None => c
          end
      end
  | None => c
  end.

Definition toUpperCase (s : string) : string :=
  text (map upper_char (code_points s)).

(** The flag [i] of a regular expression without the flag [u]: characters
    are compared in upper case, where the upper case of a character counts
    only if it is a single code unit, and a character outside ASCII is
    never taken for an ASCII one. Against a pattern of ASCII characters
    this reads the letters a to z of the text as A to Z and leaves every
    other byte as it is. *)
Definition canonicalize (c : ascii) : ascii :=
  let n := nat_of_ascii c in
  if ((97 <=? n) && (n <=? 122))%nat then ascii_of_nat (n - 32) else c.

Fixpoint ignore_case (s : string) : string :=
  match s with
  | String c rest => String (canonicalize c) (ignore_case rest)
  | EmptyString => EmptyString
  end.

(** [s.startsWith(p)] *)
Definition startsWith (s p : string) : bool := String.prefix p s.

(** [s.includes(p)] *)
Fixpoint includes (s p : string) : bool :=
  String.prefix p s ||
  match s with
  | String _ rest => includes rest p
  | EmptyString => false
  end.

(** [s.replace(/;+$/, '')]: the trailing run of semicolons is removed. *)
Fixpoint stripTrailingSemicolons (s : string) : string :=
  match s with
  | String c rest =>
      match stripTrailingSemicolons rest with
      | EmptyString => if Ascii.eqb c ";" then EmptyString else String c EmptyString
      | r => String c r
      end
  | EmptyString => EmptyString
  end.

(** [\w] of a regular expression. *)
Definition is_word_char (c : ascii) : bool :=
  let n := nat_of_ascii c in
  (((48 <=? n) && (n <=? 57)) || ((65 <=? n) && (n <=? 90))
   || ((97 <=? n) && (n <=? 122)) || (n =? 95))%nat.

Definition is_digit (c : ascii) : bool :=
  let n := nat_of_ascii c in ((48 <=? n) && (n <=? 57))%nat.

(** [xs.join(sep)] *)
Definition join (sep : string) (xs : list string) : string := String.concat sep xs.

End JS.

(* ================================================================== *)
(** ** Results of calls that may throw, and the world they act on *)

Inductive Result (A : Type) : Type :=
| Ok (value : A)
| Throw (message : string).

Arguments Ok {A} value.
Arguments Throw {A} message.

(* ================================================================== *)
(** ** Data exchanged with the agents *)

(** The schema description returned by [databaseService.getSchemaInfo()]:
    an object keyed by table name. *)
Definition Schema := list (string * string).

(** A value of a result row, as far as [getJavaScriptType] tells them apart
    (dates, arrays and nested objects are left out). *)
Inductive JsValue :=
| JNull
| JInteger (z : Z)
| JBoolean (b : bool)
| JString (s : string).

Definition Row := list (string * JsValue).

Inductive RiskLevel := LOW | MEDIUM | HIGH.

Definition RiskLevel_eqb (a b : RiskLevel) : bool :=
  match a, b with
  | LOW, LOW | MEDIUM, MEDIUM | HIGH, HIGH => true
  | _, _ => false
  end.

Definition RiskLevel_to_string (r : RiskLevel) : string :=
  match r with LOW => "LOW" | MEDIUM => "MEDIUM" | HIGH => "HIGH" end.

Module NLToSQL.
Record Input := { naturalLanguageQuery : string; schema : Schema }.
Record Output := { sqlQuery : string; explanation : string; confidence : Z }.
End NLToSQL.

Module SQLValidation.
Record Input :=
  { sqlQuery : string; originalQuestion : string; schema : Schema;
    explanation : string }.
Record Output :=
  { isValid : bool; issues : list string; suggestions : list string;
    improvedQuery : option string; riskLevel : RiskLevel;
    shouldExecute : bool }.
Record Alternative :=
  { query : string; alt_explanation : string; confidence : Z }.
(** What [experimentWithQuery] resolves to; the workflow guards against a
    missing [alternatives] field. *)
Record Alternatives := { alternatives : option (list Alternative) }.
End SQLValidation.

Module SQLExecution.
Record Input :=
  { sqlQuery : string; isValidated : bool; riskLevel : RiskLevel }.
Record ColumnInfo := { name : string; type : string }.
Record Output :=
  { success : bool; data : option (list Row); error : option string;
    executionTime : Z; rowCount : Z; columnInfo : list ColumnInfo }.
End SQLExecution.

Module ResultInterpretation.
Record Input :=
  { originalQuestion : string; sqlQuery : string; queryResults : list Row }.
End ResultInterpretation.

(** [AskQLStructuredOutput] of askql.schema.ts; chart data is not inspected by
    the workflow and is kept as a title. *)
Record TableView :=
  { table_should_show : bool; table_columns : list string; table_data : list Row }.
Record ChartView := { chart_should_show : bool; chart_title : string }.
Record AskQLStructuredOutput :=
  { summary : string; table : TableView;
    bar_chart : option ChartView; line_chart : option ChartView;
    pie_chart : option ChartView }.

(* ================================================================== *)
(** ** The state that flows through the graph *)

Record AskQLState :=
  { originalQuestion : string;
    sessionId : option string;
    schema : option Schema;
    sqlQuery : option string;
    queryExplanation : option string;
    sqlConfidence : option Z;
    validationResult : option SQLValidation.Output;
    alternativeQueries : option (list SQLValidation.Alternative);
    executionResult : option SQLExecution.Output;
    finalResponse : option AskQLStructuredOutput;
    error : option string;
    retryCount : option Z;
    messages : list string }.

(** One [key: value] entry of the object literal a node returns. *)
Inductive Assignment :=
| set_schema (v : Schema)
| set_sqlQuery (v : string)
| set_queryExplanation (v : string)
| set_sqlConfidence (v : Z)
| set_validationResult (v : SQLValidation.Output)
| set_alternativeQueries (v : option (list SQLValidation.Alternative))
| set_executionResult (v : SQLExecution.Output)
| set_finalResponse (v : AskQLStructuredOutput)
| set_error (v : option string)
| set_retryCount (v : Z).

(** [Partial<AskQLState>]: the entries of the returned literal, in order. *)
Definition Partial := list Assignment.

Definition assign (st : AskQLState) (a : Assignment) : AskQLState :=
  let '(Build_AskQLState q sid sch sql expl conf val alts exe fin err rc msgs) := st in
  match a with
  | set_schema v => Build_AskQLState q sid (Some v) sql expl conf val alts exe fin err rc msgs
  | set_sqlQuery v => Build_AskQLState q sid sch (Some v) expl conf val alts exe fin err rc msgs
  | set_queryExplanation v => Build_AskQLState q sid sch sql (Some v) conf val alts exe fin err rc msgs
  | set_sqlConfidence v => Build_AskQLState q sid sch sql expl (Some v) val alts exe fin err rc msgs
  | set_validationResult v => Build_AskQLState q sid sch sql expl conf (Some v) alts exe fin err rc msgs
  | set_alternativeQueries v => Build_AskQLState q sid sch sql expl conf val v exe fin err rc msgs
  | set_executionResult v => Build_AskQLState q sid sch sql expl conf val alts (Some v) fin err rc msgs
  | set_finalResponse v => Build_AskQLState q sid sch sql expl conf val alts exe (Some v) err rc msgs
  | set_error v => Build_AskQLState q sid sch sql expl conf val alts exe fin v rc msgs
  | set_retryCount v => Build_AskQLState q sid sch sql expl conf val alts exe fin err (Some v) msgs
  end.

(** The graph's channels are all last-value channels ([{ value: null }]):
    a node's partial state is merged entry by entry, each entry replacing
    the channel's value. *)
Definition merge (st : AskQLState) (update : Partial) : AskQLState :=
  fold_left assign update st.

(* ================================================================== *)
(** ** Progress notifications: gateway calls and the world *)

Inductive StepStatus := starting | processing | completed | status_error.

(** [WorkflowStep] of askql.gateway.ts; [timestamp], [data] and [metadata]
    are not modelled. *)
Record WorkflowStep :=
  { step : string; status : StepStatus; message : string }.

(** The three gateway methods the streaming service calls. *)
Inductive GatewayCall :=
| emitWorkflowStep (sessionId : string) (step : WorkflowStep)
| emitWorkflowComplete (sessionId : string) (result : AskQLState)
| emitWorkflowError (sessionId : string) (error : string).

(** What a run leaves behind outside the state: the gateway calls it made
    and the queries it sent to the database, oldest first. *)
Inductive Event :=
| Notified (call : GatewayCall)
| Queried (sql : string).

Definition World := list Event.

(** A computation that may throw and acts on the world. *)
Definition M (A : Type) : Type := World -> Result A * World.

Definition ret {A} (a : A) : M A := fun w => (Ok a, w).

Definition bind {A B} (m : M A) (k : A -> M B) : M B :=
  fun w =>
    match m w with
    | (Ok a, w') => k a w'
    | (Throw msg, w') => (Throw msg, w')
    end.

Definition throw {A} (msg : string) : M A := fun w => (Throw msg, w).

(** [try { body } catch (error) { handler(error.message) }] *)
Definition try_catch {A} (body : M A) (handler : string -> M A) : M A :=
  fun w =>
    match body w with
    | (Ok a, w') => (Ok a, w')
    | (Throw msg, w') => handler msg w'
    end.

Declare Scope workflow_scope.
Delimit Scope workflow_scope with workflow.
Notation "x <- m ;; k" := (bind m (fun x => k))
  (at level 100, m at next level, right associativity) : workflow_scope.
Notation "m ;;; k" := (bind m (fun _ => k))
  (at level 100, right associativity) : workflow_scope.
Local Open Scope workflow_scope.

Definition outcome {A} (r : Result A * World) : Result A := fst r.
Definition world_after {A} (r : Result A * World) : World := snd r.

(** The gateway as the workflow sees it: a call either returns or throws,
    possibly depending on what happened before. The call is recorded either
    way. *)
Definition Gateway := World -> GatewayCall -> option string.

Definition gateway_call (gateway : Gateway) (c : GatewayCall) : M unit :=
  fun w =>
    match gateway w c with
    | None => (Ok tt, (w ++ [Notified c])%list)
    | Some msg => (Throw msg, (w ++ [Notified c])%list)
    end.

(** workflow-streaming.service.ts: each method builds a [WorkflowStep] and
    hands it to the gateway. *)
Module WorkflowStreamingService.
Section Service.
Variable gateway : Gateway.

Definition emit (sid : string) (s : string) (st : StepStatus) (msg : string) : M unit :=
  gateway_call gateway
    (emitWorkflowStep sid {| step := s; status := st; message := msg |}).

Definition emitSchemaLoading (sid : string) : M unit :=
  emit sid "schema_loading" starting "Loading database schema information...".

Definition emitSchemaLoaded (sid : string) (tableCount : Z) : M unit :=
  emit sid "schema_loading" completed
    ("Database schema loaded successfully. Found "
       ++ JS.string_of_number tableCount ++ " tables.").

Definition emitNLToSQLStarting (sid : string) (question : string) : M unit :=
  emit sid "nl_to_sql" starting
    ("Converting natural language to SQL: " ++ String "034"%char question
       ++ String "034"%char "").

Definition emitNLToSQLProcessing (sid : string) : M unit :=
  emit sid "nl_to_sql" processing
    "AI is analyzing the question and generating SQL query...".

Definition emitNLToSQLCompleted (sid : string) (sqlQuery : string)
    (confidence : Z) (explanation : string) : M unit :=
  emit sid "nl_to_sql" completed "SQL query generated successfully".

Definition emitSQLValidationStarting (sid : string) : M unit :=
  emit sid "sql_validation" starting
    "Validating SQL query for safety and correctness...".

Definition emitSQLValidationCompleted (sid : string) (isValid : bool)
    (riskLevel : RiskLevel) (issues : list string) : M unit :=
  emit sid "sql_validation" completed
    (if isValid
     then "SQL validation passed (Risk: " ++ RiskLevel_to_string riskLevel ++ ")"
     else "SQL validation found issues: " ++ JS.join ", " issues).

Definition emitExperimentationStarting (sid : string) : M unit :=
  emit sid "experimentation" starting
    "Experimenting with alternative query approaches...".

Definition emitExperimentationCompleted (sid : string) (alternativesCount : Z) : M unit :=
  emit sid "experimentation" completed
    ("Generated " ++ JS.string_of_number alternativesCount
       ++ " alternative approaches").

Definition emitSQLExecutionStarting (sid : string) (query : string) : M unit :=
  emit sid "sql_execution" starting
    "Executing SQL query against the database...".

Definition emitSQLExecutionCompleted (sid : string) (success : bool)
    (rowCount executionTime : Z) (error : option string) : M unit :=
  emit sid "sql_execution" (if success then completed else status_error)
    (if success
     then "Query executed successfully. Found " ++ JS.string_of_number rowCount
            ++ " result(s) in " ++ JS.string_of_number executionTime ++ "ms"
     else "Query execution failed: " ++ JS.string_of_optional error).

Definition emitResultInterpretationStarting (sid : string) (resultCount : Z) : M unit :=
  emit sid "result_interpretation" starting
    ("Interpreting " ++ JS.string_of_number resultCount
       ++ " result(s) into natural language...").

Definition emitResultInterpretationCompleted (sid : string) (answer : string) : M unit :=
  emit sid "result_interpretation" completed
    "Generated natural language response".

Definition emitError (sid : string) (s : string) (error : string) : M unit :=
  emit sid s status_error ("Error in " ++ s ++ ": " ++ error).

Definition emitWorkflowCompleted (sid : string) (finalResult : AskQLState) : M unit :=
  gateway_call gateway (emitWorkflowComplete sid finalResult).

Definition emitWorkflowError (sid : string) (error : string) : M unit :=
  gateway_call gateway (emitWorkflowError sid error).

End Service.
End WorkflowStreamingService.

(* ================================================================== *)
(** ** sql-execution.agent.ts *)

(** How the promise of [databaseService.executeReadOnlyQuery] settles within
    the agent's timeout: it resolves, rejects, or is still pending when the
    timeout promise rejects. *)
Inductive Settlement (A : Type) :=
| Resolved (value : A)
| Rejected (message : string)
| Pending.
Arguments Resolved {A} value.
Arguments Rejected {A} message.
Arguments Pending {A}.

(** The driver's answer: an array of rows, or a single value that the agent
    wraps into an array. *)
Inductive QueryResult :=
| RowArray (rows : list Row)
| SingleRow (row : Row).

Record DatabaseService :=
  { executeReadOnlyQuery : World -> string -> Settlement QueryResult;
    (** [Date.now()] *)
    now : World -> Z }.

Module SQLExecutionAgent.
Import SQLExecution.

Definition MAX_ROWS : Z := 1000.
Definition TIMEOUT_MS : Z := 30000.

(** The remainder of [s] after the literal [p], if [s] starts with it. *)
Definition after_literal (p s : string) : option string :=
  if String.prefix p s
  then Some (String.substring (String.length p) (String.length s - String.length p) s)
  else None.

(** [\s*\(] at the start of [s]. *)
Definition opens_call (s : string) : bool := JS.startsWith (JS.trimStart s) "(".

(** [(COUNT|SUM|AVG|MAX|MIN|GROUP\s+BY)\s*\(] at the start of [s], whose
    letters are in upper case. *)
Definition aggregate_call_here (s : string) : bool :=
  existsb
    (fun kw => match after_literal kw s with
               | Some rest => opens_call rest
               | None => false
               end)
    ["COUNT"; "SUM"; "AVG"; "MAX"; "MIN"]
  || match after_literal "GROUP" s with
     | Some rest =>
         let rest' := JS.trimStart rest in
         (String.length rest' <? String.length rest)%nat
         && match after_literal "BY" rest' with
            | Some rest'' => opens_call rest''
            | None => false
            end
     | None => false
     end.

(** [COUNT\s*\(\s*\*\s*\)] at the start of [s], whose letters are in upper
    case. *)
Definition count_star_here (s : string) : bool :=
  match after_literal "COUNT" s with
  | Some r1 =>
      match after_literal "(" (JS.trimStart r1) with
      | Some r2 =>
          match after_literal "*" (JS.trimStart r2) with
          | Some r3 => JS.startsWith (JS.trimStart r3) ")"
          | None => false
          end
      | None => false
      end
  | None => false
  end.

(** A regular expression [\b<here>] tested anywhere in the string:
    [after_word] tells whether the previous character is a word
    character. *)
Fixpoint test_at_word_start (here : string -> bool) (after_word : bool)
    (s : string) : bool :=
  (negb after_word && here s)
  || match s with
     | String c rest => test_at_word_start here (JS.is_word_char c) rest
     | EmptyString => false
     end.

Definition isAggregateQuery (queryToExecute : string) : bool :=
  let u := JS.ignore_case queryToExecute in
  test_at_word_start aggregate_call_here false u
  || test_at_word_start count_star_here false u.

(** [/^\d{4}-\d{2}-\d{2}/] and [/^\d{2}\/\d{2}\/\d{4}/] *)
Fixpoint matches_shape (shape : list (option ascii)) (s : string) : bool :=
  match shape, s with
  | [], _ => true
  | None :: shape', String c rest => JS.is_digit c && matches_shape shape' rest
  | Some d :: shape', String c rest => Ascii.eqb c d && matches_shape shape' rest
  | _ :: _, EmptyString => false
  end.

Definition iso_date_shape : list (option ascii) :=
  [None; None; None; None; Some "-"%char; None; None; Some "-"%char; None; None].
Definition slash_date_shape : list (option ascii) :=
  [None; None; Some "/"%char; None; None; Some "/"%char; None; None; None; None].

Definition getJavaScriptType (value : JsValue) : string :=
  match value with
  | JNull => "null"
  | JInteger _ => "integer"
  | JBoolean _ => "boolean"
  | JString s =>
      if matches_shape iso_date_shape s || matches_shape slash_date_shape s
      then "datetime" else "string"
  end.

Definition extractColumnInfo (data : list Row) : list ColumnInfo :=
  match data with
  | [] => []
  | firstRow :: _ =>
      map (fun kv => {| name := fst kv; type := getJavaScriptType (snd kv) |}) firstRow
  end.

Section Agent.
Variable databaseService : DatabaseService.

Definition Date_now : M Z := fun w => (Ok (now databaseService w), w).

(** [Promise.race([executeReadOnlyQuery(q), createTimeoutPromise(TIMEOUT_MS)])] *)
Definition race_query_with_timeout (q : string) : M QueryResult :=
  fun w =>
    let w' := (w ++ [Queried q])%list in
    match executeReadOnlyQuery databaseService w q with
    | Resolved r => (Ok r, w')
    | Rejected msg => (Throw msg, w')
    | Pending =>
        (Throw ("Query execution timed out after "
                  ++ JS.string_of_number TIMEOUT_MS ++ "ms"), w')
    end.

Definition refusal (reason : string) (startTime : Z) : M Output :=
  t <- Date_now ;;
  ret {| success := false; data := None; error := Some reason;
         executionTime := t - startTime; rowCount := 0; columnInfo := [] |}.

Definition executeSQL (input : Input) : M Output :=
  startTime <- Date_now ;;
  if negb (isValidated input) then
    refusal "Query must be validated before execution" startTime
  else if RiskLevel_eqb (riskLevel input) HIGH then
    refusal "High-risk queries are not allowed to execute" startTime
  else
    let trimmedQuery := JS.toUpperCase (JS.trim (sqlQuery input)) in
    if negb (JS.startsWith trimmedQuery "SELECT") then
      refusal "Only SELECT queries are allowed" startTime
    else
      try_catch
        (let queryToExecute := JS.stripTrailingSemicolons (JS.trim (sqlQuery input)) in
         let queryToExecute :=
           if negb (JS.includes (JS.toUpperCase queryToExecute) "LIMIT")
              && negb (isAggregateQuery queryToExecute)
           then queryToExecute ++ " LIMIT " ++ JS.string_of_number MAX_ROWS
           else queryToExecute in
         result <- race_query_with_timeout queryToExecute ;;
         t <- Date_now ;;
         let dataArray :=
           match result with
           | RowArray rows => rows
           | SingleRow r => [r]
           end in
         ret {| success := true; data := Some dataArray; error := None;
                executionTime := t - startTime;
                rowCount := Z.of_nat (length dataArray);
                columnInfo := extractColumnInfo dataArray |})
        (fun message =>
           t <- Date_now ;;
           ret {| success := false; data := None; error := Some message;
                  executionTime := t - startTime; rowCount := 0;
                  columnInfo := [] |}).
End Agent.
End SQLExecutionAgent.

(* ================================================================== *)
(** ** The validation agent

    The two structured calls to the model are opaque: each is given the
    agent's input (the prompts are built from it) and returns the parsed
    answer or throws. *)

(** sql-validation.agent.ts *)
Module SQLValidationAgent.
Section Agent.
(** [databaseService.$queryRawUnsafe(`EXPLAIN ${sqlQuery}`)] *)
Variable explain : string -> M unit.
Variable validation_invoke : SQLValidation.Input -> M SQLValidation.Output.
Variable alternatives_invoke : SQLValidation.Input -> M SQLValidation.Alternatives.

(** [{ isValid, error? }] *)
Definition validateSyntax (sqlQuery : string) : M (bool * option string) :=
  try_catch
    (explain sqlQuery ;;; ret (true, None))
    (fun message => ret (false, Some message)).

Definition performSemanticValidation (input : SQLValidation.Input)
  : M SQLValidation.Output :=
  try_catch
    (validation_invoke input)
    (fun message =>
       ret {| SQLValidation.isValid := false;
              SQLValidation.issues := ["Validation failed: " ++ message];
              SQLValidation.suggestions := ["Manual review required"];
              SQLValidation.improvedQuery := None;
              SQLValidation.riskLevel := HIGH;
              SQLValidation.shouldExecute := false |}).

Definition validateSQL (input : SQLValidation.Input) : M SQLValidation.Output :=
  syntaxValidation <- validateSyntax (SQLValidation.sqlQuery input) ;;
  if negb (fst syntaxValidation) then
    ret {| SQLValidation.isValid := false;
           SQLValidation.issues :=
             ["Syntax error: " ++ JS.string_of_optional (snd syntaxValidation)];
           SQLValidation.suggestions := ["Fix the SQL syntax before proceeding"];
           SQLValidation.improvedQuery := None;
           SQLValidation.riskLevel := HIGH;
           SQLValidation.shouldExecute := false |}
  else performSemanticValidation input.

Definition experimentWithQuery (input : SQLValidation.Input)
  : M SQLValidation.Alternatives :=
  try_catch
    (alternatives_invoke input)
    (fun _ => ret {| SQLValidation.alternatives := Some [] |}).
End Agent.
End SQLValidationAgent.

(* ================================================================== *)
(** ** askql-workflow.ts *)

(** What the constructor of [AskQLWorkflow] is given. The agents are opaque
    here: any of them may throw and may act on the world. *)
Record Collaborators :=
  { nlToSqlAgent_convertNLToSQL : NLToSQL.Input -> M NLToSQL.Output;
    sqlValidationAgent_validateSQL : SQLValidation.Input -> M SQLValidation.Output;
    sqlValidationAgent_experimentWithQuery :
      SQLValidation.Input -> M SQLValidation.Alternatives;
    sqlExecutionAgent_executeSQL : SQLExecution.Input -> M SQLExecution.Output;
    resultInterpretationAgent_interpretResults :
      ResultInterpretation.Input -> M AskQLStructuredOutput;
    databaseService_getSchemaInfo : M Schema;
    streamingService_gateway : Gateway;
    (** The graph library is not part of the repository. [sessionId] is not
        among the channels [buildWorkflow] declares; whether the compiled
        graph still hands it to the nodes is left open. *)
    graph_keeps_undeclared_keys : bool }.

Inductive Node :=
| load_schema
| nl_to_sql
| validate_sql
| experiment_alternatives
| execute_sql
| interpret_results
| handle_error.

Definition Node_eqb (a b : Node) : bool :=
  match a, b with
  | load_schema, load_schema | nl_to_sql, nl_to_sql
  | validate_sql, validate_sql
  | experiment_alternatives, experiment_alternatives
  | execute_sql, execute_sql | interpret_results, interpret_results
  | handle_error, handle_error => true
  | _, _ => false
  end.

(** An edge leaving a node: to a node, to [END] ([None]), or chosen by a
    router through a path map. *)
Inductive Edge :=
| addEdge (target : option Node)
| addConditionalEdges (router : AskQLState -> string) (pathMap : list (string * Node)).

(** A node that ran: the state it was given and what it returned. *)
Record Visit :=
  { visited : Node; given : AskQLState; returned : Result Partial }.

Fixpoint path_lookup (label : string) (pathMap : list (string * Node)) : option Node :=
  match pathMap with
  | [] => None
  | (l, n) :: rest => if String.eqb l label then Some n else path_lookup label rest
  end.

Module AskQLWorkflow.
Module Stream := WorkflowStreamingService.

Section Workflow.
Variable deps : Collaborators.

Local Abbreviation gateway := (streamingService_gateway deps).

(** [if (sessionId) { this.streamingService.emit...(sessionId, ...) }] *)
Definition if_session (sid : option string) (emit : string -> M unit) : M unit :=
  match sid with
  | Some s => if JS.truthy_string (Some s) then emit s else ret tt
  | None => ret tt
  end.

(** *** Node implementations *)

Definition loadSchema (state : AskQLState) : M Partial :=
  if_session (sessionId state) (Stream.emitSchemaLoading gateway) ;;;
  try_catch
    (schema <- databaseService_getSchemaInfo deps ;;
     if_session (sessionId state)
       (fun sid => Stream.emitSchemaLoaded gateway sid (Z.of_nat (length schema))) ;;;
     ret [set_schema schema])
    (fun message =>
       if_session (sessionId state)
         (fun sid => Stream.emitError gateway sid "schema_loading" message) ;;;
       ret [set_error (Some ("Failed to load database schema: " ++ message))]).

Definition convertNLToSQL (state : AskQLState) : M Partial :=
  if_session (sessionId state)
    (fun sid => Stream.emitNLToSQLStarting gateway sid (originalQuestion state)) ;;;
  match schema state with
  | None => ret [set_error (Some "Database schema not available")]
  | Some schema =>
      try_catch
        (if_session (sessionId state) (Stream.emitNLToSQLProcessing gateway) ;;;
         let input :=
           {| NLToSQL.naturalLanguageQuery := originalQuestion state;
              NLToSQL.schema := schema |} in
         result <- nlToSqlAgent_convertNLToSQL deps input ;;
         if_session (sessionId state)
           (fun sid =>
              Stream.emitNLToSQLCompleted gateway sid (NLToSQL.sqlQuery result)
                (NLToSQL.confidence result) (NLToSQL.explanation result)) ;;;
         ret [set_sqlQuery (NLToSQL.sqlQuery result);
              set_queryExplanation (NLToSQL.explanation result);
              set_sqlConfidence (NLToSQL.confidence result)])
        (fun message =>
           if_session (sessionId state)
             (fun sid => Stream.emitError gateway sid "nl_to_sql" message) ;;;
           ret [set_error (Some ("NL to SQL conversion failed: " ++ message))])
  end.

Definition validateSQL (state : AskQLState) : M Partial :=
  if_session (sessionId state) (Stream.emitSQLValidationStarting gateway) ;;;
  match sqlQuery state, schema state with
  | Some (String c q), Some schema =>
      let sql := String c q in
      try_catch
        (let input :=
           {| SQLValidation.sqlQuery := sql;
              SQLValidation.originalQuestion := originalQuestion state;
              SQLValidation.schema := schema;
              SQLValidation.explanation := JS.string_or_empty (queryExplanation state) |} in
         validationResult <- sqlValidationAgent_validateSQL deps input ;;
         if_session (sessionId state)
           (fun sid =>
              Stream.emitSQLValidationCompleted gateway sid
                (SQLValidation.isValid validationResult)
                (SQLValidation.riskLevel validationResult)
                (SQLValidation.issues validationResult)) ;;;
         ret [set_validationResult validationResult])
        (fun message =>
           if_session (sessionId state)
             (fun sid => Stream.emitError gateway sid "sql_validation" message) ;;;
           ret [set_error (Some ("SQL validation failed: " ++ message))])
  | _, _ => ret [set_error (Some "SQL query or schema missing for validation")]
  end.

(** [alternatives.reduce((best, current) =>
       current.confidence > best.confidence ? current : best)] *)
Definition reduce_best (first : SQLValidation.Alternative)
    (others : list SQLValidation.Alternative) : SQLValidation.Alternative :=
  fold_left
    (fun best current =>
       if SQLValidation.confidence best <? SQLValidation.confidence current
       then current else best)
    others first.

Definition experimentWithAlternatives (state : AskQLState) : M Partial :=
  if_session (sessionId state) (Stream.emitExperimentationStarting gateway) ;;;
  match sqlQuery state, schema state with
  | Some (String c q), Some schema =>
      let sql := String c q in
      try_catch
        (let input :=
           {| SQLValidation.sqlQuery := sql;
              SQLValidation.originalQuestion := originalQuestion state;
              SQLValidation.schema := schema;
              SQLValidation.explanation := JS.string_or_empty (queryExplanation state) |} in
         alternatives <- sqlValidationAgent_experimentWithQuery deps input ;;
         if_session (sessionId state)
           (fun sid =>
              Stream.emitExperimentationCompleted gateway sid
                match SQLValidation.alternatives alternatives with
                | Some alts => Z.of_nat (length alts)
                | None => 0
                end) ;;;
         match SQLValidation.alternatives alternatives with
         | Some (first :: others) =>
             let bestAlternative := reduce_best first others in
             if JS.number_or_zero (sqlConfidence state)
                  <? SQLValidation.confidence bestAlternative
             then
               ret [set_alternativeQueries (SQLValidation.alternatives alternatives);
                    set_sqlQuery (SQLValidation.query bestAlternative);
                    set_queryExplanation (SQLValidation.alt_explanation bestAlternative);
                    set_sqlConfidence (SQLValidation.confidence bestAlternative)]
             else
               ret [set_alternativeQueries (SQLValidation.alternatives alternatives)]
         | _ =>
             ret [set_alternativeQueries (SQLValidation.alternatives alternatives)]
         end)
        (fun message =>
           if_session (sessionId state)
             (fun sid => Stream.emitError gateway sid "experimentation" message) ;;;
           ret [])
  | _, _ => ret []
  end.

Definition executeSQL (state : AskQLState) : M Partial :=
  if_session (sessionId state)
    (fun sid =>
       Stream.emitSQLExecutionStarting gateway sid
         (JS.string_or_empty (sqlQuery state))) ;;;
  match sqlQuery state, validationResult state with
  | Some (String c q), Some validation =>
      let sql := String c q in
      try_catch
        (let input :=
           {| SQLExecution.sqlQuery := sql;
              SQLExecution.isValidated := SQLValidation.isValid validation;
              SQLExecution.riskLevel := SQLValidation.riskLevel validation |} in
         executionResult <- sqlExecutionAgent_executeSQL deps input ;;
         if_session (sessionId state)
           (fun sid =>
              Stream.emitSQLExecutionCompleted gateway sid
                (SQLExecution.success executionResult)
                (SQLExecution.rowCount executionResult)
                (SQLExecution.executionTime executionResult)
                (SQLExecution.error executionResult)) ;;;
         ret [set_executionResult executionResult])
        (fun message =>
           if_session (sessionId state)
             (fun sid => Stream.emitError gateway sid "sql_execution" message) ;;;
           ret [set_error (Some ("SQL execution failed: " ++ message))])
  | _, _ => ret [set_error (Some "SQL query or validation result missing")]
  end.

Definition interpretResults (state : AskQLState) : M Partial :=
  if_session (sessionId state)
    (fun sid =>
       Stream.emitResultInterpretationStarting gateway sid
         match executionResult state with
         | Some r => SQLExecution.rowCount r
         | None => 0
         end) ;;;
  match executionResult state, sqlQuery state with
  | Some executionResult, Some (String c q) =>
      let sql := String c q in
      try_catch
        (let input :=
           {| ResultInterpretation.originalQuestion := originalQuestion state;
              ResultInterpretation.sqlQuery := sql;
              ResultInterpretation.queryResults :=
                match SQLExecution.data executionResult with
                | Some rows => rows
                | None => []
                end |} in
         finalResponse <- resultInterpretationAgent_interpretResults deps input ;;
         if_session (sessionId state)
           (fun sid =>
              Stream.emitResultInterpretationCompleted gateway sid
                (summary finalResponse)) ;;;
         ret [set_finalResponse finalResponse])
        (fun message =>
           if_session (sessionId state)
             (fun sid => Stream.emitError gateway sid "result_interpretation" message) ;;;
           ret [set_error (Some ("Result interpretation failed: " ++ message))])
  | _, _ =>
      if_session (sessionId state)
        (fun sid =>
           Stream.emitError gateway sid "result_interpretation"
             "Missing execution result or SQL query") ;;;
      ret [set_error (Some "Execution result or SQL query missing for interpretation")]
  end.

Definition handleError (state : AskQLState) : M Partial :=
  let retryCount := JS.number_or_zero (retryCount state) + 1 in
  if 2 <? retryCount then
    ret [set_error
           (Some ("Maximum retry attempts exceeded. Original error: "
                    ++ JS.string_of_optional (error state)));
         set_retryCount retryCount]
  else
    ret [set_error (error state); set_retryCount retryCount].

(** *** Conditional edge functions *)

Definition shouldValidateSQL (state : AskQLState) : string :=
  if JS.truthy_string (error state) then "error" else "validate".

Definition shouldExecuteOrExperiment (state : AskQLState) : string :=
  if JS.truthy_string (error state)
     || negb (JS.truthy_object (validationResult state))
  then "error"
  else
    match validationResult state with
    | Some validation =>
        if negb (SQLValidation.isValid validation)
           || negb (SQLValidation.shouldExecute validation)
           || (JS.truthy_number (sqlConfidence state)
               && (JS.number_or_zero (sqlConfidence state) <? 70))
        then "experiment"
        else "execute"
    | None => "error"
    end.

Definition shouldInterpretOrError (state : AskQLState) : string :=
  if JS.truthy_string (error state)
     || negb (JS.truthy_object (executionResult state))
  then "error"
  else
    match executionResult state with
    | Some result =>
        if negb (SQLExecution.success result) then "error" else "interpret"
    | None => "error"
    end.

(** *** [buildWorkflow] *)

Definition node_function (n : Node) : AskQLState -> M Partial :=
  match n with
  | load_schema => loadSchema
  | nl_to_sql => convertNLToSQL
  | validate_sql => validateSQL
  | experiment_alternatives => experimentWithAlternatives
  | execute_sql => executeSQL
  | interpret_results => interpretResults
  | handle_error => handleError
  end.

(** The node [__start__] leads to. *)
Definition entry_node : Node := load_schema.

Definition edge_from (n : Node) : Edge :=
  match n with
  | load_schema => addEdge (Some nl_to_sql)
  | nl_to_sql =>
      addConditionalEdges shouldValidateSQL
        [("validate", validate_sql); ("error", handle_error)]
  | validate_sql =>
      addConditionalEdges shouldExecuteOrExperiment
        [("execute", execute_sql); ("experiment", experiment_alternatives);
         ("error", handle_error)]
  | experiment_alternatives => addEdge (Some execute_sql)
  | execute_sql =>
      addConditionalEdges shouldInterpretOrError
        [("interpret", interpret_results); ("error", handle_error)]
  | interpret_results => addEdge None
  | handle_error => addEdge None
  end.

(** *** The compiled graph: [workflow.invoke] *)

(** The library's default bound on the number of steps of one invocation. *)
Definition recursionLimit : nat := 25.

Definition next_node (n : Node) (st : AskQLState) : Result (option Node) :=
  match edge_from n with
  | addEdge target => Ok target
  | addConditionalEdges router pathMap =>
      match path_lookup (router st) pathMap with
      | Some n' => Ok (Some n')
      | None => Throw ("Branch condition returned unknown destination: " ++ router st)
      end
  end.

(** Runs node [n] on [st], merges what it returns, follows the edge; also
    gives the nodes that ran. A node that throws ends the invocation. *)
Fixpoint run_from (fuel : nat) (n : Node) (st : AskQLState) (w : World)
  : (Result AskQLState * list Visit) * World :=
  match fuel with
  | O => ((Throw "Recursion limit reached without hitting a stop condition", []), w)
  | S fuel' =>
      match node_function n st w with
      | (Throw msg, w') =>
          ((Throw msg, [{| visited := n; given := st; returned := Throw msg |}]), w')
      | (Ok update, w') =>
          let st' := merge st update in
          let visit := {| visited := n; given := st; returned := Ok update |} in
          match next_node n st' with
          | Throw msg => ((Throw msg, [visit]), w')
          | Ok None => ((Ok st', [visit]), w')
          | Ok (Some n') =>
              let '((r, visits), w'') := run_from fuel' n' st' w' in
              ((r, visit :: visits), w'')
          end
      end
  end.

(** The input as the first node sees it. *)
Definition graph_input (input : AskQLState) : AskQLState :=
  if graph_keeps_undeclared_keys deps then input
  else
    {| originalQuestion := originalQuestion input; sessionId := None;
       schema := schema input; sqlQuery := sqlQuery input;
       queryExplanation := queryExplanation input;
       sqlConfidence := sqlConfidence input;
       validationResult := validationResult input;
       alternativeQueries := alternativeQueries input;
       executionResult := executionResult input;
       finalResponse := finalResponse input; error := error input;
       retryCount := retryCount input; messages := messages input |}.

Definition invoke_traced (input : AskQLState) (w : World)
  : (Result AskQLState * list Visit) * World :=
  run_from recursionLimit entry_node (graph_input input) w.

Definition invoke (input : AskQLState) : M AskQLState :=
  fun w => let '((r, _), w') := invoke_traced input w in (r, w').

(** *** [processQuery] *)

Definition initialState (question : string) : AskQLState :=
  {| originalQuestion := question; sessionId := None; schema := None;
     sqlQuery := None; queryExplanation := None; sqlConfidence := None;
     validationResult := None; alternativeQueries := None;
     executionResult := None; finalResponse := None; error := None;
     retryCount := Some 0; messages := [] |}.

Definition stateWithSession (question : string) (sid : option string) : AskQLState :=
  {| originalQuestion := question; sessionId := sid; schema := None;
     sqlQuery := None; queryExplanation := None; sqlConfidence := None;
     validationResult := None; alternativeQueries := None;
     executionResult := None; finalResponse := None; error := None;
     retryCount := Some 0; messages := [] |}.

Definition processQuery (question : string) (sid : option string) : M AskQLState :=
  if_session sid (Stream.emitSchemaLoading gateway) ;;;
  try_catch
    (result <- invoke (stateWithSession question sid) ;;
     if_session sid
       (fun s =>
          match error result with
          | Some (String c e) => Stream.emitWorkflowError gateway s (String c e)
          | _ => Stream.emitWorkflowCompleted gateway s result
          end) ;;;
     ret result)
    (fun message =>
       if_session sid (fun s => Stream.emitWorkflowError gateway s message) ;;;
       ret (assign (initialState question)
              (set_error (Some ("Workflow execution failed: " ++ message))))).

End Workflow.
End AskQLWorkflow.

Import AskQLWorkflow.

(* ================================================================== *)
(** ** Vocabulary of the specification *)

(** The gateway returns from every call. *)
Definition gateway_never_throws (g : Gateway) : Prop := forall w c, g w c = None.

(** No notification of a run with session [sid] can throw: there is no
    session to notify, or the gateway never throws. *)
Definition notifications_harmless (deps : Collaborators) (sid : option string) : Prop :=
  JS.truthy_string sid = false \/ gateway_never_throws (streamingService_gateway deps).

(** A notification: a single gateway call made for the session. *)
Definition notification (g : Gateway) (emit : string -> M unit) : Prop :=
  forall s, exists c, emit s = gateway_call g c.

(** There is a session, and [m] is something the gateway throws. *)
Definition gateway_threw (deps : Collaborators) (sid : option string) (m : string) : Prop :=
  JS.truthy_string sid = true /\ exists w c, streamingService_gateway deps w c = Some m.

(** The input Validate and Experiment build for the validation agent. *)
Definition validation_input (st : AskQLState) (sql : string) (sch : Schema)
  : SQLValidation.Input :=
  {| SQLValidation.sqlQuery := sql;
     SQLValidation.originalQuestion := originalQuestion st;
     SQLValidation.schema := sch;
     SQLValidation.explanation := JS.string_or_empty (queryExplanation st) |}.

(** The input Execute builds for the executor. *)
Definition execution_input (sql : string) (v : SQLValidation.Output)
  : SQLExecution.Input :=
  {| SQLExecution.sqlQuery := sql;
     SQLExecution.isValidated := SQLValidation.isValid v;
     SQLExecution.riskLevel := SQLValidation.riskLevel v |}.

(** [{ error: `<prefix>${message}` }] *)
Definition stage_failure (prefix : string) (upd : Partial) : Prop :=
  exists m, upd = [set_error (Some (prefix ++ m))].

(** The partial states node [n] can return on [st]. *)
Definition node_returns (deps : Collaborators) (n : Node) (st : AskQLState)
    (upd : Partial) : Prop :=
  match n with
  | load_schema =>
      (exists s, upd = [set_schema s])
      \/ stage_failure "Failed to load database schema: " upd
  | nl_to_sql =>
      (exists r, schema st <> None /\
         upd = [set_sqlQuery (NLToSQL.sqlQuery r);
                set_queryExplanation (NLToSQL.explanation r);
                set_sqlConfidence (NLToSQL.confidence r)])
      \/ (schema st = None /\ upd = [set_error (Some "Database schema not available")])
      \/ stage_failure "NL to SQL conversion failed: " upd
  | validate_sql =>
      (exists v, upd = [set_validationResult v])
      \/ upd = [set_error (Some "SQL query or schema missing for validation")]
      \/ stage_failure "SQL validation failed: " upd
  | experiment_alternatives =>
      upd = []
      \/ (exists alts, upd = [set_alternativeQueries alts])
      \/ (exists first others,
            JS.number_or_zero (sqlConfidence st)
              < SQLValidation.confidence (reduce_best first others) /\
            upd = [set_alternativeQueries (Some (first :: others));
                   set_sqlQuery (SQLValidation.query (reduce_best first others));
                   set_queryExplanation
                     (SQLValidation.alt_explanation (reduce_best first others));
                   set_sqlConfidence
                     (SQLValidation.confidence (reduce_best first others))])
  | execute_sql =>
      (exists sql v r w1 w2,
          sqlQuery st = Some sql /\ validationResult st = Some v /\
          sqlExecutionAgent_executeSQL deps (execution_input sql v) w1 = (Ok r, w2) /\
          upd = [set_executionResult r])
      \/ upd = [set_error (Some "SQL query or validation result missing")]
      \/ stage_failure "SQL execution failed: " upd
  | interpret_results =>
      (exists f, executionResult st <> None /\ JS.truthy_string (sqlQuery st) = true /\
                 upd = [set_finalResponse f])
      \/ upd = [set_error (Some "Execution result or SQL query missing for interpretation")]
      \/ stage_failure "Result interpretation failed: " upd
  | handle_error =>
      let rc := JS.number_or_zero (retryCount st) + 1 in
      (rc <= 2 /\ upd = [set_error (error st); set_retryCount rc])
      \/ (2 < rc /\
          upd = [set_error (Some ("Maximum retry attempts exceeded. Original error: "
                                    ++ JS.string_of_optional (error st)));
                 set_retryCount rc])
  end.

(** A node returns one of its partial states, or throws what the gateway
    threw. *)
Definition node_result_ok (deps : Collaborators) (n : Node) (st : AskQLState)
    (res : Result Partial) : Prop :=
  match res with
  | Ok upd => node_returns deps n st upd
  | Throw m => gateway_threw deps (sessionId st) m
  end.

(** The node [shouldExecuteOrExperiment] and its path map lead to. *)
Definition route_after_validate (st : AskQLState) : Node :=
  if JS.truthy_string (error st) || negb (JS.truthy_object (validationResult st))
  then handle_error
  else match validationResult st with
       | Some v =>
           if negb (SQLValidation.isValid v) || negb (SQLValidation.shouldExecute v)
              || (JS.truthy_number (sqlConfidence st)
                  && (JS.number_or_zero (sqlConfidence st) <? 70))
           then experiment_alternatives else execute_sql
       | None => handle_error
       end.

(** The node [shouldInterpretOrError] and its path map lead to. *)
Definition route_after_execute (st : AskQLState) : Node :=
  if JS.truthy_string (error st) || negb (JS.truthy_object (executionResult st))
  then handle_error
  else match executionResult st with
       | Some r => if negb (SQLExecution.success r) then handle_error else interpret_results
       | None => handle_error
       end.

(** The node that follows [n] when the merged state is [st]; [None] is END. *)
Definition successor (n : Node) (st : AskQLState) : option Node :=
  match n with
  | load_schema => Some nl_to_sql
  | nl_to_sql => Some (if JS.truthy_string (error st) then handle_error else validate_sql)
  | validate_sql => Some (route_after_validate st)
  | experiment_alternatives => Some execute_sql
  | execute_sql => Some (route_after_execute st)
  | interpret_results => None
  | handle_error => None
  end.

(** The longest path from a node to END, in nodes. *)
Definition rank (n : Node) : nat :=
  match n with
  | load_schema => 6
  | nl_to_sql => 5
  | validate_sql => 4
  | experiment_alternatives => 3
  | execute_sql => 2
  | interpret_results => 1
  | handle_error => 1
  end.

(** Node [n] ran on [st] and ended with [res]. *)
Definition visit (n : Node) (st : AskQLState) (res : Result Partial) : Visit :=
  {| visited := n; given := st; returned := res |}.

(** The runs of the compiled graph as a relation: from node [n] on state
    [st] in world [w], the run ends with a result, the visits made and a
    world. A node that throws ends the run; so does a node without
    successor. *)
Inductive Runs (deps : Collaborators)
  : Node -> AskQLState -> World -> Result AskQLState -> list Visit -> World -> Prop :=
| Runs_throw n st w m w' :
    node_function deps n st w = (Throw m, w') ->
    Runs deps n st w (Throw m) [visit n st (Throw m)] w'
| Runs_end n st w upd w' :
    node_function deps n st w = (Ok upd, w') ->
    successor n (merge st upd) = None ->
    Runs deps n st w (Ok (merge st upd)) [visit n st (Ok upd)] w'
| Runs_step n st w upd w' n' r tr w'' :
    node_function deps n st w = (Ok upd, w') ->
    successor n (merge st upd) = Some n' ->
    Runs deps n' (merge st upd) w' r tr w'' ->
    Runs deps n st w r (visit n st (Ok upd) :: tr) w''.

(** The execution result [r] is what the executor answered for the state's
    own validation result. *)
Definition produced_by_executor (deps : Collaborators) (st : AskQLState)
    (r : SQLExecution.Output) : Prop :=
  exists sql v w1 w2,
    validationResult st = Some v /\
    sqlExecutionAgent_executeSQL deps (execution_input sql v) w1 = (Ok r, w2).

(** What holds of the state a node is given, in a run that starts from a
    fresh state. *)
Definition entry_ok (deps : Collaborators) (n : Node) (st : AskQLState) : Prop :=
  retryCount st = Some 0 /\ finalResponse st = None /\
  match n with
  | load_schema | nl_to_sql => True
  | validate_sql | experiment_alternatives | execute_sql =>
      JS.truthy_string (error st) = false
  | interpret_results =>
      JS.truthy_string (error st) = false /\
      exists r, executionResult st = Some r /\ SQLExecution.success r = true /\
                produced_by_executor deps st r
  | handle_error =>
      JS.truthy_string (error st) = true
      \/ exists r, executionResult st = Some r /\ SQLExecution.success r = false
  end.

(** The last node of a run. *)
Definition ends_with (tr : list Visit) (last : Visit) : Prop :=
  exists pre, tr = (pre ++ [last])%list.

(** [v] records a call of its node: given state, returned result. *)
Definition genuine_visit (deps : Collaborators) (v : Visit) : Prop :=
  exists w w', node_function deps (visited v) (given v) w = (returned v, w').

(** Exactly one of [finalResponse] populated and [error] non-empty. *)
Definition exactly_one_outcome (st : AskQLState) : Prop :=
  (finalResponse st <> None /\ JS.truthy_string (error st) = false)
  \/ (finalResponse st = None /\ JS.truthy_string (error st) = true).

(** The executor reported a failure. *)
Definition execution_failed (st : AskQLState) : Prop :=
  exists r, executionResult st = Some r /\ SQLExecution.success r = false.

(** What the [catch] of [processQuery] returns. *)
Definition catch_state (question message : string) : AskQLState :=
  assign (initialState question)
    (set_error (Some ("Workflow execution failed: " ++ message))).

(** The world in which [processQuery] invokes the graph: after its own entry
    notification. *)
Definition entry_world (deps : Collaborators) (sid : option string) (w : World) : World :=
  world_after
    (if_session sid
       (WorkflowStreamingService.emitSchemaLoading (streamingService_gateway deps)) w).

(** The graph run that [processQuery] starts. *)
Definition graph_run (deps : Collaborators) (question : string)
    (sid : option string) (w : World) : (Result AskQLState * list Visit) * World :=
  invoke_traced deps (stateWithSession question sid) (entry_world deps sid w).

(** What that run ends with. *)
Definition graph_result (deps : Collaborators) (question : string)
    (sid : option string) (w : World) : Result AskQLState :=
  fst (fst (graph_run deps question sid w)).

(** The nodes that run visits, in order. *)
Definition graph_visits (deps : Collaborators) (question : string)
    (sid : option string) (w : World) : list Visit :=
  snd (fst (graph_run deps question sid w)).

(** The state [st] is what the graph ended with, after Interpret or
    HandleError. *)
Definition reached_terminal_node (deps : Collaborators) (question : string)
    (sid : option string) (w : World) (st : AskQLState) : Prop :=
  graph_result deps question sid w = Ok st /\
  exists last, ends_with (graph_visits deps question sid w) last /\
               (visited last = interpret_results \/ visited last = handle_error).

(** How often node [n] ran. *)
Definition occurrences (n : Node) (tr : list Visit) : nat :=
  length (filter (fun v => Node_eqb (visited v) n) tr).

(** The test of [handleError]'s give-up branch, [retryCount > 2]. *)
Definition gives_up (st : AskQLState) : bool :=
  2 <? JS.number_or_zero (retryCount st) + 1.

(** The three refusals of the executor. *)
Definition refusal_reasons : list string :=
  ["Query must be validated before execution";
   "High-risk queries are not allowed to execute";
   "Only SELECT queries are allowed"].

(** The executor's test for a read-only statement. *)
Definition is_select (sql : string) : bool :=
  JS.startsWith (JS.toUpperCase (JS.trim sql)) "SELECT".

(** A validation result on which the executor refuses. *)
Definition refusing (v : SQLValidation.Output) : Prop :=
  SQLValidation.isValid v = false \/ SQLValidation.riskLevel v = HIGH.

(** Validate ran and returned [val]. *)
Definition validate_returned (tr : list Visit) (val : SQLValidation.Output) : Prop :=
  exists v, In v tr /\ visited v = validate_sql /\
            returned v = Ok [set_validationResult val].

(** [b] is further down the graph than [a]. *)
Definition later_in_graph (a b : Visit) : Prop :=
  (rank (visited b) < rank (visited a))%nat.


(** The query, its explanation and its confidence. *)
Definition triple (st : AskQLState) : option string * option string * option Z :=
  (sqlQuery st, queryExplanation st, sqlConfidence st).


(** The collaborator answers [input] with [result], whatever the world. *)
Definition always_returns {A B : Type} (agent : A -> M B) (input : A) (result : B)
  : Prop :=
  forall w, outcome (agent input w) = Ok result.

(** The collaborator throws [m] on [input], whatever the world. *)
Definition always_throws {A B : Type} (agent : A -> M B) (input : A) (m : string)
  : Prop :=
  forall w, outcome (agent input w) = Throw m.

(** The node reaches its collaborator on [st], and the collaborator throws
    [m]. *)
Definition collaborator_throws (deps : Collaborators) (n : Node) (st : AskQLState)
    (m : string) : Prop :=
  match n with
  | load_schema =>
      forall w, outcome (databaseService_getSchemaInfo deps w) = Throw m
  | nl_to_sql =>
      exists sch, schema st = Some sch /\
        always_throws (nlToSqlAgent_convertNLToSQL deps)
          {| NLToSQL.naturalLanguageQuery := originalQuestion st;
             NLToSQL.schema := sch |} m
  | validate_sql =>
      exists sql sch,
        sqlQuery st = Some sql /\ sql <> "" /\ schema st = Some sch /\
        always_throws (sqlValidationAgent_validateSQL deps)
          (validation_input st sql sch) m
  | experiment_alternatives =>
      exists sql sch,
        sqlQuery st = Some sql /\ sql <> "" /\ schema st = Some sch /\
        always_throws (sqlValidationAgent_experimentWithQuery deps)
          (validation_input st sql sch) m
  | execute_sql =>
      exists sql v,
        sqlQuery st = Some sql /\ sql <> "" /\ validationResult st = Some v /\
        always_throws (sqlExecutionAgent_executeSQL deps) (execution_input sql v) m
  | interpret_results =>
      exists sql r,
        sqlQuery st = Some sql /\ sql <> "" /\ executionResult st = Some r /\
        always_throws (resultInterpretationAgent_interpretResults deps)
          {| ResultInterpretation.originalQuestion := originalQuestion st;
             ResultInterpretation.sqlQuery := sql;
             ResultInterpretation.queryResults :=
               match SQLExecution.data r with
               | Some rows => rows
               | None => []
               end |} m
  | handle_error => False
  end.

(** What a node returns when its collaborator throws [m]. *)
Definition caught_as (n : Node) (m : string) : Partial :=
  match n with
  | load_schema => [set_error (Some ("Failed to load database schema: " ++ m))]
  | nl_to_sql => [set_error (Some ("NL to SQL conversion failed: " ++ m))]
  | validate_sql => [set_error (Some ("SQL validation failed: " ++ m))]
  | experiment_alternatives => []
  | execute_sql => [set_error (Some ("SQL execution failed: " ++ m))]
  | interpret_results => [set_error (Some ("Result interpretation failed: " ++ m))]
  | handle_error => []
  end.

(** Two gateways that a run with session [sid] cannot tell apart: there is
    no session to notify, or they throw on the same calls. *)
Definition gateways_agree (g1 g2 : Gateway) (sid : option string) : Prop :=
  JS.truthy_string sid = false \/ forall w c, g1 w c = g2 w c.

(* ================================================================== *)
(** ** Replacing one collaborator *)

Definition with_gateway (deps : Collaborators) (g : Gateway) : Collaborators :=
  {| nlToSqlAgent_convertNLToSQL := nlToSqlAgent_convertNLToSQL deps;
     sqlValidationAgent_validateSQL := sqlValidationAgent_validateSQL deps;
     sqlValidationAgent_experimentWithQuery :=
       sqlValidationAgent_experimentWithQuery deps;
     sqlExecutionAgent_executeSQL := sqlExecutionAgent_executeSQL deps;
     resultInterpretationAgent_interpretResults :=
       resultInterpretationAgent_interpretResults deps;
     databaseService_getSchemaInfo := databaseService_getSchemaInfo deps;
     streamingService_gateway := g;
     graph_keeps_undeclared_keys := graph_keeps_undeclared_keys deps |}.

(** The workflow wired to the executor of sql-execution.agent.ts. *)
Definition with_execution_agent (deps : Collaborators) (db : DatabaseService)
  : Collaborators :=
  {| nlToSqlAgent_convertNLToSQL := nlToSqlAgent_convertNLToSQL deps;
     sqlValidationAgent_validateSQL := sqlValidationAgent_validateSQL deps;
     sqlValidationAgent_experimentWithQuery :=
       sqlValidationAgent_experimentWithQuery deps;
     sqlExecutionAgent_executeSQL := SQLExecutionAgent.executeSQL db;
     resultInterpretationAgent_interpretResults :=
       resultInterpretationAgent_interpretResults deps;
     databaseService_getSchemaInfo := databaseService_getSchemaInfo deps;
     streamingService_gateway := streamingService_gateway deps;
     graph_keeps_undeclared_keys := graph_keeps_undeclared_keys deps |}.

(** The workflow wired to the validation agent of sql-validation.agent.ts. *)
Definition with_validation_agent (deps : Collaborators)
    (explain : string -> M unit)
    (validation_invoke : SQLValidation.Input -> M SQLValidation.Output)
    (alternatives_invoke : SQLValidation.Input -> M SQLValidation.Alternatives)
  : Collaborators :=
  {| nlToSqlAgent_convertNLToSQL := nlToSqlAgent_convertNLToSQL deps;
     sqlValidationAgent_validateSQL :=
       SQLValidationAgent.validateSQL explain validation_invoke;
     sqlValidationAgent_experimentWithQuery :=
       SQLValidationAgent.experimentWithQuery alternatives_invoke;
     sqlExecutionAgent_executeSQL := sqlExecutionAgent_executeSQL deps;
     resultInterpretationAgent_interpretResults :=
       resultInterpretationAgent_interpretResults deps;
     databaseService_getSchemaInfo := databaseService_getSchemaInfo deps;
     streamingService_gateway := streamingService_gateway deps;
     graph_keeps_undeclared_keys := graph_keeps_undeclared_keys deps |}.

(* ================================================================== *)
(** ** Concrete collaborators for the examples *)

Module Scenario.

Definition question : string := "count rows in orders".
Definition session : option string := Some "session-1".

Definition orders_schema : Schema := [("orders", "id, total")].

Definition translation (confidence : Z) : NLToSQL.Output :=
  {| NLToSQL.sqlQuery := "SELECT COUNT(*) FROM orders";
     NLToSQL.explanation := "Counts the rows of orders";
     NLToSQL.confidence := confidence |}.

Definition accepted : SQLValidation.Output :=
  {| SQLValidation.isValid := true; SQLValidation.issues := [];
     SQLValidation.suggestions := []; SQLValidation.improvedQuery := None;
     SQLValidation.riskLevel := LOW; SQLValidation.shouldExecute := true |}.

Definition high_risk : SQLValidation.Output :=
  {| SQLValidation.isValid := true;
     SQLValidation.issues := ["Scans the whole table"];
     SQLValidation.suggestions := []; SQLValidation.improvedQuery := None;
     SQLValidation.riskLevel := HIGH; SQLValidation.shouldExecute := true |}.

Definition rejected : SQLValidation.Output :=
  {| SQLValidation.isValid := false;
     SQLValidation.issues := ["Column total is not aggregated"];
     SQLValidation.suggestions := []; SQLValidation.improvedQuery := None;
     SQLValidation.riskLevel := MEDIUM; SQLValidation.shouldExecute := false |}.

Definition alternative (q : string) (c : Z) : SQLValidation.Alternative :=
  {| SQLValidation.query := q; SQLValidation.alt_explanation := "another way";
     SQLValidation.confidence := c |}.

Definition three_alternatives : list SQLValidation.Alternative :=
  [alternative "SELECT COUNT(id) FROM orders" 40;
   alternative "SELECT COUNT(1) FROM orders" 85;
   alternative "SELECT SUM(1) FROM orders" 60].

Definition answer : AskQLStructuredOutput :=
  {| summary := "There are 5 orders.";
     table := {| table_should_show := false; table_columns := []; table_data := [] |};
     bar_chart := None; line_chart := None; pie_chart := None |}.

Definition database : DatabaseService :=
  {| executeReadOnlyQuery := fun _ _ => Resolved (RowArray [[("count", JInteger 5)]]);
     now := fun w => Z.of_nat (length w) |}.

Definition quiet_gateway : Gateway := fun _ _ => None.

(** A gateway whose socket is gone: every call throws. *)
Definition broken_gateway : Gateway := fun _ _ => Some "socket closed".

(** A gateway that only fails to send the final result. *)
Definition completion_fails_gateway : Gateway :=
  fun _ c =>
    match c with
    | emitWorkflowComplete _ _ => Some "result is not serialisable"
    | _ => None
    end.

(** A gateway that only fails on the [completed] step of schema loading. *)
Definition schema_loaded_fails_gateway : Gateway :=
  fun _ c =>
    match c with
    | emitWorkflowStep _ {| step := "schema_loading"; status := completed |} =>
        Some "socket closed"
    | _ => None
    end.


(** All collaborators answer as in the end-to-end scenario; the translator's
    confidence and the validator's verdict vary. *)
Definition healthy (g : Gateway) (confidence : Z)
    (validation : SQLValidation.Output) : Collaborators :=
  {| nlToSqlAgent_convertNLToSQL := fun _ => ret (translation confidence);
     sqlValidationAgent_validateSQL := fun _ => ret validation;
     sqlValidationAgent_experimentWithQuery :=
       fun _ => ret {| SQLValidation.alternatives := Some three_alternatives |};
     sqlExecutionAgent_executeSQL := SQLExecutionAgent.executeSQL database;
     resultInterpretationAgent_interpretResults := fun _ => ret answer;
     databaseService_getSchemaInfo := ret orders_schema;
     streamingService_gateway := g;
     graph_keeps_undeclared_keys := true |}.

(** The same, with an executor that crashes. *)
Definition executor_crashes : Collaborators :=
  {| nlToSqlAgent_convertNLToSQL := fun _ => ret (translation 92);
     sqlValidationAgent_validateSQL := fun _ => ret accepted;
     sqlValidationAgent_experimentWithQuery :=
       fun _ => ret {| SQLValidation.alternatives := Some three_alternatives |};
     sqlExecutionAgent_executeSQL := fun _ => throw "connection reset";
     resultInterpretationAgent_interpretResults := fun _ => ret answer;
     databaseService_getSchemaInfo := ret orders_schema;
     streamingService_gateway := quiet_gateway;
     graph_keeps_undeclared_keys := true |}.


(** A state after Validate, as the routers and Experiment see it. *)
Definition validated_state (confidence : option Z) (validation : SQLValidation.Output)
  : AskQLState :=
  {| originalQuestion := question; sessionId := None;
     schema := Some orders_schema;
     sqlQuery := Some "SELECT COUNT(*) FROM orders";
     queryExplanation := Some "Counts the rows of orders";
     sqlConfidence := confidence;
     validationResult := Some validation; alternativeQueries := None;
     executionResult := None; finalResponse := None; error := None;
     retryCount := Some 0; messages := [] |}.


(** A failed execution, as Interpret would see it if called directly. *)
Definition failed_execution : SQLExecution.Output :=
  {| SQLExecution.success := false; SQLExecution.data := None;
     SQLExecution.error := Some "relation orders does not exist";
     SQLExecution.executionTime := 3; SQLExecution.rowCount := 0;
     SQLExecution.columnInfo := [] |}.

Definition state_after_failed_execution : AskQLState :=
  {| originalQuestion := question; sessionId := None;
     schema := Some orders_schema;
     sqlQuery := Some "SELECT COUNT(*) FROM orders";
     queryExplanation := Some "Counts the rows of orders";
     sqlConfidence := Some 92;
     validationResult := Some accepted; alternativeQueries := None;
     executionResult := Some failed_execution; finalResponse := None;
     error := None; retryCount := Some 0; messages := [] |}.

End Scenario.

(** A run of the end-to-end scenario in which Validate returns [validation]:
    the executor refuses with [reason], no query reaches the database, and
    the state returned has the reason in [executionResult.error] only. *)
Definition refusal_left_out_of_error (validation : SQLValidation.Output)
    (reason : string) : Prop :=
  exists st w' r,
    processQuery (Scenario.healthy Scenario.quiet_gateway 92 validation)
      Scenario.question None [] = (Ok st, w')
    /\ Forall (fun e => match e with Queried _ => False | _ => True end) w'
    /\ error st = None /\ finalResponse st = None /\ retryCount st = Some 1
    /\ executionResult st = Some r
    /\ SQLExecution.success r = false
    /\ SQLExecution.error r = Some reason.

(* ================================================================== *)
(** ** nl-to-sql.agent.ts

    The structured call to the model is opaque: it is given the agent's
    input (the prompts are built from it) and returns the parsed answer or
    throws. *)

Module NLToSQLAgent.
Section Agent.
Variable structuredLlm_invoke : NLToSQL.Input -> M NLToSQL.Output.

Definition convertNLToSQL (input : NLToSQL.Input) : M NLToSQL.Output :=
  try_catch
    (parsedResponse <- structuredLlm_invoke input ;;
     let trimmedQuery := JS.toUpperCase (JS.trim (NLToSQL.sqlQuery parsedResponse)) in
     if negb (JS.startsWith trimmedQuery "SELECT")
     then throw "Generated query is not a SELECT statement"
     else ret parsedResponse)
    (fun message => throw ("NL to SQL conversion failed: " ++ message)).
End Agent.
End NLToSQLAgent.

(* ================================================================== *)
(** ** database.service.ts

    The class [DatabaseService], as far as the executor and the health
    check reach it. The driver behind [this.connection] is opaque: each of
    its calls resolves, rejects or stays pending, possibly depending on
    what happened before. *)

Module Database.

Inductive DatabaseType := postgresql | mysql | sqlite.

Record Connection :=
  { (** [(await connection.query(sql, params)).rows] *)
    pg_query : World -> string -> list JsValue -> Settlement QueryResult;
    (** [const [mysqlRows] = await connection.execute(sql, params)] *)
    mysql_execute : World -> string -> list JsValue -> Settlement QueryResult;
    (** [await connection.all(sql, params)] *)
    sqlite_all : World -> string -> list JsValue -> Settlement QueryResult }.

Section Service.
Variable config_type : DatabaseType.
Variable connection : Connection.

Definition executeQuery (w : World) (sql : string) (params : list JsValue)
  : Settlement QueryResult :=
  match
    match config_type with
    | postgresql => pg_query connection w sql params
    | mysql => mysql_execute connection w sql params
    | sqlite => sqlite_all connection w sql params
    end
  with
  | Resolved rows => Resolved rows
  | Rejected message => Rejected ("Query execution failed: " ++ message)
  | Pending => Pending
  end.

Definition executeReadOnlyQuery (w : World) (sql : string) : Settlement QueryResult :=
  let trimmedSql := JS.toUpperCase (JS.trim sql) in
  if negb (JS.startsWith trimmedSql "SELECT")
     && negb (JS.startsWith trimmedSql "EXPLAIN")
  then Rejected "Only SELECT and EXPLAIN queries are allowed for safety"
  else
    match executeQuery w sql [] with
    | Resolved result =>
        Resolved (RowArray match result with
                           | RowArray rows => rows
                           | SingleRow row => [row]
                           end)
    | Rejected message => Rejected ("SQL execution failed: " ++ message)
    | Pending => Pending
    end.

(** [{ isValid, error? }] *)
Definition validateQuerySyntax (w : World) (sqlQuery : string)
  : Settlement (bool * option string) :=
  let explainQuery :=
    match config_type with
    | postgresql | mysql => "EXPLAIN " ++ sqlQuery
    | sqlite => "EXPLAIN QUERY PLAN " ++ sqlQuery
    end in
  match executeQuery w explainQuery [] with
  | Resolved _ => Resolved (true, None)
  | Rejected message => Resolved (false, Some message)
  | Pending => Pending
  end.

Definition DatabaseType_to_string (t : DatabaseType) : string :=
  match t with
  | postgresql => "postgresql"
  | mysql => "mysql"
  | sqlite => "sqlite"
  end.

(** [{ connected, error?, dbType? }] *)
Record ConnectionStatus :=
  { connected : bool; status_error : option string; dbType : option string }.

Definition testConnection (w : World) : Settlement ConnectionStatus :=
  match executeQuery w "SELECT 1 as test" [] with
  | Resolved _ =>
      Resolved {| connected := true; status_error := None;
                  dbType := Some (DatabaseType_to_string config_type) |}
  | Rejected message =>
      Resolved {| connected := false; status_error := Some message;
                  dbType := Some (DatabaseType_to_string config_type) |}
  | Pending => Pending
  end.

Definition queryRawUnsafe (w : World) (sql : string) (params : list JsValue)
  : Settlement QueryResult :=
  executeQuery w sql params.

End Service.

(** The service as the executor holds it; [clock] is [Date.now]. *)
Definition service (config_type : DatabaseType) (connection : Connection)
    (clock : World -> Z) : DatabaseService :=
  Build_DatabaseService (executeReadOnlyQuery config_type connection) clock.

End Database.

(* ================================================================== *)
(** ** askql.gateway.ts

    The gateway keeps one socket per connected client, keyed by the
    client's id, and hands a message to the socket of the session it is
    meant for. *)

(** [Map<string, V>]: the entries in insertion order, one per key. *)
Module JSMap.
Section Map.
Context {V : Type}.

Fixpoint get (m : list (string * V)) (k : string) : option V :=
  match m with
  | [] => None
  | (k', v) :: rest => if String.eqb k' k then Some v else get rest k
  end.

(** [m.set(k, v)]: an existing key keeps its place. *)
Fixpoint set (m : list (string * V)) (k : string) (v : V) : list (string * V) :=
  match m with
  | [] => [(k, v)]
  | (k', v') :: rest =>
      if String.eqb k' k then (k, v) :: rest else (k', v') :: set rest k v
  end.

Fixpoint delete (m : list (string * V)) (k : string) : list (string * V) :=
  match m with
  | [] => []
  | (k', v') :: rest =>
      if String.eqb k' k then rest else (k', v') :: delete rest k
  end.

Definition size (m : list (string * V)) : Z := Z.of_nat (length m).
End Map.
End JSMap.

Module AskQLGateway.

Inductive OverallStatus := running | overall_completed | overall_error.

Record WorkflowProgress :=
  { progress_sessionId : string; progress_question : string;
    progress_steps : list WorkflowStep; currentStep : string;
    overallStatus : OverallStatus }.

(** What a socket is asked to send: the event and its payload (timestamps
    are not modelled). *)
Inductive Message :=
| workflow_step (step : WorkflowStep)
| workflow_progress (progress : WorkflowProgress)
| workflow_complete (result : AskQLState)
| workflow_error (error : string).

(** A client socket: its id, and whether [client.emit] throws. *)
Record Socket :=
  { id : string; emit_throws : Message -> option string }.

(** The gateway's [sessions], and what its sockets were asked to send:
    socket id and message, oldest first. *)
Record State :=
  { sessions : list (string * Socket); sent : list (string * Message) }.

(** A gateway method: it may throw and acts on the gateway's state. *)
Definition G (A : Type) : Type := State -> Result A * State.

Definition handleConnection (client : Socket) : G unit :=
  fun s =>
    (Ok tt, {| sessions := JSMap.set (sessions s) (id client) client;
               sent := sent s |}).

Definition handleDisconnect (client : Socket) : G unit :=
  fun s =>
    (Ok tt, {| sessions := JSMap.delete (sessions s) (id client);
               sent := sent s |}).

(** [const client = this.sessions.get(sessionId);
     if (client) { client.emit(event, payload) }] *)
Definition emit_to (sessionId : string) (m : Message) : G unit :=
  fun s =>
    match JSMap.get (sessions s) sessionId with
    | Some client =>
        let s' := {| sessions := sessions s;
                     sent := (sent s ++ [(id client, m)])%list |} in
        match emit_throws client m with
        | None => (Ok tt, s')
        | Some message => (Throw message, s')
        end
    | None => (Ok tt, s)
    end.

Definition emitWorkflowStep (sessionId : string) (step : WorkflowStep) : G unit :=
  emit_to sessionId (workflow_step step).

Definition emitWorkflowProgress (sessionId : string) (progress : WorkflowProgress)
  : G unit :=
  emit_to sessionId (workflow_progress progress).

Definition emitWorkflowComplete (sessionId : string) (result : AskQLState) : G unit :=
  emit_to sessionId (workflow_complete result).

Definition emitWorkflowError (sessionId : string) (error : string) : G unit :=
  emit_to sessionId (workflow_error error).

(** [{ sessionId, status }] *)
Definition handleStartQuery (question : string) (client : Socket)
  : G (string * string) :=
  fun s =>
    let progress :=
      {| progress_sessionId := id client; progress_question := question;
         progress_steps := []; currentStep := "initializing";
         overallStatus := running |} in
    match emitWorkflowProgress (id client) progress s with
    | (Ok _, s') => (Ok (id client, "started"), s')
    | (Throw message, s') => (Throw message, s')
    end.

Definition getActiveSessionsCount (s : State) : Z := JSMap.size (sessions s).

End AskQLGateway.

(* ================================================================== *)
(** ** askql.service.ts *)

(** [AskQLRequest], [Visualization] and [AskQLResponse] *)
Module Response.

Record AskQLRequest := { question : string; includeDebugInfo : option bool }.

Inductive VisualizationType := chart | table_view.
Inductive ChartType := bar | line | pie.

(** [labels] and [datasets] of a chart's [config] are copied from the
    chart's data, which [ChartView] leaves out. *)
Record VisualizationConfig :=
  { chartType : option ChartType; columns : option (list string) }.

Record Visualization :=
  { type : VisualizationType; title : string; config : VisualizationConfig;
    data : option (list Row) }.

Record Metadata :=
  { executionTime : Z; sqlQuery : option string; confidence : option Z;
    rowCount : Z }.

Record DebugInfo := { workflow : AskQLState; steps : list string }.

Record AskQLResponse :=
  { success : bool; answer : string; visualizations : list Visualization;
    metadata : Metadata; debugInfo : option DebugInfo; error : option string }.

End Response.

Module AskQLService.

Definition extractWorkflowSteps (workflowResult : AskQLState) : list string :=
  ((if JS.truthy_object (schema workflowResult)
    then ["✓ Loaded database schema"] else [])
   ++ (if JS.truthy_string (sqlQuery workflowResult)
       then ["✓ Converted natural language to SQL"] else [])
   ++ match validationResult workflowResult with
      | Some v =>
          [("✓ Validated SQL query ("
              ++ RiskLevel_to_string (SQLValidation.riskLevel v) ++ " risk)")%string]
      | None => []
      end
   ++ match alternativeQueries workflowResult with
      | Some alts =>
          if (0 <? length alts)%nat
          then [("✓ Experimented with "
                   ++ JS.string_of_number (Z.of_nat (length alts))
                   ++ " alternative approaches")%string]
          else []
      | None => []
      end
   ++ match executionResult workflowResult with
      | Some r =>
          if SQLExecution.success r
          then ["✓ Executed SQL query successfully"]
          else ["✗ SQL execution failed"]
      | None => []
      end
   ++ (if JS.truthy_object (finalResponse workflowResult)
       then ["✓ Interpreted results to natural language"] else [])
   ++ match error workflowResult with
      | Some (String c e) => [("✗ Error: " ++ String c e)%string]
      | _ => []
      end)%list.

(** [chart?.should_show] and the visualization pushed for it. *)
Definition chart_visualization (c : option ChartView) (kind : Response.ChartType)
    (fallback : string) : list Response.Visualization :=
  match c with
  | Some c =>
      if chart_should_show c
      then [{| Response.type := Response.chart;
               Response.title :=
                 if JS.truthy_string (Some (chart_title c))
                 then chart_title c else fallback;
               Response.config :=
                 {| Response.chartType := Some kind; Response.columns := None |};
               Response.data := None |}]
      else []
  | None => []
  end.

(** [finalResponse.table.data && finalResponse.table.data.length > 0
       ? finalResponse.table.data : executionResult?.data || []] *)
Definition tableData (finalResponse : AskQLStructuredOutput)
    (executionResult : option SQLExecution.Output) : list Row :=
  if (0 <? length (table_data (table finalResponse)))%nat
  then table_data (table finalResponse)
  else match executionResult with
       | Some r =>
           match SQLExecution.data r with
           | Some rows => rows
           | None => []
           end
       | None => []
       end.

Definition table_visualization (finalResponse : AskQLStructuredOutput)
    (executionResult : option SQLExecution.Output) : list Response.Visualization :=
  if table_should_show (table finalResponse) then
    let tableData := tableData finalResponse executionResult in
    [{| Response.type := Response.table_view;
        Response.title := "Data Table";
        Response.config :=
          {| Response.chartType := None;
             Response.columns :=
               Some (if negb (length (table_columns (table finalResponse)) =? 0)%nat
                     then table_columns (table finalResponse)
                     else match tableData with
                          | firstRow :: _ => map fst firstRow
                          | [] => []
                          end) |};
        Response.data := Some tableData |}]
  else [].

Definition build_visualizations (finalResponse : AskQLStructuredOutput)
    (executionResult : option SQLExecution.Output) : list Response.Visualization :=
  (chart_visualization (bar_chart finalResponse) Response.bar "Bar Chart"
   ++ chart_visualization (line_chart finalResponse) Response.line "Line Chart"
   ++ chart_visualization (pie_chart finalResponse) Response.pie "Pie Chart"
   ++ table_visualization finalResponse executionResult)%list.

(** [...(request.includeDebugInfo && { debugInfo: ... })] *)
Definition debug_info (request : Response.AskQLRequest)
    (workflowResult : AskQLState) : option Response.DebugInfo :=
  match Response.includeDebugInfo request with
  | Some true =>
      Some {| Response.workflow := workflowResult;
              Response.steps := extractWorkflowSteps workflowResult |}
  | _ => None
  end.

(** The three responses with [success: false]. *)
Definition failure (answer : string) (totalExecutionTime : Z)
    (error : string) (debug : option Response.DebugInfo)
  : Response.AskQLResponse :=
  {| Response.success := false;
     Response.answer := answer;
     Response.visualizations := [];
     Response.metadata :=
       {| Response.executionTime := totalExecutionTime;
          Response.sqlQuery := None; Response.confidence := None;
          Response.rowCount := 0 |};
     Response.debugInfo := debug;
     Response.error := Some error |}.

(** [executionResult?.data?.length || 0] *)
Definition data_length (executionResult : option SQLExecution.Output) : Z :=
  match executionResult with
  | Some r =>
      match SQLExecution.data r with
      | Some rows => Z.of_nat (length rows)
      | None => 0
      end
  | None => 0
  end.

Section Service.
Variable deps : Collaborators.
(** [Date.now] *)
Variable clock : World -> Z.

Definition Date_now : M Z := fun w => (Ok (clock w), w).

Definition processNaturalLanguageQuery (request : Response.AskQLRequest)
  : M Response.AskQLResponse :=
  startTime <- Date_now ;;
  try_catch
    (workflowResult <- processQuery deps (Response.question request) None ;;
     now <- Date_now ;;
     let totalExecutionTime := now - startTime in
     match error workflowResult with
     | Some (String c e) =>
         ret (failure
                ("I encountered an error while processing your question: "
                   ++ String c e)
                totalExecutionTime (String c e)
                (debug_info request workflowResult))
     | _ =>
         match finalResponse workflowResult with
         | None =>
             ret (failure "I was unable to generate a response to your question."
                    totalExecutionTime "No final response generated" None)
         | Some finalResponse =>
             ret {| Response.success := true;
                    Response.answer := summary finalResponse;
                    Response.visualizations :=
                      build_visualizations finalResponse
                        (executionResult workflowResult);
                    Response.metadata :=
                      {| Response.executionTime := totalExecutionTime;
                         Response.sqlQuery := sqlQuery workflowResult;
                         Response.confidence := sqlConfidence workflowResult;
                         Response.rowCount :=
                           data_length (executionResult workflowResult) |};
                    Response.debugInfo := debug_info request workflowResult;
                    Response.error := None |}
         end
     end)
    (fun message =>
       now <- Date_now ;;
       ret (failure
              ("I encountered an unexpected error while processing your question: "
                 ++ message)
              (now - startTime) message None)).

Definition base_suggestions : list string :=
  ["Show me all tables in this database";
   "What is the structure of this database?";
   "How many records are in each table?";
   "Show me the distribution of data across categories";
   "What are the trends in the data over time?";
   "Give me a breakdown of the data by category";
   "Show me the top 10 records by value";
   "What are the key metrics for this dataset?"].

Definition table_suggestions (tableName : string) : list string :=
  ["How many records are in the " ++ tableName ++ " table?";
   "Show me the first 5 rows from " ++ tableName;
   "What columns does the " ++ tableName ++ " table have?"].

Definition getQuerySuggestions : M (list string) :=
  try_catch
    (schema <- databaseService_getSchemaInfo deps ;;
     let tableNames := map fst schema in
     if (length tableNames =? 0)%nat then
       ret ["No tables found in the database."]
     else
       let suggestions :=
         (base_suggestions
          ++ flat_map table_suggestions (firstn 3 tableNames)
          ++ ["Show me the largest tables by record count";
              "What are the relationships between tables?";
              "Show me tables with the most columns"])%list in
       ret (firstn 8 suggestions))
    (fun _ =>
       ret ["Show me all tables in this database";
            "What is the structure of this database?";
            "How many tables are in this database?"]).

Definition getSchemaInfo : M Schema :=
  try_catch
    (databaseService_getSchemaInfo deps)
    (fun message => throw ("Failed to get schema info: " ++ message)).

End Service.
End AskQLService.

(* ================================================================== *)
(** ** drill-down.agent.ts: the helpers that do not call the model *)

Module DrillDownAgent.

Inductive Operation := detail | filter | group | trend.

Definition Operation_eqb (a b : Operation) : bool :=
  match a, b with
  | detail, detail | filter, filter | group, group | trend, trend => true
  | _, _ => false
  end.

Definition Operation_to_string (o : Operation) : string :=
  match o with
  | detail => "detail"
  | filter => "filter"
  | group => "group"
  | trend => "trend"
  end.

Record DataSource := { table : string; source_columns : list string }.

(** [originalVisualization.drillDown] *)
Record DrillDownContext :=
  { originalQuestion : string; sqlContext : string; dataSource : DataSource;
    supportedOperations : option (list Operation) }.

Record Validity := { valid : bool; reason : option string }.

(** [ops.includes(op)] *)
Definition includes (ops : list Operation) (op : Operation) : bool :=
  existsb (fun o => Operation_eqb o op) ops.

Definition validateDrillDown (operation : Operation)
    (drillDown : option DrillDownContext) : Validity :=
  match drillDown with
  | None =>
      {| valid := false;
         reason := Some "No drill-down context available for this visualization" |}
  | Some drillDownContext =>
      if negb (JS.truthy_string (Some (table (dataSource drillDownContext)))) then
        {| valid := false;
           reason := Some "No table information available for drill-down" |}
      else
        let supportedOps :=
          match supportedOperations drillDownContext with
          | Some ops => ops
          | None => []
          end in
        if (0 <? length supportedOps)%nat && negb (includes supportedOps operation)
        then
          {| valid := false;
             reason :=
               Some ("Operation '" ++ Operation_to_string operation
                       ++ "' not supported. Available: "
                       ++ JS.join ", " (map Operation_to_string supportedOps)) |}
        else {| valid := true; reason := None |}
  end.

Definition suggestDrillDowns (drillDown : option DrillDownContext) : list string :=
  match drillDown with
  | None => []
  | Some drillDownContext =>
      let supportedOps :=
        match supportedOperations drillDownContext with
        | Some ops => ops
        | None => [detail; filter; group; trend]
        end in
      let suggestions :=
        ((if includes supportedOps detail
          then ["Show detailed records"; "View individual entries"] else [])
         ++ (if includes supportedOps filter
             then ["Filter by specific value"; "Show only selected category"]
             else [])
         ++ (if includes supportedOps group
             then ["Group by additional dimension"; "Break down by subcategory"]
             else [])
         ++ (if includes supportedOps trend
             then ["Show trends over time"; "View temporal patterns"]
             else []))%list in
      firstn 4 suggestions
  end.

(** Equality of two values of a row as [Array.prototype.includes] tests
    it; on these values it is [===]. *)
Definition JsValue_eqb (a b : JsValue) : bool :=
  match a, b with
  | JNull, JNull => true
  | JInteger x, JInteger y => x =? y
  | JBoolean x, JBoolean y => Bool.eqb x y
  | JString x, JString y => String.eqb x y
  | _, _ => false
  end.

(** A value that may be [undefined]: a missing [selectedValue], a missing
    key of a row. *)
Definition same_value (a b : option JsValue) : bool :=
  match a, b with
  | Some x, Some y => JsValue_eqb x y
  | None, None => true
  | _, _ => false
  end.

Definition truthy (v : option JsValue) : bool :=
  match v with
  | Some JNull | None => false
  | Some (JInteger z) => negb (z =? 0)
  | Some (JBoolean b) => b
  | Some (JString s) => JS.truthy_string (Some s)
  end.

(** [row[col]] *)
Fixpoint property (row : Row) (col : string) : option JsValue :=
  match row with
  | [] => None
  | (k, v) :: rest => if String.eqb k col then Some v else property rest col
  end.

(** [availableData.map((row) => row[col])] includes the selected value or
    the selected label. *)
Definition column_holds (availableData : list Row) (selectedValue : option JsValue)
    (selectedLabel : string) (col : string) : bool :=
  let values := map (fun row => property row col) availableData in
  existsb (same_value selectedValue) values
  || existsb (same_value (Some (JString selectedLabel))) values.

(** The filters, as the list of the keys set and their values. *)
Definition generateSmartFilters (selectedValue : option JsValue)
    (selectedLabel : string) (availableData : list Row)
  : list (string * JsValue) :=
  match availableData with
  | [] => []
  | firstRow :: _ =>
      let columns := map fst firstRow in
      match find (column_holds availableData selectedValue selectedLabel) columns with
      | Some col =>
          [(col, match selectedValue with
                 | Some v => if truthy selectedValue then v else JString selectedLabel
                 | None => JString selectedLabel
                 end)]
      | None => []
      end
  end.

End DrillDownAgent.

(* ================================================================== *)
(** ** visualization-edit.agent.ts: [suggestEdits] *)

Module VisualizationEditAgent.

Inductive ChartType := bar | line | pie | scatter | area | doughnut.

Definition is_chart_type (a : option ChartType) (b : ChartType) : bool :=
  match a, b with
  | Some bar, bar | Some line, line | Some pie, pie
  | Some scatter, scatter | Some area, area | Some doughnut, doughnut => true
  | _, _ => false
  end.

(** [col.replace(/_/g, ' ')] *)
Fixpoint replace_underscores (s : string) : string :=
  match s with
  | String c rest =>
      String (if Ascii.eqb c "_" then " "%char else c) (replace_underscores rest)
  | EmptyString => EmptyString
  end.

(** [visualization.config]: the chart type and the labels. *)
Record Config := { chartType : option ChartType; labels : option (list string) }.

(** [config.labels?.[0]] *)
Definition first_label (c : Config) : option string :=
  match labels c with
  | Some (l :: _) => Some l
  | _ => None
  end.

Definition is_first_label (c : Config) (col : string) : bool :=
  match first_label c with
  | Some l => String.eqb col l
  | None => false
  end.

Definition suggestEdits (config : Config) (availableData : list Row) : list string :=
  let suggestions :=
    ((if negb (is_chart_type (chartType config) pie)
      then ["Convert to pie chart"] else [])
     ++ (if negb (is_chart_type (chartType config) bar)
         then ["Show as bar chart"] else [])
     ++ (if negb (is_chart_type (chartType config) line)
         then ["Make it a line graph"] else [])
     ++ match availableData with
        | firstRow :: _ =>
            let columns := map fst firstRow in
            (map (fun col => ("Group by " ++ replace_underscores col)%string)
               (filter (fun col => negb (is_first_label config col)) columns)
             ++ let dateColumns :=
                  filter
                    (fun col =>
                       JS.includes col "date" || JS.includes col "time"
                       || JS.includes col "year" || JS.includes col "month")
                    columns in
                if (0 <? length dateColumns)%nat
                then ["Show trends over time"; "Group by time period"] else [])%list
        | [] => []
        end
     ++ ["Show only top 10"; "Filter recent data"])%list in
  firstn 6 suggestions.

End VisualizationEditAgent.

(* ================================================================== *)
(** ** More vocabulary *)

(** The query the executor sends for [sqlQuery]: trimmed, without trailing
    semicolons, with a row limit unless it has one or aggregates. *)
Definition sent_query (sqlQuery : string) : string :=
  let queryToExecute := JS.stripTrailingSemicolons (JS.trim sqlQuery) in
  if negb (JS.includes (JS.toUpperCase queryToExecute) "LIMIT")
     && negb (SQLExecutionAgent.isAggregateQuery queryToExecute)
  then queryToExecute ++ " LIMIT " ++ JS.string_of_number SQLExecutionAgent.MAX_ROWS
  else queryToExecute.

(** The executor answers [input] without asking the database. *)
Definition refuses (input : SQLExecution.Input) : bool :=
  negb (SQLExecution.isValidated input)
  || RiskLevel_eqb (SQLExecution.riskLevel input) HIGH
  || negb (is_select (SQLExecution.sqlQuery input)).

(** The test of [executeReadOnlyQuery]. *)
Definition passes_read_only_guard (sql : string) : bool :=
  JS.startsWith (JS.toUpperCase (JS.trim sql)) "SELECT"
  || JS.startsWith (JS.toUpperCase (JS.trim sql)) "EXPLAIN".

(** The workflow wired to the translator of nl-to-sql.agent.ts. *)
Definition with_translation_agent (deps : Collaborators)
    (structuredLlm_invoke : NLToSQL.Input -> M NLToSQL.Output) : Collaborators :=
  {| nlToSqlAgent_convertNLToSQL := NLToSQLAgent.convertNLToSQL structuredLlm_invoke;
     sqlValidationAgent_validateSQL := sqlValidationAgent_validateSQL deps;
     sqlValidationAgent_experimentWithQuery :=
       sqlValidationAgent_experimentWithQuery deps;
     sqlExecutionAgent_executeSQL := sqlExecutionAgent_executeSQL deps;
     resultInterpretationAgent_interpretResults :=
       resultInterpretationAgent_interpretResults deps;
     databaseService_getSchemaInfo := databaseService_getSchemaInfo deps;
     streamingService_gateway := streamingService_gateway deps;
     graph_keeps_undeclared_keys := graph_keeps_undeclared_keys deps |}.

(** The complete paths of the graph, from each node to END. *)
Definition paths_from (n : Node) : list (list Node) :=
  let from_execute :=
    [[execute_sql; interpret_results]; [execute_sql; handle_error]] in
  let from_experiment := map (cons experiment_alternatives) from_execute in
  let from_validate :=
    [validate_sql; handle_error]
      :: map (cons validate_sql) (from_execute ++ from_experiment) in
  let from_translate :=
    [nl_to_sql; handle_error] :: map (cons nl_to_sql) from_validate in
  match n with
  | load_schema => map (cons load_schema) from_translate
  | nl_to_sql => from_translate
  | validate_sql => from_validate
  | experiment_alternatives => from_experiment
  | execute_sql => from_execute
  | interpret_results => [[interpret_results]]
  | handle_error => [[handle_error]]
  end.

(** [sessions] is a map: no client id occurs twice. *)
Definition sessions_ok (s : AskQLGateway.State) : Prop :=
  NoDup (map fst (AskQLGateway.sessions s)).

(** Whether a client with this id is connected. *)
Definition connected (s : AskQLGateway.State) (sessionId : string) : bool :=
  match JSMap.get (AskQLGateway.sessions s) sessionId with
  | Some _ => true
  | None => false
  end.

(** The suggestions [suggestDrillDowns] has for an operation. *)
Definition suggestions_for (op : DrillDownAgent.Operation) : list string :=
  match op with
  | DrillDownAgent.detail => ["Show detailed records"; "View individual entries"]
  | DrillDownAgent.filter => ["Filter by specific value"; "Show only selected category"]
  | DrillDownAgent.group => ["Group by additional dimension"; "Break down by subcategory"]
  | DrillDownAgent.trend => ["Show trends over time"; "View temporal patterns"]
  end.

(** The suggestion [suggestEdits] has for a chart type. *)
Definition conversion_to (t : VisualizationEditAgent.ChartType) : option string :=
  match t with
  | VisualizationEditAgent.pie => Some "Convert to pie chart"
  | VisualizationEditAgent.bar => Some "Show as bar chart"
  | VisualizationEditAgent.line => Some "Make it a line graph"
  | _ => None
  end.

(** The code points before which a string may be cut at its end without
    touching a prefix [p] of its upper-cased form: upper-casing leaves them
    as they are and their first byte is not in [p]. *)
Definition outside (p : string) (c : string) : Prop :=
  JS.upper_char c = c
  /\ exists b r, c = String b r /\ forall q r', p <> q ++ String b r'.

(** The state a refused run ends with: no final response, [retryCount] 1,
    and the error it had before Execute, unless the query was missing. *)
Definition refused_end (st st' : AskQLState) : Prop :=
  finalResponse st' = None /\ retryCount st' = Some 1
  /\ ((error st' = error st
       /\ exists rx reason,
            executionResult st' = Some rx /\ SQLExecution.success rx = false
            /\ SQLExecution.error rx = Some reason /\ In reason refusal_reasons)
      \/ error st' = Some "SQL query or validation result missing").

(* ================================================================== *)
(** ** Concrete inputs for the further properties *)

Module Cases.

(** A driver whose connection is gone. *)
Definition lost_connection : Database.Connection :=
  {| Database.pg_query := fun _ _ _ => Rejected "connection reset";
     Database.mysql_execute := fun _ _ _ => Rejected "connection reset";
     Database.sqlite_all := fun _ _ _ => Rejected "connection reset" |}.

(** A clock that ticks with every event. *)
Definition event_clock (w : World) : Z := Z.of_nat (length w).

Definition list_orders : SQLExecution.Input :=
  {| SQLExecution.sqlQuery := "select * from orders;";
     SQLExecution.isValidated := true; SQLExecution.riskLevel := LOW |}.

(** A state after the schema was loaded. *)
Definition schema_loaded : AskQLState :=
  {| originalQuestion := Scenario.question; sessionId := None;
     schema := Some Scenario.orders_schema; sqlQuery := None;
     queryExplanation := None; sqlConfidence := None; validationResult := None;
     alternativeQueries := None; executionResult := None; finalResponse := None;
     error := None; retryCount := Some 0; messages := [] |}.

(** A model that answers with a statement that deletes. *)
Definition deleting_model : NLToSQL.Input -> M NLToSQL.Output :=
  fun _ =>
    ret {| NLToSQL.sqlQuery := "DELETE FROM orders";
           NLToSQL.explanation := "Removes the rows of orders";
           NLToSQL.confidence := 95 |}.

Definition five_orders : SQLExecution.Output :=
  {| SQLExecution.success := true;
     SQLExecution.data := Some [[("count", JInteger 5)]];
     SQLExecution.error := None; SQLExecution.executionTime := 2;
     SQLExecution.rowCount := 1;
     SQLExecution.columnInfo :=
       [{| SQLExecution.name := "count"; SQLExecution.type := "integer" |}] |}.

(** Collaborators that all answer, whatever the world. *)
Definition answering : Collaborators :=
  {| nlToSqlAgent_convertNLToSQL := fun _ => ret (Scenario.translation 92);
     sqlValidationAgent_validateSQL := fun _ => ret Scenario.accepted;
     sqlValidationAgent_experimentWithQuery :=
       fun _ => ret {| SQLValidation.alternatives := Some Scenario.three_alternatives |};
     sqlExecutionAgent_executeSQL := fun _ => ret five_orders;
     resultInterpretationAgent_interpretResults := fun _ => ret Scenario.answer;
     databaseService_getSchemaInfo := ret Scenario.orders_schema;
     streamingService_gateway := Scenario.quiet_gateway;
     graph_keeps_undeclared_keys := true |}.

(** The same, with a database that cannot be reached. *)
Definition unreachable_database : Collaborators :=
  {| nlToSqlAgent_convertNLToSQL := fun _ => ret (Scenario.translation 92);
     sqlValidationAgent_validateSQL := fun _ => ret Scenario.accepted;
     sqlValidationAgent_experimentWithQuery :=
       fun _ => ret {| SQLValidation.alternatives := Some Scenario.three_alternatives |};
     sqlExecutionAgent_executeSQL := fun _ => ret five_orders;
     resultInterpretationAgent_interpretResults := fun _ => ret Scenario.answer;
     databaseService_getSchemaInfo := throw "connection refused";
     streamingService_gateway := Scenario.quiet_gateway;
     graph_keeps_undeclared_keys := true |}.

(** The run in which Validate rejects the query and Experiment replaces
    it. *)
Definition replacing : Collaborators :=
  with_execution_agent (Scenario.healthy Scenario.quiet_gateway 50 Scenario.rejected)
    Scenario.database.

Definition ask : Response.AskQLRequest :=
  {| Response.question := Scenario.question; Response.includeDebugInfo := Some true |}.

Definition browser : AskQLGateway.Socket :=
  {| AskQLGateway.id := "socket-1"; AskQLGateway.emit_throws := fun _ => None |}.

Definition nobody_connected : AskQLGateway.State :=
  {| AskQLGateway.sessions := []; AskQLGateway.sent := [] |}.

(** Two rows of a chart, one of them with no orders. *)
Definition orders_by_region : list Row :=
  [[("region", JString "north"); ("orders", JInteger 12)];
   [("region", JString "south"); ("orders", JInteger 0)]].

Definition orders_chart : DrillDownAgent.DrillDownContext :=
  {| DrillDownAgent.originalQuestion := Scenario.question;
     DrillDownAgent.sqlContext := "SELECT COUNT(*) FROM orders";
     DrillDownAgent.dataSource :=
       {| DrillDownAgent.table := "orders";
          DrillDownAgent.source_columns := ["id"; "total"] |};
     DrillDownAgent.supportedOperations := None |}.

End Cases.

(* ================================================================== *)
(** ** Nodes, one call at a time *)

Lemma if_session_cases g sid emit w :
  notification g emit ->
  (JS.truthy_string sid = false /\ if_session sid emit w = (Ok tt, w))
  \/ (exists c, JS.truthy_string sid = true /\
        ((g w c = None /\ if_session sid emit w = (Ok tt, (w ++ [Notified c])%list))
         \/ (exists m, g w c = Some m /\
               if_session sid emit w = (Throw m, (w ++ [Notified c])%list)))).
Proof.
  intros Hn. unfold if_session.
  destruct sid as [s|]; [|left; auto].
  destruct (JS.truthy_string (Some s)) eqn:Ht; [|left; auto].
  right. destruct (Hn s) as [c Hc]. exists c. split; [reflexivity|].
  rewrite Hc. unfold gateway_call.
  destruct (g w c) as [m|]; [right; exists m; auto | left; auto].
Qed.

Ltac notification_tac :=
  let s := fresh "s" in
  intro s;
  repeat match goal with
         | |- context [match ?x with _ => _ end] => destruct x
         end;
  eexists; reflexivity.

Ltac step_session deps :=
  match goal with
  | |- context [if_session ?sid ?emit ?w] =>
      let H := fresh "Hcall" in
      let Hs := fresh "Hsid" in
      let Hg := fresh "Hgw" in
      destruct (if_session_cases (streamingService_gateway deps) sid emit w
                  ltac:(notification_tac))
        as [[Hs H] | [? [Hs [[Hg H] | [? [Hg H]]]]]];
      rewrite H; clear H; cbv beta iota
  end.

Ltac step_agent :=
  match goal with
  | |- context [match ?agent ?world with _ => _ end] =>
      lazymatch agent with
      | if_session _ _ => fail
      | _ => let E := fresh "Ecall" in
             let r := fresh "r" in
             let m := fresh "m" in
             let w' := fresh "w" in
             destruct (agent world) as [[r|m] w'] eqn:E; cbv beta iota
      end
  end.

Ltac finish_node node_result_ok :=
  let Heq := fresh in
  intros Heq; apply pair_equal_spec in Heq; destruct Heq as [<- <-];
  try congruence; unfold node_result_ok; cbn [node_returns];
  try solve [ unfold stage_failure, gateway_threw; eauto 12 ].

Ltac step_field :=
  match goal with
  | |- context [match sqlQuery ?st with _ => _ end] =>
      destruct (sqlQuery st) as [[|? ?]|] eqn:?; cbv beta iota
  | |- context [match schema ?st with _ => _ end] =>
      destruct (schema st) eqn:?; cbv beta iota
  | |- context [match validationResult ?st with _ => _ end] =>
      destruct (validationResult st) eqn:?; cbv beta iota
  | |- context [match executionResult ?st with _ => _ end] =>
      destruct (executionResult st) eqn:?; cbv beta iota
  | |- context [match SQLValidation.alternatives ?r with _ => _ end] =>
      destruct (SQLValidation.alternatives r) as [[|? ?]|] eqn:?; cbv beta iota
  | |- context [if ?a <? ?b then _ else _] =>
      destruct (a <? b) eqn:?; cbv beta iota
  end.

Ltac run_node deps :=
  unfold bind, try_catch, ret;
  repeat (first [step_session deps | step_field | step_agent]).

Lemma loadSchema_result deps st w res w' :
  loadSchema deps st w = (res, w') -> node_result_ok deps load_schema st res.
Proof. unfold loadSchema. run_node deps; finish_node node_result_ok. Qed.

Lemma convertNLToSQL_result deps st w res w' :
  convertNLToSQL deps st w = (res, w') -> node_result_ok deps nl_to_sql st res.
Proof.
  unfold convertNLToSQL. run_node deps; finish_node node_result_ok.
  all: left; eexists; split; [congruence | reflexivity].
Qed.

Lemma validateSQL_result deps st w res w' :
  validateSQL deps st w = (res, w') -> node_result_ok deps validate_sql st res.
Proof. unfold validateSQL. run_node deps; finish_node node_result_ok. Qed.

Lemma executeSQL_result deps st w res w' :
  executeSQL deps st w = (res, w') -> node_result_ok deps execute_sql st res.
Proof.
  unfold executeSQL. run_node deps; finish_node node_result_ok.
  all: left; unfold execution_input; eauto 10.
Qed.

Lemma interpretResults_result deps st w res w' :
  interpretResults deps st w = (res, w') -> node_result_ok deps interpret_results st res.
Proof.
  unfold interpretResults. run_node deps; finish_node node_result_ok.
  all: left; eexists; split; [congruence | split; [| reflexivity]].
  all: match goal with H : sqlQuery _ = _ |- _ => rewrite H end; reflexivity.
Qed.

Lemma handleError_result deps st w res w' :
  handleError st w = (res, w') -> node_result_ok deps handle_error st res.
Proof.
  unfold handleError, ret.
  destruct (2 <? JS.number_or_zero (retryCount st) + 1) eqn:E; finish_node node_result_ok.
  - right. split; [lia | reflexivity].
  - left. split; [lia | reflexivity].
Qed.

Lemma experimentWithAlternatives_result deps st w res w' :
  experimentWithAlternatives deps st w = (res, w') ->
  node_result_ok deps experiment_alternatives st res.
Proof.
  unfold experimentWithAlternatives. run_node deps.
  all: finish_node node_result_ok.
  all: right; right; do 2 eexists; split; [apply Z.ltb_lt; eassumption | reflexivity].
Qed.

Lemma node_function_result deps n st w res w' :
  node_function deps n st w = (res, w') -> node_result_ok deps n st res.
Proof.
  destruct n; cbn [node_function].
  - apply loadSchema_result.
  - apply convertNLToSQL_result.
  - apply validateSQL_result.
  - apply experimentWithAlternatives_result.
  - apply executeSQL_result.
  - apply interpretResults_result.
  - apply handleError_result.
Qed.

Lemma node_function_total deps n st w :
  notifications_harmless deps (sessionId st) ->
  exists upd w', node_function deps n st w = (Ok upd, w') /\ node_returns deps n st upd.
Proof.
  intros Hh. destruct (node_function deps n st w) as [[upd|m] w'] eqn:E.
  - exists upd, w'. split; [reflexivity|]. exact (node_function_result _ _ _ _ _ _ E).
  - apply node_function_result in E. destruct E as [Ht [w0 [c Hc]]].
    destruct Hh as [Hf|Hq]; [congruence|]. rewrite Hq in Hc. discriminate.
Qed.

Lemma next_node_successor n st : next_node n st = Ok (successor n st).
Proof.
  destruct n; unfold next_node, successor; cbn [edge_from]; try reflexivity.
  - unfold shouldValidateSQL. destruct (JS.truthy_string (error st)); reflexivity.
  - unfold shouldExecuteOrExperiment, route_after_validate.
    destruct (JS.truthy_string (error st) || negb (JS.truthy_object (validationResult st)));
      [reflexivity|].
    destruct (validationResult st) as [v|]; [|reflexivity].
    destruct (negb (SQLValidation.isValid v) || negb (SQLValidation.shouldExecute v)
              || (JS.truthy_number (sqlConfidence st)
                  && (JS.number_or_zero (sqlConfidence st) <? 70))); reflexivity.
  - unfold shouldInterpretOrError, route_after_execute.
    destruct (JS.truthy_string (error st) || negb (JS.truthy_object (executionResult st)));
      [reflexivity|].
    destruct (executionResult st) as [r|]; [|reflexivity].
    destruct (negb (SQLExecution.success r)); reflexivity.
Qed.

Lemma successor_rank n st n' : successor n st = Some n' -> (rank n' < rank n)%nat.
Proof.
  destruct n; cbn [successor]; intros [= <-]; cbn; try lia.
  - destruct (JS.truthy_string (error st)); cbn; lia.
  - unfold route_after_validate.
    repeat match goal with |- context [if ?b then _ else _] => destruct b
                      | |- context [match ?b with _ => _ end] => destruct b end; cbn; lia.
  - unfold route_after_execute.
    repeat match goal with |- context [if ?b then _ else _] => destruct b
                      | |- context [match ?b with _ => _ end] => destruct b end; cbn; lia.
Qed.

Lemma run_from_Runs deps fuel : forall n st w r tr w',
  (rank n <= fuel)%nat ->
  run_from deps fuel n st w = ((r, tr), w') ->
  Runs deps n st w r tr w'.
Proof.
  induction fuel as [|fuel IH]; intros n st w r tr w' Hrank.
  - destruct n; cbn in Hrank; lia.
  - cbn [run_from].
    destruct (node_function deps n st w) as [[upd|m] w1] eqn:En.
    + rewrite next_node_successor.
      destruct (successor n (merge st upd)) as [n'|] eqn:Es.
      * destruct (run_from deps fuel n' (merge st upd) w1) as [[r1 tr1] w2] eqn:Er.
        intros [= <- <- <-].
        eapply Runs_step; eauto. apply IH; [|exact Er].
        apply successor_rank in Es. lia.
      * intros [= <- <- <-]. apply Runs_end; assumption.
    + intros [= <- <- <-]. apply Runs_throw; assumption.
Qed.

Lemma invoke_traced_Runs deps input w r tr w' :
  invoke_traced deps input w = ((r, tr), w') ->
  Runs deps entry_node (graph_input deps input) w r tr w'.
Proof. unfold invoke_traced. apply run_from_Runs. unfold recursionLimit, entry_node. cbn. lia. Qed.

Lemma merge_sessionId st upd : sessionId (merge st upd) = sessionId st.
Proof.
  revert st. induction upd as [|a upd IH]; intros st; [reflexivity|].
  cbn [merge fold_left]. fold (merge (assign st a) upd). rewrite IH.
  destruct st, a; reflexivity.
Qed.

Ltac node_cases deps H :=
  apply (node_function_result deps) in H; unfold node_result_ok in H;
  cbn [node_returns] in H; unfold stage_failure in H.

Ltac break_cases :=
  repeat match goal with
         | H : _ \/ _ |- _ => destruct H as [H|H]
         | H : exists _, _ |- _ => destruct H as [? H]
         | H : _ /\ _ |- _ => destruct H as [? H]
         end.

Lemma entry_ok_preserved deps n st w upd w' n' :
  entry_ok deps n st ->
  node_function deps n st w = (Ok upd, w') ->
  successor n (merge st upd) = Some n' ->
  entry_ok deps n' (merge st upd).
Proof.
  intros (Hrc & Hfin & Hn) Hf Hs.
  destruct n; cbn [successor] in Hs; try discriminate; injection Hs as <-;
    node_cases deps Hf; break_cases; subst; destruct st; cbn in *; subst.
  all: unfold entry_ok, route_after_validate, route_after_execute; cbn.
  all: rewrite ?orb_false_r.
  all: repeat match goal with
              | |- context [if ?b then _ else _] => destruct b eqn:?
              end; cbn; repeat split; auto.
  all: try (right; eexists; split; [reflexivity|];
            match goal with H : negb _ = true |- _ => apply negb_true_iff in H; exact H end).
  all: eexists; split; [reflexivity|]; split;
    [match goal with H : negb _ = false |- _ => apply negb_false_iff in H; exact H end|].
  all: unfold produced_by_executor; cbn; eauto 10.
Qed.

Section RunLemmas.
Variable deps : Collaborators.

Ltac runs_induction HR :=
  induction HR as [n st w m w' Hf | n st w upd w' Hf Hs
                  | n st w upd w' n' r tr w'' Hf Hs HR IH].

Lemma Runs_genuine n st w r tr w' :
  Runs deps n st w r tr w' -> Forall (genuine_visit deps) tr.
Proof.
  intros HR. runs_induction HR; repeat constructor; try assumption;
    unfold genuine_visit; cbn; eauto.
Qed.

Lemma Runs_sessionId n st w r tr w' :
  Runs deps n st w r tr w' ->
  Forall (fun v => sessionId (given v) = sessionId st) tr.
Proof.
  intros HR. runs_induction HR; repeat constructor; cbn; try reflexivity.
  rewrite merge_sessionId in IH. exact IH.
Qed.

Lemma Runs_entry_ok n st w r tr w' :
  Runs deps n st w r tr w' ->
  entry_ok deps n st ->
  Forall (fun v => entry_ok deps (visited v) (given v)) tr.
Proof.
  intros HR. runs_induction HR; intros Hok.
  - apply Forall_cons; [exact Hok | apply Forall_nil].
  - apply Forall_cons; [exact Hok | apply Forall_nil].
  - apply Forall_cons; [exact Hok|].
    apply IH. eapply entry_ok_preserved; eauto.
Qed.

(** Along a run the rank strictly decreases: every later visit has a smaller
    rank than the node the run started from. *)
Lemma Runs_rank n st w r tr w' :
  Runs deps n st w r tr w' ->
  exists res rest, tr = visit n st res :: rest /\
    Forall (fun v => (rank (visited v) < rank n)%nat) rest.
Proof.
  intros HR. runs_induction HR.
  - do 2 eexists; split; [reflexivity | constructor].
  - do 2 eexists; split; [reflexivity | constructor].
  - destruct IH as (res & rest & -> & Hall).
    do 2 eexists; split; [reflexivity|].
    apply successor_rank in Hs.
    constructor; [cbn; lia|].
    eapply Forall_impl; [|exact Hall]. cbn. intros; lia.
Qed.

(** A run that returns ends with a visit whose node has no successor; the
    state returned is that visit's state merged with what it returned. *)
Lemma Runs_returns n st w st' tr w' :
  Runs deps n st w (Ok st') tr w' ->
  exists last upd,
    ends_with tr last /\ returned last = Ok upd /\
    st' = merge (given last) upd /\ successor (visited last) st' = None.
Proof.
  remember (Ok st') as r0 eqn:Hr. intros HR. runs_induction HR.
  - discriminate.
  - injection Hr as <-. exists (visit n st (Ok upd)), upd.
    repeat split; auto. exists []. reflexivity.
  - destruct (IH Hr) as (last & u & [pre Hpre] & Hret & Hst & Hsucc).
    exists last, u. repeat split; auto.
    exists (visit n st (Ok upd) :: pre). rewrite Hpre. reflexivity.
Qed.

(** A run that throws ends with the visit of the node that threw. *)
Lemma Runs_throws n st w msg tr w' :
  Runs deps n st w (Throw msg) tr w' ->
  exists last, ends_with tr last /\ returned last = Throw msg.
Proof.
  remember (Throw msg) as r0 eqn:Hr. intros HR. runs_induction HR.
  - injection Hr as <-. exists (visit n st (Throw m)). split; [exists []|]; reflexivity.
  - discriminate.
  - destruct (IH Hr) as (last & [pre Hpre] & Hret).
    exists last. split; auto.
    exists (visit n st (Ok upd) :: pre). rewrite Hpre. reflexivity.
Qed.

Lemma successor_None n st :
  successor n st = None -> n = interpret_results \/ n = handle_error.
Proof. destruct n; cbn; intros H; try discriminate; auto. Qed.

Lemma ends_with_In tr last : ends_with tr last -> In last tr.
Proof. intros [pre ->]. apply in_or_app. right. left. reflexivity. Qed.

End RunLemmas.

Lemma gateway_threw_harmless deps sid m :
  notifications_harmless deps sid -> gateway_threw deps sid m -> False.
Proof.
  intros [Hf|Hq] [Ht (w & c & Hc)]; [congruence|].
  rewrite Hq in Hc. discriminate.
Qed.

Lemma graph_input_sessionId deps input m :
  gateway_threw deps (sessionId (graph_input deps input)) m ->
  gateway_threw deps (sessionId input) m.
Proof.
  unfold graph_input. destruct (graph_keeps_undeclared_keys deps); [tauto|].
  cbn. intros [Ht _]. discriminate.
Qed.

Lemma graph_input_harmless deps input :
  notifications_harmless deps (sessionId input) ->
  notifications_harmless deps (sessionId (graph_input deps input)).
Proof.
  unfold graph_input. destruct (graph_keeps_undeclared_keys deps); [tauto|].
  intros _. left. reflexivity.
Qed.

Lemma graph_input_entry_ok deps q sid :
  entry_ok deps entry_node (graph_input deps (stateWithSession q sid)).
Proof.
  unfold graph_input, entry_node, entry_ok.
  destruct (graph_keeps_undeclared_keys deps); cbn; auto.
Qed.

(** A graph run throws only what the gateway threw. *)
Lemma Runs_throw_gateway deps n st w m tr w' :
  Runs deps n st w (Throw m) tr w' -> gateway_threw deps (sessionId st) m.
Proof.
  intros HR.
  destruct (Runs_throws _ _ _ _ _ _ _ HR) as (last & Hend & Hret).
  apply ends_with_In in Hend.
  pose proof (Runs_genuine _ _ _ _ _ _ _ HR) as Hg.
  pose proof (Runs_sessionId _ _ _ _ _ _ _ HR) as Hs.
  rewrite Forall_forall in Hg, Hs.
  destruct (Hg _ Hend) as (w1 & w2 & Hcall). rewrite Hret in Hcall.
  apply node_function_result in Hcall. cbn in Hcall.
  rewrite (Hs _ Hend) in Hcall. exact Hcall.
Qed.

Lemma graph_run_Runs deps q sid w :
  Runs deps entry_node (graph_input deps (stateWithSession q sid))
    (entry_world deps sid w)
    (graph_result deps q sid w) (graph_visits deps q sid w)
    (snd (graph_run deps q sid w)).
Proof.
  apply invoke_traced_Runs. unfold graph_result, graph_visits, graph_run.
  destruct (invoke_traced deps (stateWithSession q sid) (entry_world deps sid w))
    as [[r tr] w1]. reflexivity.
Qed.

(** The three ways [processQuery] can end. *)
Lemma processQuery_cases deps q sid w res w' :
  processQuery deps q sid w = (res, w') ->
  (exists st, res = Ok st /\ graph_result deps q sid w = Ok st)
  \/ (exists m, res = Ok (catch_state q m) /\ gateway_threw deps sid m)
  \/ (exists m, res = Throw m /\ gateway_threw deps sid m).
Proof.
  unfold processQuery, graph_result, graph_run, entry_world.
  unfold bind at 1.
  destruct (if_session_cases (streamingService_gateway deps) sid
              (WorkflowStreamingService.emitSchemaLoading (streamingService_gateway deps)) w
              ltac:(notification_tac))
    as [[Hs H] | [c [Hs [[Hg H] | [m [Hg H]]]]]]; rewrite H; cbn [world_after snd].
  3: { intros [= <- <-]. right; right. exists m. split; [reflexivity|].
       split; eauto. }
  all: unfold try_catch, bind, invoke, ret.
  all: match goal with
       | |- context [invoke_traced ?d ?i ?w0] =>
           pose proof (invoke_traced_Runs d i w0) as HR;
           destruct (invoke_traced d i w0) as [[r tr] w1]
       end; specialize (HR _ _ _ eq_refl); cbn [fst].
  all: destruct r as [st|m].
  all: try (apply Runs_throw_gateway, graph_input_sessionId in HR; cbn in HR).
  all: repeat step_session deps.
  all: intros Heq; apply pair_equal_spec in Heq; destruct Heq as [<- <-].
  all: try solve [left; eauto].
  all: try solve [right; left; eexists; split; [reflexivity|];
                  first [assumption | split; eauto]].
  all: try solve [right; right; eexists; split; [reflexivity|];
                  first [assumption | split; eauto]].
Qed.

Lemma processQuery_returns_graph_state deps q sid w :
  notifications_harmless deps sid ->
  exists st w',
    processQuery deps q sid w = (Ok st, w') /\ graph_result deps q sid w = Ok st.
Proof.
  intros Hh.
  destruct (processQuery deps q sid w) as [res w'] eqn:E.
  destruct (processQuery_cases _ _ _ _ _ _ E)
    as [(st & -> & Hg) | [(m & _ & Hm) | (m & _ & Hm)]].
  - eauto.
  - destruct (gateway_threw_harmless _ _ _ Hh Hm).
  - destruct (gateway_threw_harmless _ _ _ Hh Hm).
Qed.

Lemma terminal_state_facts deps n st w upd w' :
  entry_ok deps n st ->
  node_function deps n st w = (Ok upd, w') ->
  successor n (merge st upd) = None ->
  (n = interpret_results /\ exactly_one_outcome (merge st upd) /\
   retryCount (merge st upd) = Some 0 /\ ~ execution_failed (merge st upd))
  \/ (n = handle_error /\ finalResponse (merge st upd) = None /\
      retryCount (merge st upd) = Some 1 /\ error (merge st upd) = error st /\
      (JS.truthy_string (error (merge st upd)) = true \/ execution_failed (merge st upd))).
Proof.
  intros (Hrc & Hfin & Hn) Hf Hs.
  destruct (successor_None _ _ Hs) as [-> | ->]; [left | right];
    (split; [reflexivity|]); node_cases deps Hf; break_cases; subst;
    destruct st; cbn in *; subst; unfold exactly_one_outcome, execution_failed; cbn.
  all: try lia.
  all: repeat split; auto; try (intros (r & [= <-] & Hr); congruence).
  all: try (left; split; [discriminate | assumption]).
  all: try (right; split; reflexivity).
  all: break_cases; eauto.
  all: match goal with H : 2 < _ |- _ => cbn in H; lia end.
Qed.

Lemma graph_result_terminal deps q sid w st :
  graph_result deps q sid w = Ok st ->
  exists last upd,
    ends_with (graph_visits deps q sid w) last /\ returned last = Ok upd /\
    st = merge (given last) upd /\
    ((visited last = interpret_results /\ exactly_one_outcome st /\
      retryCount st = Some 0 /\ ~ execution_failed st)
     \/ (visited last = handle_error /\ finalResponse st = None /\
         retryCount st = Some 1 /\ error st = error (given last) /\
         (JS.truthy_string (error st) = true \/ execution_failed st))).
Proof.
  intros Hres. pose proof (graph_run_Runs deps q sid w) as HR. rewrite Hres in HR.
  destruct (Runs_returns _ _ _ _ _ _ _ HR) as (last & upd & Hend & Hret & Hst & Hsucc).
  exists last, upd. repeat split; auto.
  pose proof (Runs_genuine _ _ _ _ _ _ _ HR) as Hg.
  pose proof (Runs_entry_ok _ _ _ _ _ _ _ HR (graph_input_entry_ok deps q sid)) as He.
  rewrite Forall_forall in Hg, He. pose proof (ends_with_In _ _ Hend) as Hin.
  destruct (Hg _ Hin) as (w1 & w2 & Hcall). rewrite Hret in Hcall.
  rewrite Hst in *. eapply terminal_state_facts; eauto.
Qed.

(* ------------------------------------------------------------------ *)
(** *** HandleError runs at most once *)

Lemma Runs_handle_error_once deps n st w r tr w' :
  Runs deps n st w r tr w' ->
  (occurrences handle_error tr <= 1)%nat /\
  (forall v, In v tr -> visited v = handle_error -> ends_with tr v).
Proof.
  intros HR.
  induction HR as [n st w m w' Hf | n st w upd w' Hf Hs
                  | n st w upd w' n' r tr w'' Hf Hs HR IH].
  - split.
    + unfold occurrences. cbn. destruct (Node_eqb n handle_error); cbn; lia.
    + intros v [<- | []] _. exists []. reflexivity.
  - split.
    + unfold occurrences. cbn. destruct (Node_eqb n handle_error); cbn; lia.
    + intros v [<- | []] _. exists []. reflexivity.
  - destruct IH as [Hocc Hlast]. split.
    + unfold occurrences in *. cbn [filter visited visit].
      destruct n; cbn [Node_eqb]; try exact Hocc. discriminate Hs.
    + intros v [<- | Hin] Hv.
      * cbn in Hv. subst n. discriminate Hs.
      * destruct (Hlast v Hin Hv) as [pre ->].
        exists (visit n st (Ok upd) :: pre). reflexivity.
Qed.

Lemma next_node_rank n st n' :
  next_node n st = Ok (Some n') -> (rank n' < rank n)%nat.
Proof.
  rewrite next_node_successor. intros [= H]. eapply successor_rank; eauto.
Qed.

Lemma handleError_gives_up st :
  handleError st =
    if gives_up st
    then ret [set_error
                (Some ("Maximum retry attempts exceeded. Original error: "
                         ++ JS.string_of_optional (error st)));
              set_retryCount (JS.number_or_zero (retryCount st) + 1)]
    else ret [set_error (error st);
              set_retryCount (JS.number_or_zero (retryCount st) + 1)].
Proof. reflexivity. Qed.

(** C9. In every run HandleError executes at most once, as the last node:
    its only edge leads to END and every edge leads to a node of smaller
    rank, so none leads back. It is entered with [retryCount] 0, so the
    give-up branch ([retryCount > 2]) is not taken: it returns the error it
    was given and [retryCount] 1. The state [processQuery] returns has
    [retryCount] 0 or 1. *)
Theorem C9_handle_error_runs_at_most_once :
  forall deps question sid w,
    (occurrences handle_error (graph_visits deps question sid w) <= 1)%nat
    /\ (forall v, In v (graph_visits deps question sid w) ->
                  visited v = handle_error ->
                  ends_with (graph_visits deps question sid w) v
                  /\ retryCount (given v) = Some 0
                  /\ gives_up (given v) = false
                  /\ returned v = Ok [set_error (error (given v)); set_retryCount 1])
    /\ (forall st w', processQuery deps question sid w = (Ok st, w') ->
                      exists rc, retryCount st = Some rc /\ 0 <= rc <= 1)
    /\ edge_from handle_error = addEdge None
    /\ (forall n st n', next_node n st = Ok (Some n') -> (rank n' < rank n)%nat).
Proof.
  intros deps q sid w.
  pose proof (graph_run_Runs deps q sid w) as HR.
  destruct (Runs_handle_error_once _ _ _ _ _ _ _ HR) as [Hocc Hlast].
  pose proof (Runs_entry_ok _ _ _ _ _ _ _ HR (graph_input_entry_ok deps q sid)) as He.
  pose proof (Runs_genuine _ _ _ _ _ _ _ HR) as Hgen.
  rewrite Forall_forall in He, Hgen.
  split; [exact Hocc|]. split; [|split; [|split]].
  - intros v Hin Hv. split; [auto|].
    destruct (He v Hin) as (Hrc & _). split; [exact Hrc|].
    assert (Hg : gives_up (given v) = false) by (unfold gives_up; rewrite Hrc; reflexivity).
    split; [exact Hg|].
    destruct (Hgen v Hin) as (w1 & w2 & Hcall). rewrite Hv in Hcall.
    cbn [node_function] in Hcall. rewrite handleError_gives_up, Hg, Hrc in Hcall.
    cbn in Hcall. injection Hcall as <- _. reflexivity.
  - intros st w' Hp.
    destruct (processQuery_cases _ _ _ _ _ _ Hp)
      as [(st0 & [= <-] & Hg) | [(m & [= ->] & _) | (m & [=] & _)]].
    + destruct (graph_result_terminal _ _ _ _ _ Hg)
        as (last & upd & _ & _ & _ & [(_ & _ & Hrc & _) | (_ & _ & Hrc & _)]);
        rewrite Hrc; eexists; (split; [reflexivity | lia]).
    + exists 0. split; [reflexivity | lia].
  - reflexivity.
  - exact next_node_rank.
Qed.

(* ------------------------------------------------------------------ *)
(** *** What [processQuery] returns *)

(** C2, as amended. A returned state never has both [finalResponse]
    populated and [error] non-empty; unless the executor reported a failure,
    exactly one of the two holds; and the state is what the graph ended with
    after Interpret or HandleError, or else the state built by the [catch]
    of [processQuery] after the gateway threw. *)
Theorem C2_returned_state_shape :
  forall deps question sid w st w',
    processQuery deps question sid w = (Ok st, w') ->
    ~ (finalResponse st <> None /\ JS.truthy_string (error st) = true)
    /\ (~ execution_failed st -> exactly_one_outcome st)
    /\ (reached_terminal_node deps question sid w st
        \/ exists m, st = catch_state question m /\ gateway_threw deps sid m).
Proof.
  intros deps q sid w st w' Hp.
  destruct (processQuery_cases _ _ _ _ _ _ Hp)
    as [(st0 & [= <-] & Hg) | [(m & [= ->] & Hm) | (m & [=] & _)]].
  - destruct (graph_result_terminal _ _ _ _ _ Hg)
      as (last & upd & Hend & _ & _ & Hcase).
    assert (Hreach : reached_terminal_node deps q sid w st).
    { split; [exact Hg|]. exists last. split; [exact Hend|]. tauto. }
    destruct Hcase as [(_ & Hone & _ & _) | (_ & Hfin & _ & _ & Herr)].
    + repeat split; auto.
      destruct Hone as [[_ He] | [Hf _]]; intros [Hf' He']; congruence.
    + repeat split; auto.
      * intros [Hf' _]. congruence.
      * intros Hnot. right. split; [exact Hfin|]. tauto.
  - repeat split.
    + intros [Hf _]. apply Hf. reflexivity.
    + intros _. right. split; reflexivity.
    + right. eauto.
Qed.

(* ------------------------------------------------------------------ *)
(** *** Interpret's guard *)

Lemma interpretResults_guard deps st w :
  notifications_harmless deps (sessionId st) ->
  executionResult st = None \/ JS.truthy_string (sqlQuery st) = false ->
  exists w',
    interpretResults deps st w =
      (Ok [set_error (Some "Execution result or SQL query missing for interpretation")], w').
Proof.
  intros Hh Hpre. unfold interpretResults. run_node deps.
  all: try solve [eexists; reflexivity].
  all: try solve [exfalso; eapply gateway_threw_harmless;
                  [exact Hh | split; eauto]].
  all: destruct Hpre as [Hpre|Hpre]; discriminate.
Qed.

(** C5, as amended. Interpret itself re-checks only that [executionResult]
    and [sqlQuery] are present: it returns a [finalResponse] only if both
    are, and without them it returns its error. That the execution succeeded
    is enforced by the routing: in every run Interpret is given a state
    without error whose execution result is a success. *)
Theorem C5_interpret_checks_presence_routing_checks_success :
  forall deps,
    (forall st w upd w' f,
        interpretResults deps st w = (Ok upd, w') ->
        In (set_finalResponse f) upd ->
        executionResult st <> None /\ JS.truthy_string (sqlQuery st) = true)
    /\ (forall st w,
           notifications_harmless deps (sessionId st) ->
           executionResult st = None \/ JS.truthy_string (sqlQuery st) = false ->
           exists w',
             interpretResults deps st w =
               (Ok [set_error
                      (Some "Execution result or SQL query missing for interpretation")],
                w'))
    /\ (forall question sid w v,
           In v (graph_visits deps question sid w) ->
           visited v = interpret_results ->
           JS.truthy_string (error (given v)) = false /\
           exists r, executionResult (given v) = Some r /\
                     SQLExecution.success r = true).
Proof.
  intros deps. split; [|split].
  - intros st w upd w' f Hcall Hin.
    apply interpretResults_result in Hcall. unfold node_result_ok in Hcall.
    cbn [node_returns] in Hcall. unfold stage_failure in Hcall.
    destruct Hcall as [(f0 & Hex & Hsql & ->) | [-> | (m & ->)]].
    + split; assumption.
    + destruct Hin as [Hin | []]. discriminate Hin.
    + destruct Hin as [Hin | []]. discriminate Hin.
  - intros st w. apply interpretResults_guard.
  - intros q sid w v Hin Hv.
    pose proof (graph_run_Runs deps q sid w) as HR.
    pose proof (Runs_entry_ok _ _ _ _ _ _ _ HR (graph_input_entry_ok deps q sid)) as He.
    rewrite Forall_forall in He. specialize (He v Hin). rewrite Hv in He.
    destruct He as (_ & _ & Herr & r & Hr & Hs & _). eauto.
Qed.

(* ------------------------------------------------------------------ *)
(** *** The executor of sql-execution.agent.ts *)

Lemma RiskLevel_eqb_HIGH r : RiskLevel_eqb r HIGH = true <-> r = HIGH.
Proof. destruct r; cbn; split; congruence. Qed.

(** A refusal answers at once: the world is untouched, no query is sent. *)
Lemma executeSQL_refuses db input w :
  SQLExecution.isValidated input = false
  \/ SQLExecution.riskLevel input = HIGH
  \/ is_select (SQLExecution.sqlQuery input) = false ->
  exists r,
    SQLExecutionAgent.executeSQL db input w = (Ok r, w) /\
    SQLExecution.success r = false /\ SQLExecution.data r = None /\
    exists reason, SQLExecution.error r = Some reason /\ In reason refusal_reasons.
Proof.
  intros H. unfold SQLExecutionAgent.executeSQL, SQLExecutionAgent.refusal,
    SQLExecutionAgent.Date_now, bind, ret. cbv beta iota.
  destruct (SQLExecution.isValidated input) eqn:Hv; cbn [negb].
  2: { eexists; split; [reflexivity|]. cbn. repeat split. eexists; split; [reflexivity|].
       cbn; auto. }
  destruct (RiskLevel_eqb (SQLExecution.riskLevel input) HIGH) eqn:Hr.
  { eexists; split; [reflexivity|]. cbn. repeat split. eexists; split; [reflexivity|].
    cbn; auto. }
  fold (is_select (SQLExecution.sqlQuery input)).
  destruct (is_select (SQLExecution.sqlQuery input)) eqn:Hs; cbn [negb].
  2: { eexists; split; [reflexivity|]. cbn. repeat split. eexists; split; [reflexivity|].
       cbn; auto. }
  exfalso. destruct H as [H | [H | H]]; try discriminate.
  apply RiskLevel_eqb_HIGH in H. congruence.
Qed.

(** The executor succeeds only on a validated, not high-risk SELECT. *)
Lemma executeSQL_success db input w r w' :
  SQLExecutionAgent.executeSQL db input w = (Ok r, w') ->
  SQLExecution.success r = true ->
  SQLExecution.isValidated input = true
  /\ SQLExecution.riskLevel input <> HIGH
  /\ is_select (SQLExecution.sqlQuery input) = true.
Proof.
  intros Hex Hs.
  destruct (SQLExecution.isValidated input) eqn:Hv.
  2: { destruct (executeSQL_refuses db input w (or_introl Hv)) as (r0 & E & Hf & _).
       rewrite E in Hex. injection Hex as <- <-. congruence. }
  destruct (RiskLevel_eqb (SQLExecution.riskLevel input) HIGH) eqn:Hr.
  { apply RiskLevel_eqb_HIGH in Hr.
    destruct (executeSQL_refuses db input w (or_intror (or_introl Hr))) as (r0 & E & Hf & _).
    rewrite E in Hex. injection Hex as <- <-. congruence. }
  destruct (is_select (SQLExecution.sqlQuery input)) eqn:Hq.
  2: { destruct (executeSQL_refuses db input w (or_intror (or_intror Hq)))
         as (r0 & E & Hf & _).
       rewrite E in Hex. injection Hex as <- <-. congruence. }
  repeat split; auto. intros Hh. apply RiskLevel_eqb_HIGH in Hh. congruence.
Qed.

(** C3 (the code departs from the claim at confidence 0). With a valid
    validation that recommends execution, confidence 0 is routed to
    [execute]: the guard [state.sqlConfidence && ...] takes 0 for a missing
    confidence. Confidence 69 is routed to [experiment], 70 to [execute]. *)
Theorem C3_zero_confidence_routes_to_execute :
  shouldExecuteOrExperiment
    (Scenario.validated_state (Some 0) Scenario.accepted) = "execute"
  /\ shouldExecuteOrExperiment
       (Scenario.validated_state (Some 69) Scenario.accepted) = "experiment"
  /\ shouldExecuteOrExperiment
       (Scenario.validated_state (Some 70) Scenario.accepted) = "execute".
Proof. repeat split; reflexivity. Qed.

(** The router on every state: the claim's three rules, with "confidence
    present" read as the code reads it (present and not 0). *)
Lemma shouldExecuteOrExperiment_rules st :
  shouldExecuteOrExperiment st =
    match validationResult st with
    | None => "error"
    | Some v =>
        if JS.truthy_string (error st) then "error"
        else if negb (SQLValidation.isValid v) then "experiment"
        else if negb (SQLValidation.shouldExecute v) then "experiment"
        else match sqlConfidence st with
             | Some c => if (negb (c =? 0) && (c <? 70))%bool then "experiment" else "execute"
             | None => "execute"
             end
    end.
Proof.
  unfold shouldExecuteOrExperiment.
  destruct (validationResult st) as [v|]; cbn [JS.truthy_object negb].
  2: { rewrite orb_true_r. reflexivity. }
  rewrite orb_false_r. destruct (JS.truthy_string (error st)); [reflexivity|].
  destruct (SQLValidation.isValid v), (SQLValidation.shouldExecute v); cbn [negb orb];
    try reflexivity.
  destruct (sqlConfidence st) as [c|]; [|reflexivity].
  destruct c; reflexivity.
Qed.

(** C8 (the code departs from the claim in where the refusal is reported).
    When Validate returns an invalid or a high-risk verdict the executor
    refuses without sending a query, and the run ends in HandleError; yet the
    state returned has no [error]: the refusal reason is only in
    [executionResult.error]. *)
Theorem C8_refusal_reason_not_in_error :
  refusal_left_out_of_error Scenario.rejected
    "Query must be validated before execution"
  /\ refusal_left_out_of_error Scenario.high_risk
       "High-risk queries are not allowed to execute".
Proof.
  split; unfold refusal_left_out_of_error.
  - do 3 eexists. split; [vm_compute; reflexivity|].
    repeat split; try reflexivity. constructor.
  - do 3 eexists. split; [vm_compute; reflexivity|].
    repeat split; try reflexivity. constructor.
Qed.

(* ------------------------------------------------------------------ *)
(** *** A refusing validation never reaches Interpret *)

Lemma merge_validationResult deps n st upd :
  (rank n < rank validate_sql)%nat ->
  node_returns deps n st upd ->
  validationResult (merge st upd) = validationResult st.
Proof.
  intros Hrank Hret.
  destruct n; cbn in Hrank; try lia; cbn [node_returns] in Hret;
    unfold stage_failure in Hret; break_cases; subst; destruct st; reflexivity.
Qed.

(** After Validate the validation result stays what it is. *)
Lemma Runs_validation_stable deps n st w r tr w' val :
  Runs deps n st w r tr w' ->
  (rank n < rank validate_sql)%nat ->
  validationResult st = Some val ->
  Forall (fun v => validationResult (given v) = Some val) tr.
Proof.
  intros HR.
  induction HR as [n st w m w' Hf | n st w upd w' Hf Hs
                  | n st w upd w' n' r tr w'' Hf Hs HR IH]; intros Hrank Hval.
  - constructor; [exact Hval | constructor].
  - constructor; [exact Hval | constructor].
  - constructor; [exact Hval|].
    apply IH.
    + apply successor_rank in Hs. lia.
    + apply node_function_result in Hf. cbn in Hf.
      rewrite (merge_validationResult _ _ _ _ Hrank Hf). exact Hval.
Qed.

(** Every node that runs after Validate returned [val] is given [val]. *)
Lemma Runs_validation_seen deps n st w r tr w' val :
  Runs deps n st w r tr w' ->
  validate_returned tr val ->
  forall v, In v tr -> (rank (visited v) < rank validate_sql)%nat ->
            validationResult (given v) = Some val.
Proof.
  intros HR.
  induction HR as [n st w m w' Hf | n st w upd w' Hf Hs
                  | n st w upd w' n' r tr w'' Hf Hs HR IH];
    intros (v0 & Hin0 & Hn0 & Hr0) v Hin Hrank.
  - destruct Hin0 as [<- | []]. destruct Hin as [<- | []].
    cbn in Hn0, Hrank. subst n. cbn in Hrank. lia.
  - destruct Hin0 as [<- | []]. destruct Hin as [<- | []].
    cbn in Hn0, Hrank. subst n. cbn in Hrank. lia.
  - destruct (Runs_rank _ _ _ _ _ _ _ HR) as (res & rest & Htr & Hall).
    assert (Htail : Forall (fun v => (rank (visited v) < rank n)%nat) tr).
    { rewrite Htr. constructor; [|eapply Forall_impl; [|exact Hall]].
      - cbn. eapply successor_rank; eauto.
      - cbn. intros a Ha. apply successor_rank in Hs. lia. }
    rewrite Forall_forall in Htail.
    destruct Hin0 as [<- | Hin0].
    + cbn in Hn0, Hr0. subst n. injection Hr0 as ->.
      destruct Hin as [<- | Hin]; [cbn in Hrank; lia|].
      pose proof (Runs_validation_stable deps _ _ _ _ _ _ val HR) as Hst.
      rewrite Forall_forall in Hst. apply Hst; auto.
      * eapply successor_rank; eauto.
      * destruct st; reflexivity.
    + destruct Hin as [<- | Hin].
      * specialize (Htail _ Hin0). rewrite Hn0 in Htail. cbn in Hrank, Htail. lia.
      * apply IH; auto. exists v0. auto.
Qed.

Lemma Node_eqb_eq a b : Node_eqb a b = true -> a = b.
Proof. destruct a, b; cbn; congruence. Qed.

(** The visits of a run come in strictly decreasing rank. *)
Lemma Runs_sorted deps n st w r tr w' :
  Runs deps n st w r tr w' -> StronglySorted later_in_graph tr.
Proof.
  intros HR.
  induction HR as [n st w m w' Hf | n st w upd w' Hf Hs
                  | n st w upd w' n' r tr w'' Hf Hs HR IH].
  - repeat constructor.
  - repeat constructor.
  - constructor; [exact IH|].
    destruct (Runs_rank _ _ _ _ _ _ _ HR) as (res & rest & -> & Hall).
    apply successor_rank in Hs.
    constructor; [exact Hs|].
    eapply Forall_impl; [|exact Hall]. unfold later_in_graph. cbn. intros; lia.
Qed.

Lemma sorted_occurs_once tr k :
  StronglySorted later_in_graph tr -> (occurrences k tr <= 1)%nat.
Proof.
  unfold occurrences. induction 1 as [|a l Hs IH Hall]; [cbn; lia|].
  cbn [filter]. destruct (Node_eqb (visited a) k) eqn:Ea; [|exact IH].
  apply Node_eqb_eq in Ea.
  assert (Hnone : filter (fun v => Node_eqb (visited v) k) l = []).
  { clear IH Hs. induction Hall as [|b l Hb Hl IHl]; [reflexivity|].
    cbn [filter]. destruct (Node_eqb (visited b) k) eqn:Eb; [|exact IHl].
    apply Node_eqb_eq in Eb. unfold later_in_graph in Hb.
    rewrite Ea, Eb in Hb. lia. }
  rewrite Hnone. cbn. lia.
Qed.

Lemma Runs_occurs_once deps n st w r tr w' k :
  Runs deps n st w r tr w' -> (occurrences k tr <= 1)%nat.
Proof. intros HR. eapply sorted_occurs_once, Runs_sorted, HR. Qed.

(** C10. With the executor of sql-execution.agent.ts: in every run in which
    Validate returns an invalid or a high-risk verdict, Interpret is never
    run and the state returned has no [finalResponse]. Validate runs once, so
    a query that Experiment puts in place is not validated again; Execute
    is given the verdict Validate returned, and what the executor then
    answers is one of its refusals. *)
Theorem C10_refusing_validation_never_reaches_interpret :
  forall deps db question sid w val,
    validate_returned
      (graph_visits (with_execution_agent deps db) question sid w) val ->
    refusing val ->
    (forall v, In v (graph_visits (with_execution_agent deps db) question sid w) ->
               visited v <> interpret_results)
    /\ (forall st w',
           processQuery (with_execution_agent deps db) question sid w = (Ok st, w') ->
           finalResponse st = None)
    /\ (occurrences validate_sql
          (graph_visits (with_execution_agent deps db) question sid w) <= 1)%nat
    /\ (forall v, In v (graph_visits (with_execution_agent deps db) question sid w) ->
                  visited v = execute_sql ->
                  validationResult (given v) = Some val
                  /\ forall r, returned v = Ok [set_executionResult r] ->
                               SQLExecution.success r = false
                               /\ SQLExecution.data r = None
                               /\ exists reason,
                                    SQLExecution.error r = Some reason
                                    /\ In reason refusal_reasons).
Proof.
  intros deps db q sid w val Hval Hbad.
  set (D := with_execution_agent deps db) in *.
  pose proof (graph_run_Runs D q sid w) as HR.
  pose proof (Runs_validation_seen _ _ _ _ _ _ _ _ HR Hval) as Hseen.
  pose proof (Runs_entry_ok _ _ _ _ _ _ _ HR (graph_input_entry_ok D q sid)) as He.
  pose proof (Runs_genuine _ _ _ _ _ _ _ HR) as Hg.
  rewrite Forall_forall in He, Hg.
  assert (Hno : forall v, In v (graph_visits D q sid w) -> visited v <> interpret_results).
  { intros v Hin Hv.
    pose proof (Hseen v Hin) as Hv'. rewrite Hv in Hv'. specialize (Hv' ltac:(cbn; lia)).
    specialize (He v Hin). rewrite Hv in He.
    destruct He as (_ & _ & _ & r & _ & Hs & sql & v0 & w1 & w2 & Hv0 & Hex).
    rewrite Hv' in Hv0. injection Hv0 as <-.
    destruct (executeSQL_success _ _ _ _ _ Hex Hs) as (Hvalid & Hrisk & _).
    cbn in Hvalid, Hrisk. destruct Hbad; congruence. }
  split; [exact Hno|]. split; [|split].
  - intros st w' Hp.
    destruct (processQuery_cases _ _ _ _ _ _ Hp)
      as [(st0 & [= <-] & Hgr) | [(m & [= ->] & _) | (m & [=] & _)]]; [|reflexivity].
    destruct (graph_result_terminal _ _ _ _ _ Hgr)
      as (last & upd & Hend & _ & _ & [(Hl & _) | (_ & Hfin & _)]); [|exact Hfin].
    apply ends_with_In in Hend. destruct (Hno _ Hend Hl).
  - eapply Runs_occurs_once, HR.
  - intros v Hin Hv.
    pose proof (Hseen v Hin) as Hv'. rewrite Hv in Hv'. specialize (Hv' ltac:(cbn; lia)).
    split; [exact Hv'|]. intros r Hret.
    destruct (Hg v Hin) as (w1 & w2 & Hcall). rewrite Hv, Hret in Hcall.
    node_cases D Hcall.
    destruct Hcall as [(sql & v0 & r0 & w3 & w4 & _ & Hv0 & Hex & [= <-]) | [[=] | (m & [=])]].
    rewrite Hv' in Hv0. injection Hv0 as <-.
    assert (Hrefuse : SQLExecution.isValidated (execution_input sql val) = false
                      \/ SQLExecution.riskLevel (execution_input sql val) = HIGH
                      \/ is_select (SQLExecution.sqlQuery (execution_input sql val))
                         = false).
    { destruct Hbad as [Hb | Hb]; [left | right; left]; exact Hb. }
    destruct (executeSQL_refuses db (execution_input sql val) w3 Hrefuse)
      as (r0 & E & Hfail & Hdata & Hreason).
    change (sqlExecutionAgent_executeSQL D) with (SQLExecutionAgent.executeSQL db) in Hex.
    rewrite E in Hex. injection Hex as <- _. auto.
Qed.

(* ------------------------------------------------------------------ *)
(** *** Stage boundaries *)

Ltac contradict_harmless Hh :=
  solve [ exfalso; eapply gateway_threw_harmless; [exact Hh | split; eauto] ].

Ltac use_always :=
  match goal with
  | H : always_throws ?agent ?input _, E : ?agent ?input ?w = _ |- _ =>
      let H' := fresh in
      pose proof (H w) as H'; rewrite E in H'; cbn in H';
      first [discriminate H' | injection H' as H'; subst]; try clear H
  | H : always_returns ?agent ?input _, E : ?agent ?input ?w = _ |- _ =>
      let H' := fresh in
      pose proof (H w) as H'; rewrite E in H'; cbn in H';
      first [discriminate H' | injection H' as H'; subst]; try clear H
  | H : forall w, outcome (?agent w) = _, E : ?agent ?w = _ |- _ =>
      let H' := fresh in
      pose proof (H w) as H'; rewrite E in H'; cbn in H';
      first [discriminate H' | injection H' as H'; subst]; try clear H
  end.

(** An exception of a node's collaborator is caught inside the node. *)
Lemma stage_catches deps n st w m :
  notifications_harmless deps (sessionId st) ->
  collaborator_throws deps n st m ->
  exists w', node_function deps n st w = (Ok (caught_as n m), w').
Proof.
  intros Hh Hthrow.
  destruct n; cbn [collaborator_throws] in Hthrow; unfold validation_input,
    execution_input in Hthrow; break_cases;
    cbn [node_function caught_as];
    [ unfold loadSchema | unfold convertNLToSQL | unfold validateSQL
    | unfold experimentWithAlternatives | unfold executeSQL
    | unfold interpretResults | contradiction ];
    repeat match goal with H : _ = Some _ |- _ => rewrite H end;
    try match goal with
        | H : ?sql <> "" |- _ => destruct sql; [congruence|]
        end;
    run_node deps; try use_always;
    try solve [eexists; reflexivity]; try contradict_harmless Hh.
Qed.

(* ------------------------------------------------------------------ *)
(** *** Experiment *)


Lemma experiment_never_sets_error deps st upd :
  node_returns deps experiment_alternatives st upd ->
  (forall e, ~ In (set_error e) upd) /\ error (merge st upd) = error st.
Proof.
  cbn [node_returns]. intros H. break_cases; subst; split;
    try (destruct st; reflexivity).
  all: intros e Hin; cbn in Hin; intuition discriminate.
Qed.

(** In a run, Execute is what runs after Experiment, on the merged state. *)
Lemma Runs_experiment_then_execute deps n st w r tr w' :
  Runs deps n st w r tr w' ->
  forall v upd, In v tr -> visited v = experiment_alternatives ->
    returned v = Ok upd ->
    exists v', In v' tr /\ visited v' = execute_sql /\
               given v' = merge (given v) upd.
Proof.
  intros HR.
  induction HR as [n st w m w' Hf | n st w upd w' Hf Hs
                  | n st w upd w' n' r tr w'' Hf Hs HR IH];
    intros v u Hin Hv Hret.
  - destruct Hin as [<- | []]. discriminate Hret.
  - destruct Hin as [<- | []]. cbn in Hv. subst n. discriminate Hs.
  - destruct Hin as [<- | Hin].
    + cbn in Hv, Hret. subst n. injection Hret as <-.
      cbn in Hs. injection Hs as <-.
      destruct (Runs_rank _ _ _ _ _ _ _ HR) as (res & rest & -> & _).
      exists (visit execute_sql (merge st upd) res).
      split; [right; left; reflexivity | split; reflexivity].
    + destruct (IH v u Hin Hv Hret) as (v' & Hin' & Hv' & Hg').
      exists v'. split; [right; exact Hin' | auto].
Qed.



(** The validation agent of the repository never throws: it turns a
    failure of the database or of the model into a high-risk, invalid
    verdict, and a failure of the alternative generation into an empty
    list. *)
Lemma SQLValidationAgent_never_throws explain validation_invoke alternatives_invoke
    input w :
  (exists v w',
      SQLValidationAgent.validateSQL explain validation_invoke input w = (Ok v, w'))
  /\ (exists a w',
         SQLValidationAgent.experimentWithQuery alternatives_invoke input w
         = (Ok a, w')).
Proof.
  split.
  - unfold SQLValidationAgent.validateSQL, SQLValidationAgent.validateSyntax,
      SQLValidationAgent.performSemanticValidation, bind, try_catch, ret.
    destruct (explain (SQLValidation.sqlQuery input) w) as [[[]|m] w1]; cbn.
    + destruct (validation_invoke input w1) as [[v|m] w2]; eauto.
    + eauto.
  - unfold SQLValidationAgent.experimentWithQuery, try_catch, ret.
    destruct (alternatives_invoke input w) as [[a|m] w1]; eauto.
Qed.

(** With that agent, a model that fails to generate alternatives makes
    Experiment return an empty list of alternatives: the query, its
    explanation and its confidence stay, and no error is set. *)
Lemma experiment_when_the_model_fails deps explain validation_invoke
    alternatives_invoke st w sql sch m :
  JS.truthy_string (sessionId st) = false ->
  sqlQuery st = Some sql -> sql <> "" -> schema st = Some sch ->
  always_throws alternatives_invoke (validation_input st sql sch) m ->
  exists upd w',
    experimentWithAlternatives
      (with_validation_agent deps explain validation_invoke alternatives_invoke)
      st w = (Ok upd, w')
    /\ upd = [set_alternativeQueries (Some [])]
    /\ triple (merge st upd) = triple st
    /\ error (merge st upd) = error st.
Proof.
  intros Hsid Hsql Hne Hsch Hthrow.
  destruct sql as [|c sql]; [congruence|].
  unfold experimentWithAlternatives, if_session. rewrite Hsql, Hsch.
  destruct (sessionId st) as [[|c0 s0]|]; try discriminate Hsid.
  all: unfold bind, try_catch, ret;
    cbn [with_validation_agent sqlValidationAgent_experimentWithQuery];
    unfold SQLValidationAgent.experimentWithQuery, try_catch, ret;
    unfold validation_input in Hthrow;
    cbn;
    destruct (alternatives_invoke _ w) as [[a|m0] w1] eqn:Hcall;
    [use_always|]; cbn;
    do 2 eexists; split; [reflexivity|];
    split; [reflexivity|]; split; destruct st; reflexivity.
Qed.


(* ------------------------------------------------------------------ *)
(** *** Errors reach the terminal state *)

Lemma handle_error_run deps st w r tr w' :
  Runs deps handle_error st w r tr w' ->
  retryCount st = Some 0 ->
  r = Ok (merge st [set_error (error st); set_retryCount 1]) /\
  tr = [visit handle_error st (Ok [set_error (error st); set_retryCount 1])].
Proof.
  intros HR Hrc.
  assert (Hcall : forall w0, node_function deps handle_error st w0
                             = (Ok [set_error (error st); set_retryCount 1], w0)).
  { intros w0. cbn [node_function]. unfold handleError. rewrite Hrc. reflexivity. }
  inversion HR as [n0 st0 w0 m w1 Hf | n0 st0 w0 upd w1 Hf Hs
                  | n0 st0 w0 upd w1 n' r0 tr0 w2 Hf Hs HR']; subst.
  - rewrite Hcall in Hf. discriminate.
  - rewrite Hcall in Hf. injection Hf as <- <-. split; reflexivity.
  - discriminate Hs.
Qed.

Lemma stage_error_forces_handle_error deps n st upd e n' :
  node_returns deps n st upd ->
  In (set_error (Some e)) upd ->
  n <> load_schema -> n <> handle_error ->
  successor n (merge st upd) = Some n' ->
  n' = handle_error /\ error (merge st upd) = Some e.
Proof.
  intros Hret Hin Hl Hh Hs.
  destruct n; try congruence; cbn [node_returns] in Hret; unfold stage_failure in Hret;
    break_cases; subst; cbn in Hin; intuition (try discriminate).
  all: repeat match goal with
              | H : set_error _ = set_error _ |- _ => injection H as H; subst
              end.
  all: destruct st; cbn in Hs |- *;
    unfold route_after_validate, route_after_execute in Hs; cbn in Hs;
    try (injection Hs as <-); try discriminate; split; reflexivity.
Qed.

Lemma Runs_error_persists deps n st w r tr w' :
  Runs deps n st w r tr w' ->
  entry_ok deps n st ->
  forall st' v upd e,
    r = Ok st' -> In v tr ->
    visited v <> load_schema -> visited v <> handle_error ->
    returned v = Ok upd -> In (set_error (Some e)) upd ->
    error st' = Some e /\
    (visited v = interpret_results
     \/ exists last, ends_with tr last /\ visited last = handle_error).
Proof.
  intros HR.
  induction HR as [n st w m w' Hf | n st w upd w' Hf Hs
                  | n st w upd w' n' r tr w'' Hf Hs HR IH];
    intros Hok st' v u e Hr Hin Hl Hh Hret Hset.
  - discriminate Hr.
  - injection Hr as <-. destruct Hin as [<- | []]. cbn in Hl, Hh, Hret |- *.
    injection Hret as <-.
    destruct (successor_None _ _ Hs) as [-> | ->]; [|congruence].
    split; [|left; reflexivity].
    node_cases deps Hf. break_cases; subst; cbn in Hset; intuition (try discriminate).
    all: repeat match goal with
                | H : set_error _ = set_error _ |- _ => injection H as H; subst
                end; destruct st; reflexivity.
  - destruct Hin as [<- | Hin].
    + cbn in Hl, Hh, Hret |- *. injection Hret as <-.
      pose proof (entry_ok_preserved _ _ _ _ _ _ _ Hok Hf Hs) as Hok'.
      apply node_function_result in Hf. cbn in Hf.
      destruct (stage_error_forces_handle_error _ _ _ _ _ _ Hf Hset Hl Hh Hs)
        as [-> Herr].
      destruct Hok' as (Hrc & _).
      destruct (handle_error_run _ _ _ _ _ _ HR Hrc) as [Hres ->].
      rewrite Hres in Hr. injection Hr as <-. split.
      * rewrite <- Herr. destruct (merge st upd); reflexivity.
      * right. eexists. split; [exists [visit n st (Ok upd)]; reflexivity|].
        reflexivity.
    + pose proof (entry_ok_preserved _ _ _ _ _ _ _ Hok Hf Hs) as Hok'.
      destruct (IH Hok' st' v u e Hr Hin Hl Hh Hret Hset) as [Herr Hcase].
      split; [exact Herr|]. destruct Hcase as [Hi | (last & [pre ->] & Hlast)]; [auto|].
      right. exists last. split; [|exact Hlast].
      exists (visit n st (Ok upd) :: pre). reflexivity.
Qed.

(** C1, as amended. [processQuery] ends in one of three ways: it returns
    the state the graph ended with, after Interpret or HandleError; or,
    after the gateway threw, it returns the state built by its own [catch];
    or, after the gateway threw, it throws. When no notification throws (in
    particular when there is no session) it ends the first way. In that run
    no node throws: a collaborator's exception is caught inside its node,
    which returns the node's failure message (Experiment returns [{}]); and
    an [error] returned by Translate, Validate, Execute or Interpret is the
    [error] of the returned state, reached through HandleError unless it is
    Interpret's. *)
Theorem C1_run_returns_when_notifications_do_not_throw :
  forall deps question sid w,
    (forall res w',
        processQuery deps question sid w = (res, w') ->
        (exists st, res = Ok st /\ reached_terminal_node deps question sid w st)
        \/ (exists m, res = Ok (catch_state question m) /\ gateway_threw deps sid m)
        \/ (exists m, res = Throw m /\ gateway_threw deps sid m))
    /\ (notifications_harmless deps sid ->
        exists st w',
          processQuery deps question sid w = (Ok st, w')
          /\ reached_terminal_node deps question sid w st
          /\ (forall v, In v (graph_visits deps question sid w) ->
                (exists upd, returned v = Ok upd) /\
                (forall m, collaborator_throws deps (visited v) (given v) m ->
                           returned v = Ok (caught_as (visited v) m)))
          /\ (forall v upd e,
                In v (graph_visits deps question sid w) ->
                visited v <> load_schema -> visited v <> handle_error ->
                returned v = Ok upd -> In (set_error (Some e)) upd ->
                error st = Some e /\
                (visited v = interpret_results
                 \/ exists last, ends_with (graph_visits deps question sid w) last /\
                                 visited last = handle_error))).
Proof.
  intros deps q sid w.
  assert (Hterm : forall st, graph_result deps q sid w = Ok st ->
                             reached_terminal_node deps q sid w st).
  { intros st Hg. split; [exact Hg|].
    destruct (graph_result_terminal _ _ _ _ _ Hg) as (last & upd & Hend & _ & _ & Hcase).
    exists last. split; [exact Hend|]. tauto. }
  split.
  { intros res w' Hp.
    destruct (processQuery_cases _ _ _ _ _ _ Hp)
      as [(st & -> & Hg) | [(m & -> & Hm) | (m & -> & Hm)]].
    - left. exists st. split; [reflexivity | apply Hterm; exact Hg].
    - right; left. eauto.
    - right; right. eauto. }
  intros Hh.
  destruct (processQuery_returns_graph_state deps q sid w Hh) as (st & w' & Hp & Hg).
  exists st, w'. split; [exact Hp|].
  pose proof (graph_run_Runs deps q sid w) as HR.
  pose proof (Runs_genuine _ _ _ _ _ _ _ HR) as Hgen.
  pose proof (Runs_sessionId _ _ _ _ _ _ _ HR) as Hsid.
  rewrite Forall_forall in Hgen, Hsid.
  assert (Hh' : forall v, In v (graph_visits deps q sid w) ->
                          notifications_harmless deps (sessionId (given v))).
  { intros v Hin. rewrite (Hsid v Hin). apply graph_input_harmless. exact Hh. }
  split; [apply Hterm; exact Hg|]. split.
  - intros v Hin. destruct (Hgen v Hin) as (w1 & w2 & Hcall). split.
    + destruct (node_function_total deps (visited v) (given v) w1 (Hh' v Hin))
        as (upd & w3 & E & _).
      rewrite E in Hcall. injection Hcall as <- _. eauto.
    + intros m Hm.
      destruct (stage_catches deps (visited v) (given v) w1 m (Hh' v Hin) Hm) as (w3 & E).
      rewrite E in Hcall. injection Hcall as <- _. reflexivity.
  - intros v upd e Hin Hl Hhe Hret Hset.
    eapply (Runs_error_persists _ _ _ _ _ _ _ HR (graph_input_entry_ok deps q sid));
      eauto.
Qed.

(* ------------------------------------------------------------------ *)
(** *** Runs that differ only in the gateway *)

Lemma bind_ext {A B} (m1 m2 : M A) (k1 k2 : A -> M B) w :
  (forall w0, m1 w0 = m2 w0) ->
  (forall a w0, k1 a w0 = k2 a w0) ->
  bind m1 k1 w = bind m2 k2 w.
Proof.
  intros Hm Hk. unfold bind. rewrite Hm.
  destruct (m2 w) as [[a|msg] w0]; [apply Hk | reflexivity].
Qed.

Lemma try_catch_ext {A} (b1 b2 : M A) (h1 h2 : string -> M A) w :
  (forall w0, b1 w0 = b2 w0) ->
  (forall msg w0, h1 msg w0 = h2 msg w0) ->
  try_catch b1 h1 w = try_catch b2 h2 w.
Proof.
  intros Hb Hh. unfold try_catch. rewrite Hb.
  destruct (b2 w) as [[a|msg] w0]; [reflexivity | apply Hh].
Qed.

Lemma if_session_agree g1 g2 sid e1 e2 w :
  gateways_agree g1 g2 sid ->
  (forall s, exists c, e1 s = gateway_call g1 c /\ e2 s = gateway_call g2 c) ->
  if_session sid e1 w = if_session sid e2 w.
Proof.
  intros Ha He. unfold if_session.
  destruct sid as [s|]; [|reflexivity].
  destruct (JS.truthy_string (Some s)) eqn:Ht; [|reflexivity].
  destruct Ha as [Hf | Heq]; [congruence|].
  destruct (He s) as (c & -> & ->). unfold gateway_call. rewrite Heq. reflexivity.
Qed.

Ltac notification_pair :=
  let s := fresh "s" in
  intro s;
  repeat match goal with
         | |- context [match ?x with _ => _ end] => destruct x
         end;
  eexists; split; reflexivity.

Ltac agree_step Ha :=
  first
    [ reflexivity
    | apply bind_ext
    | apply try_catch_ext
    | eapply if_session_agree; [exact Ha | notification_pair]
    | match goal with
      | |- context [match sqlQuery ?st with _ => _ end] =>
          destruct (sqlQuery st) as [[|? ?]|]
      | |- context [match schema ?st with _ => _ end] => destruct (schema st)
      | |- context [match validationResult ?st with _ => _ end] =>
          destruct (validationResult st)
      | |- context [match executionResult ?st with _ => _ end] =>
          destruct (executionResult st)
      | |- context [match SQLValidation.alternatives ?r with _ => _ end] =>
          destruct (SQLValidation.alternatives r) as [[|? ?]|]
      | |- context [if ?a <? ?b then _ else _] => destruct (a <? b)
      end ].

Ltac agree Ha := repeat (intros; cbv beta; agree_step Ha).

Lemma node_function_agree deps g1 g2 n st w :
  gateways_agree g1 g2 (sessionId st) ->
  node_function (with_gateway deps g1) n st w
  = node_function (with_gateway deps g2) n st w.
Proof.
  intros Ha.
  destruct n; cbn [node_function];
    [ unfold loadSchema | unfold convertNLToSQL | unfold validateSQL
    | unfold experimentWithAlternatives | unfold executeSQL
    | unfold interpretResults | reflexivity ];
    cbn [with_gateway streamingService_gateway nlToSqlAgent_convertNLToSQL
         sqlValidationAgent_validateSQL sqlValidationAgent_experimentWithQuery
         sqlExecutionAgent_executeSQL resultInterpretationAgent_interpretResults
         databaseService_getSchemaInfo];
    agree Ha.
Qed.

Lemma run_from_agree deps g1 g2 fuel : forall n st w,
  gateways_agree g1 g2 (sessionId st) ->
  run_from (with_gateway deps g1) fuel n st w
  = run_from (with_gateway deps g2) fuel n st w.
Proof.
  induction fuel as [|fuel IH]; intros n st w Ha; [reflexivity|].
  cbn [run_from]. rewrite (node_function_agree deps g1 g2 n st w Ha).
  destruct (node_function (with_gateway deps g2) n st w) as [[upd|m] w1]; [|reflexivity].
  destruct (next_node n (merge st upd)) as [[n'|]|]; try reflexivity.
  rewrite IH; [reflexivity|]. rewrite merge_sessionId. exact Ha.
Qed.

Lemma graph_input_agree deps g1 g2 input :
  gateways_agree g1 g2 (sessionId input) ->
  graph_input (with_gateway deps g1) input = graph_input (with_gateway deps g2) input
  /\ gateways_agree g1 g2 (sessionId (graph_input (with_gateway deps g2) input)).
Proof.
  intros Ha. unfold graph_input. cbn [with_gateway graph_keeps_undeclared_keys].
  destruct (graph_keeps_undeclared_keys deps); split; auto.
  left. reflexivity.
Qed.

Lemma invoke_traced_agree deps g1 g2 input w :
  gateways_agree g1 g2 (sessionId input) ->
  invoke_traced (with_gateway deps g1) input w
  = invoke_traced (with_gateway deps g2) input w.
Proof.
  intros Ha. unfold invoke_traced.
  destruct (graph_input_agree deps g1 g2 input Ha) as [-> Ha'].
  apply run_from_agree. exact Ha'.
Qed.

Lemma processQuery_agree deps g1 g2 q sid w :
  gateways_agree g1 g2 sid ->
  processQuery (with_gateway deps g1) q sid w
  = processQuery (with_gateway deps g2) q sid w.
Proof.
  intros Ha. unfold processQuery.
  cbn [with_gateway streamingService_gateway].
  apply bind_ext; [intros; eapply if_session_agree; [exact Ha | notification_pair]|].
  intros _ w0. apply try_catch_ext.
  - intros w1. apply bind_ext.
    + intros w2. unfold invoke.
      rewrite (invoke_traced_agree deps g1 g2 (stateWithSession q sid) w2 Ha).
      reflexivity.
    + intros result w2. apply bind_ext; [|reflexivity].
      intros w3. eapply if_session_agree; [exact Ha | notification_pair].
  - intros msg w1. apply bind_ext; [|reflexivity].
    intros w2. eapply if_session_agree; [exact Ha | notification_pair].
Qed.

(** C4, as amended. Nothing catches what the gateway throws for its own
    sake, but the gateway is only called for a session, and acts on the run
    only by throwing: two runs that differ only in the gateway are the same
    run (state returned, nodes visited, world) when there is no session, or
    when neither gateway throws. *)
Theorem C4_gateway_matters_only_when_it_throws :
  forall deps g1 g2 question sid w,
    JS.truthy_string sid = false
    \/ (gateway_never_throws g1 /\ gateway_never_throws g2) ->
    processQuery (with_gateway deps g1) question sid w
    = processQuery (with_gateway deps g2) question sid w
    /\ graph_run (with_gateway deps g1) question sid w
       = graph_run (with_gateway deps g2) question sid w.
Proof.
  intros deps g1 g2 q sid w H.
  assert (Ha : gateways_agree g1 g2 sid).
  { destruct H as [Hf | [H1 H2]]; [left; exact Hf | right].
    intros w0 c. rewrite H1, H2. reflexivity. }
  split; [apply processQuery_agree; exact Ha|].
  unfold graph_run, entry_world. cbn [with_gateway streamingService_gateway].
  rewrite (if_session_agree g1 g2 sid
             (WorkflowStreamingService.emitSchemaLoading g1)
             (WorkflowStreamingService.emitSchemaLoading g2) w Ha
             ltac:(notification_pair)).
  apply invoke_traced_agree. exact Ha.
Qed.

(* ================================================================== *)
(** ** The claims at concrete inputs *)

Import Scenario.

(** Whatever the collaborators: when the entry notification of
    [processQuery] throws, the exception leaves [processQuery]. *)
Lemma entry_notification_escapes deps q s w m :
  s <> "" ->
  streamingService_gateway deps w
    (emitWorkflowStep s
       {| step := "schema_loading"; status := starting;
          message := "Loading database schema information..." |}) = Some m ->
  outcome (processQuery deps q (Some s) w) = Throw m.
Proof.
  intros Hs Hg. destruct s as [|c s]; [congruence|].
  unfold processQuery, bind, if_session, WorkflowStreamingService.emitSchemaLoading,
    WorkflowStreamingService.emit, gateway_call.
  cbn [JS.truthy_string]. rewrite Hg. reflexivity.
Qed.

(** C1, counterexample. With a session and a gateway whose socket is gone,
    the entry notification of [processQuery] throws outside its [try]: the
    caller gets an exception, not a state. *)
Lemma C1_counterexample_entry_notification_throws :
  outcome (processQuery (healthy broken_gateway 92 accepted) question session [])
  = Throw "socket closed"
  /\ ~ exists st w',
        processQuery (healthy broken_gateway 92 accepted) question session []
        = (Ok st, w').
Proof.
  split; [reflexivity|]. intros (st & w' & H). vm_compute in H. discriminate H.
Qed.

(** C1, witness: the executor crashes, there is no session. *)
Lemma C1_witness_executor_crashes :
  notifications_harmless executor_crashes None
  /\ exists st w',
       processQuery executor_crashes question None [] = (Ok st, w')
       /\ reached_terminal_node executor_crashes question None [] st
       /\ error st = Some "SQL execution failed: connection reset"
       /\ ((exists st0, Ok st = Ok st0
                        /\ reached_terminal_node executor_crashes question None [] st0)
           \/ (exists m, Ok st = Ok (catch_state question m)
                         /\ gateway_threw executor_crashes None m)
           \/ (exists m, Ok st = Throw m /\ gateway_threw executor_crashes None m)).
Proof.
  assert (H : notifications_harmless executor_crashes None) by (left; reflexivity).
  split; [exact H|].
  destruct (proj2 (C1_run_returns_when_notifications_do_not_throw
                     executor_crashes question None []) H)
    as (st & w' & Hp & Hr & _ & _).
  exists st, w'. split; [exact Hp|]. split; [exact Hr|]. split.
  - vm_compute in Hp. injection Hp as <- _. reflexivity.
  - exact (proj1 (C1_run_returns_when_notifications_do_not_throw
                    executor_crashes question None []) (Ok st) w' Hp).
Defined.

(** C2, counterexample. The graph ends after Interpret with a final
    response; the notification of completion throws inside the [try] of
    [processQuery], whose [catch] returns a third kind of state: the initial
    state with an [error], which no node returned. *)
Lemma C2_counterexample_third_terminal :
  exists st,
    outcome (processQuery (healthy completion_fails_gateway 92 accepted)
               question session []) = Ok st
    /\ st = catch_state question "result is not serialisable"
    /\ ~ reached_terminal_node (healthy completion_fails_gateway 92 accepted)
           question session [] st.
Proof.
  eexists. split; [vm_compute; reflexivity|]. split; [reflexivity|].
  intros [Hg _]. vm_compute in Hg. discriminate Hg.
Qed.

(** C2, witness: the end-to-end scenario. *)
Lemma C2_witness_end_to_end :
  exists st w',
    processQuery (healthy quiet_gateway 92 accepted) question None [] = (Ok st, w')
    /\ (~ (finalResponse st <> None /\ JS.truthy_string (error st) = true)
        /\ (~ execution_failed st -> exactly_one_outcome st)
        /\ (reached_terminal_node (healthy quiet_gateway 92 accepted) question None [] st
            \/ exists m, st = catch_state question m
                         /\ gateway_threw (healthy quiet_gateway 92 accepted) None m)).
Proof.
  do 2 eexists. split; [vm_compute; reflexivity|].
  eapply (C2_returned_state_shape (healthy quiet_gateway 92 accepted) question None []).
  vm_compute. reflexivity.
Defined.

(** The slip that C2 as amended leaves out, and C8 reports: a refusal ends
    with neither [finalResponse] nor [error]. *)
Example refusal_ends_with_neither :
  exists st,
    outcome (processQuery (healthy quiet_gateway 92 rejected) question None []) = Ok st
    /\ finalResponse st = None /\ error st = None.
Proof. eexists. split; [vm_compute; reflexivity|]. split; reflexivity. Qed.

(** C4, counterexample. Two runs of the end-to-end scenario with the same
    session differ only in the gateway: one never throws, the other throws
    on the notification of completion. The first returns the final response,
    the second an error and no final response. *)
Lemma C4_counterexample_completion_notification_throws :
  exists st1 st2,
    outcome (processQuery (with_gateway (healthy quiet_gateway 92 accepted) quiet_gateway)
               question session []) = Ok st1
    /\ outcome (processQuery
                  (with_gateway (healthy quiet_gateway 92 accepted) completion_fails_gateway)
                  question session []) = Ok st2
    /\ finalResponse st1 = Some answer /\ error st1 = None
    /\ finalResponse st2 = None
    /\ error st2 = Some "Workflow execution failed: result is not serialisable".
Proof.
  do 2 eexists. split; [vm_compute; reflexivity|]. split; [vm_compute; reflexivity|].
  repeat split; reflexivity.
Qed.

(** The same inside the graph, when the nodes see the session: a throw on
    the [completed] step of schema loading is taken for a failure of schema
    loading, and the run is routed to HandleError. *)
Example notification_throw_changes_routing :
  map visited (graph_visits (healthy quiet_gateway 92 accepted) question session [])
  = [load_schema; nl_to_sql; validate_sql; execute_sql; interpret_results]
  /\ map visited
       (graph_visits (healthy schema_loaded_fails_gateway 92 accepted) question session [])
     = [load_schema; nl_to_sql; handle_error].
Proof. split; vm_compute; reflexivity. Qed.

(** C4, witness: without a session even a broken gateway changes nothing. *)
Lemma C4_witness_no_session :
  (JS.truthy_string None = false
   \/ (gateway_never_throws quiet_gateway /\ gateway_never_throws broken_gateway))
  /\ processQuery (with_gateway (healthy quiet_gateway 92 accepted) quiet_gateway)
       question None []
     = processQuery (with_gateway (healthy quiet_gateway 92 accepted) broken_gateway)
         question None [].
Proof.
  assert (H : JS.truthy_string None = false
              \/ (gateway_never_throws quiet_gateway
                  /\ gateway_never_throws broken_gateway)) by (left; reflexivity).
  split; [exact H|].
  exact (proj1 (C4_gateway_matters_only_when_it_throws
                  (healthy quiet_gateway 92 accepted) quiet_gateway broken_gateway
                  question None [] H)).
Defined.

(** C5, counterexample. Given a failed execution result and a query,
    Interpret calls the interpreter and returns a final response. *)
Lemma C5_counterexample_interpret_on_failed_execution :
  executionResult state_after_failed_execution = Some failed_execution
  /\ SQLExecution.success failed_execution = false
  /\ outcome (interpretResults (healthy quiet_gateway 92 accepted)
                state_after_failed_execution [])
     = Ok [set_finalResponse answer].
Proof. repeat split; reflexivity. Qed.

(** C5, witness: a state without execution result; the Interpret visit of
    the end-to-end scenario; and a final response returned by Interpret. *)
Lemma C5_witness_missing_execution_result :
  (notifications_harmless (healthy quiet_gateway 92 accepted)
     (sessionId (validated_state (Some 92) accepted))
   /\ (executionResult (validated_state (Some 92) accepted) = None
       \/ JS.truthy_string (sqlQuery (validated_state (Some 92) accepted)) = false))
  /\ (exists w',
        interpretResults (healthy quiet_gateway 92 accepted)
          (validated_state (Some 92) accepted) []
        = (Ok [set_error
                 (Some "Execution result or SQL query missing for interpretation")],
           w'))
  /\ (exists v,
        In v (graph_visits (healthy quiet_gateway 92 accepted) question None [])
        /\ visited v = interpret_results
        /\ JS.truthy_string (error (given v)) = false
        /\ exists r, executionResult (given v) = Some r
                     /\ SQLExecution.success r = true)
  /\ (interpretResults (healthy quiet_gateway 92 accepted)
        state_after_failed_execution [] = (Ok [set_finalResponse answer], [])
      /\ In (set_finalResponse answer) [set_finalResponse answer]
      /\ executionResult state_after_failed_execution <> None
      /\ JS.truthy_string (sqlQuery state_after_failed_execution) = true).
Proof.
  assert (H1 : notifications_harmless (healthy quiet_gateway 92 accepted)
                 (sessionId (validated_state (Some 92) accepted)))
    by (left; reflexivity).
  assert (H2 : executionResult (validated_state (Some 92) accepted) = None
               \/ JS.truthy_string (sqlQuery (validated_state (Some 92) accepted)) = false)
    by (left; reflexivity).
  assert (H3 : interpretResults (healthy quiet_gateway 92 accepted)
                 state_after_failed_execution []
               = (Ok [set_finalResponse answer], [])) by reflexivity.
  assert (H4 : In (set_finalResponse answer) [set_finalResponse answer])
    by (left; reflexivity).
  split; [split; assumption|]. split; [|split].
  - exact (proj1 (proj2 (C5_interpret_checks_presence_routing_checks_success
                           (healthy quiet_gateway 92 accepted))) _ [] H1 H2).
  - eexists. split; [vm_compute; do 4 right; left; reflexivity|].
    split; [reflexivity|].
    apply (proj2 (proj2 (C5_interpret_checks_presence_routing_checks_success
                           (healthy quiet_gateway 92 accepted))) question None []).
    + vm_compute. do 4 right. left. reflexivity.
    + reflexivity.
  - split; [exact H3|]. split; [exact H4|].
    exact (proj1 (C5_interpret_checks_presence_routing_checks_success
                    (healthy quiet_gateway 92 accepted)) _ _ _ _ _ H3 H4).
Defined.




(** C9, witness: a run that ends in HandleError. *)
Lemma C9_witness_refused_run :
  (occurrences handle_error
     (graph_visits (healthy quiet_gateway 92 rejected) question None []) <= 1)%nat
  /\ (exists v,
        In v (graph_visits (healthy quiet_gateway 92 rejected) question None [])
        /\ visited v = handle_error
        /\ ends_with (graph_visits (healthy quiet_gateway 92 rejected) question None []) v
        /\ retryCount (given v) = Some 0 /\ gives_up (given v) = false
        /\ returned v = Ok [set_error (error (given v)); set_retryCount 1])
  /\ (exists st w',
        processQuery (healthy quiet_gateway 92 rejected) question None [] = (Ok st, w')
        /\ exists rc, retryCount st = Some rc /\ 0 <= rc <= 1).
Proof.
  destruct (C9_handle_error_runs_at_most_once
              (healthy quiet_gateway 92 rejected) question None [])
    as (Hocc & Hlast & Hret & _ & _).
  split; [exact Hocc|]. split.
  - eexists. split; [vm_compute; do 5 right; left; reflexivity|].
    split; [reflexivity|]. apply Hlast; [|reflexivity].
    vm_compute. do 5 right. left. reflexivity.
  - do 2 eexists. split; [vm_compute; reflexivity|].
    eapply Hret. vm_compute. reflexivity.
Defined.

(** C10, witness: Validate rejects the query, Experiment puts a query of
    higher confidence in its place, the executor refuses. *)
Lemma C10_witness_rejected_then_replaced :
  (validate_returned
     (graph_visits
        (with_execution_agent (healthy quiet_gateway 50 rejected) database)
        question None []) rejected
   /\ refusing rejected)
  /\ (forall v,
         In v (graph_visits
                 (with_execution_agent (healthy quiet_gateway 50 rejected) database)
                 question None []) ->
         visited v <> interpret_results)
  /\ (forall st w',
         processQuery
           (with_execution_agent (healthy quiet_gateway 50 rejected) database)
           question None [] = (Ok st, w') ->
         finalResponse st = None).
Proof.
  assert (H1 : validate_returned
                 (graph_visits
                    (with_execution_agent (healthy quiet_gateway 50 rejected) database)
                    question None []) rejected).
  { eexists. split; [vm_compute; do 2 right; left; reflexivity|].
    split; reflexivity. }
  assert (H2 : refusing rejected) by (left; reflexivity).
  split; [split; assumption|].
  destruct (C10_refusing_validation_never_reaches_interpret
              (healthy quiet_gateway 50 rejected) database question None []
              rejected H1 H2) as (Hno & Hfin & _ & _).
  split; assumption.
Defined.

(** In that run the query the executor refuses is the replacement. *)
Example replacement_is_refused :
  exists st r,
    outcome (processQuery
               (with_execution_agent (healthy quiet_gateway 50 rejected) database)
               question None []) = Ok st
    /\ sqlQuery st = Some "SELECT COUNT(1) FROM orders"
    /\ sqlConfidence st = Some 85
    /\ executionResult st = Some r
    /\ SQLExecution.success r = false
    /\ SQLExecution.error r = Some "Query must be validated before execution".
Proof.
  do 2 eexists. split; [vm_compute; reflexivity|]. repeat split; reflexivity.
Qed.

(* ================================================================== *)
(** ** The executor, beyond its refusals *)

(** What [executeSQL] does, case by case: a refusal asks the database
    nothing; otherwise exactly [sent_query] is sent, and the answer of the
    database decides the result. *)
Lemma executeSQL_cases db input w :
  let t0 := now db w in
  let w1 := (w ++ [Queried (sent_query (SQLExecution.sqlQuery input))])%list in
  let t1 := now db w1 in
  let failed m t wf :=
    ( Ok {| SQLExecution.success := false; SQLExecution.data := None;
            SQLExecution.error := Some m; SQLExecution.executionTime := t - t0;
            SQLExecution.rowCount := 0; SQLExecution.columnInfo := [] |}, wf ) in
  SQLExecutionAgent.executeSQL db input w =
    if negb (SQLExecution.isValidated input) then
      failed "Query must be validated before execution" t0 w
    else if RiskLevel_eqb (SQLExecution.riskLevel input) HIGH then
      failed "High-risk queries are not allowed to execute" t0 w
    else if negb (is_select (SQLExecution.sqlQuery input)) then
      failed "Only SELECT queries are allowed" t0 w
    else
      match executeReadOnlyQuery db w (sent_query (SQLExecution.sqlQuery input)) with
      | Resolved result =>
          let rows := match result with RowArray rows => rows | SingleRow r => [r] end in
          ( Ok {| SQLExecution.success := true; SQLExecution.data := Some rows;
                  SQLExecution.error := None; SQLExecution.executionTime := t1 - t0;
                  SQLExecution.rowCount := Z.of_nat (length rows);
                  SQLExecution.columnInfo := SQLExecutionAgent.extractColumnInfo rows |},
            w1 )
      | Rejected m => failed m t1 w1
      | Pending => failed "Query execution timed out after 30000ms" t1 w1
      end.
Proof.
  cbv zeta.
  unfold SQLExecutionAgent.executeSQL, SQLExecutionAgent.refusal,
    SQLExecutionAgent.Date_now, bind, ret, is_select.
  destruct (negb (SQLExecution.isValidated input)); [reflexivity|].
  destruct (RiskLevel_eqb (SQLExecution.riskLevel input) HIGH); [reflexivity|].
  destruct (negb (JS.startsWith (JS.toUpperCase (JS.trim (SQLExecution.sqlQuery input)))
                    "SELECT")); [reflexivity|].
  unfold try_catch, SQLExecutionAgent.race_query_with_timeout.
  fold (sent_query (SQLExecution.sqlQuery input)).
  destruct (executeReadOnlyQuery db w (sent_query (SQLExecution.sqlQuery input)))
    as [[rows|row]|m|]; reflexivity.
Qed.

(** *** Strings *)

Lemma includes_app_right a b p :
  JS.includes b p = true -> JS.includes (a ++ b) p = true.
Proof.
  intros H. induction a as [|c a IH]; cbn; [exact H|].
  rewrite IH. apply orb_true_r.
Qed.

Lemma prefix_nil s : String.prefix "" s = true.
Proof. destruct s; reflexivity. Qed.

Lemma prefix_app p a b : String.prefix p a = true -> String.prefix p (a ++ b) = true.
Proof.
  revert a. induction p as [|d p IH]; intros a; [intros; apply prefix_nil|].
  destruct a as [|c a]; cbn; [discriminate|].
  destruct (ascii_dec d c); [apply IH | discriminate].
Qed.

(** A prefix of [a ++ b] lies within [a] or covers it. *)
Lemma prefix_app_cases p : forall a b,
  String.prefix p (a ++ b) = true ->
  String.prefix p a = true \/ exists p', p = a ++ p' /\ String.prefix p' b = true.
Proof.
  induction p as [|d p IH]; intros a b H; [left; apply prefix_nil|].
  destruct a as [|c a].
  - right. exists (String d p). split; [reflexivity | exact H].
  - cbn in H |- *. destruct (ascii_dec d c) as [->|]; [|discriminate].
    destruct (IH a b H) as [Hp | (p' & -> & Hp)]; [left; exact Hp|].
    right. exists p'. split; [reflexivity | exact Hp].
Qed.

Lemma append_assoc (a b c : string) : (a ++ b) ++ c = a ++ (b ++ c).
Proof. induction a as [|x a IH]; cbn; [reflexivity | now rewrite IH]. Qed.

Lemma append_empty (a : string) : a ++ "" = a.
Proof. induction a as [|x a IH]; cbn; [reflexivity | now rewrite IH]. Qed.

Lemma text_app a b : JS.text (a ++ b)%list = JS.text a ++ JS.text b.
Proof.
  induction a as [|c a IH]; cbn; [reflexivity|].
  rewrite IH. symmetry. apply append_assoc.
Qed.

(** Reading the code points of a string loses nothing. *)
Lemma pieces_text s : forall k,
  fst (JS.pieces k s) ++ JS.text (snd (JS.pieces k s)) = s.
Proof.
  induction s as [|b s IH]; intros k; [reflexivity|].
  cbn [JS.pieces].
  destruct k as [|k]; [|destruct (JS.is_continuation b)].
  - specialize (IH (JS.followers b)).
    destruct (JS.pieces (JS.followers b) s) as [c l]. cbn in *. now rewrite IH.
  - specialize (IH k). destruct (JS.pieces k s) as [c l]. cbn in *. now rewrite IH.
  - specialize (IH (JS.followers b)).
    destruct (JS.pieces (JS.followers b) s) as [c l]. cbn in *. now rewrite IH.
Qed.

Lemma pieces_start s : fst (JS.pieces 0 s) = "".
Proof.
  destruct s as [|b s]; [reflexivity|]. cbn [JS.pieces].
  destruct (JS.pieces (JS.followers b) s). reflexivity.
Qed.

Lemma text_code_points s : JS.text (JS.code_points s) = s.
Proof.
  unfold JS.code_points. pose proof (pieces_text s 0) as H.
  rewrite pieces_start in H. exact H.
Qed.

(** A byte that is no continuation byte starts a code point, whatever
    comes before it. *)
Lemma pieces_first b s k :
  JS.is_continuation b = false ->
  JS.pieces k (String b s) = ("", JS.code_points (String b s)).
Proof.
  intros Hb. unfold JS.code_points. cbn [JS.pieces]. rewrite Hb.
  destruct k; destruct (JS.pieces (JS.followers b) s); reflexivity.
Qed.

Lemma pieces_app x b y :
  JS.is_continuation b = false ->
  forall k,
    JS.pieces k (x ++ String b y)
    = (fst (JS.pieces k x), snd (JS.pieces k x) ++ JS.code_points (String b y))%list.
Proof.
  intros Hb. induction x as [|a x IH]; intros k.
  - cbn [append]. rewrite (pieces_first b y k Hb). reflexivity.
  - cbn [append JS.pieces].
    destruct k as [|k]; [|destruct (JS.is_continuation a)].
    + rewrite IH. destruct (JS.pieces (JS.followers a) x). reflexivity.
    + rewrite IH. destruct (JS.pieces k x). reflexivity.
    + rewrite IH. destruct (JS.pieces (JS.followers a) x). reflexivity.
Qed.

Lemma code_points_app x b y :
  JS.is_continuation b = false ->
  JS.code_points (x ++ String b y)
  = (JS.code_points x ++ JS.code_points (String b y))%list.
Proof.
  intros Hb. unfold JS.code_points at 1. rewrite (pieces_app x b y Hb). reflexivity.
Qed.

(** The code points a string starts with are the code points of the string
    they make. *)
Lemma pieces_prefix s : forall k c l a b,
  JS.pieces k s = (c, l) -> l = (a ++ b)%list ->
  JS.pieces k (c ++ JS.text a) = (c, a).
Proof.
  induction s as [|b0 s IH]; intros k c l a b Hp Hl.
  - cbn in Hp. injection Hp as <- <-.
    destruct a; [reflexivity | discriminate].
  - cbn [JS.pieces] in Hp.
    assert (Hnew : forall c1 l1,
               JS.pieces (JS.followers b0) s = (c1, l1) ->
               (match k, JS.is_continuation b0 with
                | S _, true => False
                | _, _ => True
                end) ->
               (c, l) = ("", String b0 c1 :: l1) ->
               JS.pieces k (c ++ JS.text a) = (c, a)).
    { intros c1 l1 E Hk [= -> ->].
      destruct a as [|x a]; [reflexivity|].
      injection Hl as <- Hl. cbn [JS.text append JS.pieces].
      rewrite (IH _ _ _ _ _ E Hl).
      destruct k; [reflexivity|].
      destruct (JS.is_continuation b0); [contradiction | reflexivity]. }
    destruct k as [|k]; [|destruct (JS.is_continuation b0) eqn:Eb].
    + destruct (JS.pieces (JS.followers b0) s) as [c1 l1] eqn:E.
      eapply Hnew; [reflexivity | exact I | symmetry; exact Hp].
    + destruct (JS.pieces k s) as [c1 l1] eqn:E. injection Hp as <- <-.
      cbn [append JS.pieces]. rewrite Eb.
      rewrite (IH _ _ _ _ _ E Hl). reflexivity.
    + destruct (JS.pieces (JS.followers b0) s) as [c1 l1] eqn:E.
      eapply Hnew; [reflexivity | exact I | symmetry; exact Hp].
Qed.

Lemma code_points_prefix s a b :
  JS.code_points s = (a ++ b)%list -> JS.code_points (JS.text a) = a.
Proof.
  unfold JS.code_points. intros H.
  destruct (JS.pieces 0 s) as [c l] eqn:E. cbn in H.
  pose proof (pieces_start s) as Hc. rewrite E in Hc. cbn in Hc. subst c.
  pose proof (pieces_prefix s 0 "" l a b E H) as Hp. cbn [append] in Hp.
  rewrite Hp. reflexivity.
Qed.

Lemma toUpperCase_app x b y :
  JS.is_continuation b = false ->
  JS.toUpperCase (x ++ String b y) = JS.toUpperCase x ++ JS.toUpperCase (String b y).
Proof.
  intros Hb. unfold JS.toUpperCase.
  rewrite (code_points_app x b y Hb), map_app. apply text_app.
Qed.

Lemma outside_after a p c : outside (a ++ p) c -> outside p c.
Proof.
  intros (Hu & b & r & -> & Hn). split; [exact Hu|].
  exists b, r. split; [reflexivity|].
  intros q r' ->. apply (Hn (a ++ q) r'). symmetry. apply append_assoc.
Qed.

Lemma outside_first p c rest :
  p <> "" -> outside p c -> String.prefix p (c ++ rest) = false.
Proof.
  intros Hp (_ & b & r & -> & Hn). destruct p as [|d p]; [congruence|].
  cbn. destruct (ascii_dec d b) as [->|]; [|reflexivity].
  exfalso. apply (Hn "" p). reflexivity.
Qed.

(** Cutting code points that are outside [p] off the end of a string
    leaves a prefix [p] of its upper-cased form in place. *)
Lemma cut_keeps_prefix cut : forall kept p,
  Forall (outside p) cut ->
  String.prefix p (JS.text (map JS.upper_char (kept ++ cut))) = true ->
  String.prefix p (JS.text (map JS.upper_char kept)) = true.
Proof.
  induction kept as [|c kept IH]; intros p Hcut Hp.
  - destruct p as [|d p]; [reflexivity|].
    destruct cut as [|c cut]; [exact Hp|].
    apply Forall_inv in Hcut. cbn [app map JS.text] in Hp.
    rewrite (proj1 Hcut) in Hp.
    rewrite (outside_first (String d p) c _ ltac:(discriminate) Hcut) in Hp.
    discriminate Hp.
  - cbn [app map JS.text] in Hp |- *.
    destruct (prefix_app_cases _ _ _ Hp) as [H | (p' & -> & H)];
      [apply prefix_app; exact H|].
    assert (Hcut' : Forall (outside p') cut).
    { eapply Forall_impl; [|exact Hcut]. intros x. apply outside_after. }
    specialize (IH p' Hcut' H). clear - IH.
    induction (JS.upper_char c) as [|x u IHu]; [exact IH|].
    cbn. destruct (ascii_dec x x); [exact IHu | congruence].
Qed.

Lemma drop_while_split {A} (f : A -> bool) l :
  exists cut, l = (cut ++ JS.drop_while f l)%list /\ Forall (fun x => f x = true) cut.
Proof.
  induction l as [|x l (cut & E & Hcut)]; [exists []; split; [reflexivity | constructor]|].
  cbn. destruct (f x) eqn:Ex.
  - exists (x :: cut). split; [cbn; congruence | constructor; assumption].
  - exists []. split; [reflexivity | constructor].
Qed.

Lemma trimEnd_split s :
  exists cut,
    JS.code_points s = (JS.code_points (JS.trimEnd s) ++ cut)%list
    /\ Forall (fun c => JS.is_whitespace c = true) cut.
Proof.
  unfold JS.trimEnd.
  destruct (drop_while_split JS.is_whitespace (rev (JS.code_points s)))
    as (cut & E & Hcut).
  exists (rev cut).
  assert (E' : JS.code_points s
               = (rev (JS.drop_while JS.is_whitespace (rev (JS.code_points s)))
                  ++ rev cut)%list).
  { rewrite <- rev_app_distr, <- E. symmetry. apply rev_involutive. }
  split.
  - rewrite (code_points_prefix _ _ _ E'). exact E'.
  - apply Forall_rev. exact Hcut.
Qed.

Lemma trimEnd_keeps_prefix p s :
  (forall c, JS.is_whitespace c = true -> outside p c) ->
  String.prefix p (JS.toUpperCase s) = true ->
  String.prefix p (JS.toUpperCase (JS.trimEnd s)) = true.
Proof.
  intros Hout Hp. destruct (trimEnd_split s) as (cut & E & Hcut).
  unfold JS.toUpperCase in *. rewrite E in Hp.
  apply (cut_keeps_prefix cut); [|exact Hp].
  eapply Forall_impl; [|exact Hcut]. exact Hout.
Qed.

Lemma code_points_single b y :
  JS.followers b = 0%nat ->
  JS.code_points (String b y) = (String b "" :: JS.code_points y)%list.
Proof.
  intros Hb. unfold JS.code_points. cbn [JS.pieces]. rewrite Hb.
  pose proof (pieces_start y) as Hy.
  destruct (JS.pieces 0 y) as [c l]. cbn in Hy |- *. subst c. reflexivity.
Qed.

Lemma code_points_semicolons k :
  JS.code_points (JS.text (repeat ";" k)) = repeat ";" k.
Proof.
  induction k as [|k IH]; [reflexivity|].
  cbn [repeat JS.text append]. rewrite code_points_single; [|reflexivity].
  rewrite IH. reflexivity.
Qed.

Lemma stripTrailingSemicolons_split s :
  exists k, s = JS.stripTrailingSemicolons s ++ JS.text (repeat ";" k).
Proof.
  induction s as [|c s (k & E)]; [exists 0%nat; reflexivity|].
  cbn [JS.stripTrailingSemicolons].
  destruct (JS.stripTrailingSemicolons s) as [|c1 s1].
  - cbn [append] in E. destruct (Ascii.eqb c ";") eqn:Ec.
    + apply Ascii.eqb_eq in Ec. subst c. exists (S k). cbn. congruence.
    + exists k. cbn. congruence.
  - exists k. cbn [append] in E |- *. congruence.
Qed.

Lemma stripTrailingSemicolons_keeps_prefix p s :
  outside p ";" ->
  String.prefix p (JS.toUpperCase s) = true ->
  String.prefix p (JS.toUpperCase (JS.stripTrailingSemicolons s)) = true.
Proof.
  intros Hout Hp. destruct (stripTrailingSemicolons_split s) as (k & E).
  revert E Hp. generalize (JS.stripTrailingSemicolons s). intros x -> Hp.
  destruct k as [|k]; [rewrite append_empty in Hp; exact Hp|].
  unfold JS.toUpperCase in *. cbn [repeat JS.text append] in Hp.
  rewrite code_points_app in Hp by reflexivity.
  change (String ";" (JS.text (repeat ";" k))) with (JS.text (repeat ";" (S k))) in Hp.
  rewrite code_points_semicolons in Hp.
  apply (cut_keeps_prefix (repeat ";" (S k))); [|exact Hp].
  apply Forall_forall. intros c Hc. apply repeat_spec in Hc. subst c. exact Hout.
Qed.

Lemma whitespace_is_listed c :
  JS.is_whitespace c = true -> In c (map JS.utf8 JS.white_space).
Proof.
  unfold JS.is_whitespace, JS.number.
  destruct (String.eqb (JS.utf8 (JS.decode c)) c) eqn:E; [|discriminate].
  apply String.eqb_eq in E. intros H.
  apply existsb_exists in H. destruct H as (n & Hin & Hn).
  apply N.eqb_eq in Hn. subst n. rewrite <- E. apply in_map. exact Hin.
Qed.

Lemma not_in_SELECT b :
  negb (existsb (Ascii.eqb b) (list_ascii_of_string "SELECT")) = true ->
  forall q r, "SELECT" <> q ++ String b r.
Proof.
  intros Hb q r E.
  do 6 (destruct q as [|? q];
        [injection E as <- _; discriminate Hb | injection E as _ E]).
  destruct q; discriminate E.
Qed.

Lemma SELECT_outside c :
  JS.is_whitespace c = true \/ c = ";" -> outside "SELECT" c.
Proof.
  intros H.
  assert (Hin : In c (";" :: map JS.utf8 JS.white_space)).
  { destruct H as [H | ->]; [right; apply whitespace_is_listed, H | left; reflexivity]. }
  clear H. revert c Hin. apply Forall_forall.
  unfold JS.white_space. cbn [map].
  repeat (apply Forall_cons;
          [split; [vm_compute; reflexivity|];
           eexists _, _; split; [vm_compute; reflexivity|];
           apply not_in_SELECT; reflexivity|]).
  apply Forall_nil.
Qed.

(** A query whose upper-cased text starts with SELECT passes the
    executor's test: trimming removes nothing in front of it. *)
Lemma starts_with_SELECT_is_select q :
  String.prefix "SELECT" (JS.toUpperCase q) = true -> is_select q = true.
Proof.
  intros H. unfold is_select, JS.startsWith, JS.trim.
  assert (Hs : JS.trimStart q = q).
  { unfold JS.trimStart. rewrite <- (text_code_points q) at 2.
    unfold JS.toUpperCase in H.
    destruct (JS.code_points q) as [|c l]; [reflexivity|].
    cbn [JS.drop_while]. destruct (JS.is_whitespace c) eqn:Ew; [|reflexivity].
    exfalso. pose proof (SELECT_outside c (or_introl Ew)) as Ho.
    cbn [map JS.text] in H. rewrite (proj1 Ho) in H.
    rewrite (outside_first "SELECT" c _ ltac:(discriminate) Ho) in H.
    discriminate H. }
  rewrite Hs. apply trimEnd_keeps_prefix; [|exact H].
  intros c Hc. apply SELECT_outside. left. exact Hc.
Qed.

Lemma sent_query_is_select s : is_select s = true -> is_select (sent_query s) = true.
Proof.
  intros H. apply starts_with_SELECT_is_select. unfold sent_query.
  assert (Hq : String.prefix "SELECT"
                 (JS.toUpperCase (JS.stripTrailingSemicolons (JS.trim s))) = true).
  { apply stripTrailingSemicolons_keeps_prefix; [|exact H].
    apply SELECT_outside. right. reflexivity. }
  destruct (negb (JS.includes (JS.toUpperCase (JS.stripTrailingSemicolons (JS.trim s)))
                    "LIMIT")
            && negb (SQLExecutionAgent.isAggregateQuery
                       (JS.stripTrailingSemicolons (JS.trim s)))); [|exact Hq].
  cbn [append]. rewrite toUpperCase_app by reflexivity. apply prefix_app. exact Hq.
Qed.

Lemma sent_query_is_bounded s :
  JS.includes (JS.toUpperCase (sent_query s)) "LIMIT" = true
  \/ SQLExecutionAgent.isAggregateQuery (sent_query s) = true.
Proof.
  unfold sent_query.
  destruct (JS.includes (JS.toUpperCase (JS.stripTrailingSemicolons (JS.trim s))) "LIMIT")
    eqn:El; cbn [negb andb]; [left; exact El|].
  destruct (SQLExecutionAgent.isAggregateQuery (JS.stripTrailingSemicolons (JS.trim s)))
    eqn:Ea; cbn [negb]; [right; exact Ea|].
  left. cbn [append]. rewrite toUpperCase_app by reflexivity.
  apply includes_app_right. vm_compute. reflexivity.
Qed.

(** White space and letters outside ASCII count as they do in the code: a
    query led by a no-break space, or spelt with a long s, is a SELECT
    statement, is sent, and passes the guard of the database service. *)
Example text_outside_ASCII :
  let nbsp := JS.utf8 0xA0%N in
  let long_s := JS.utf8 0x17F%N in
  is_select (nbsp ++ "SELECT id FROM orders") = true
  /\ sent_query (nbsp ++ "SELECT id FROM orders") = "SELECT id FROM orders LIMIT 1000"
  /\ JS.toUpperCase (long_s ++ "elect 1") = "SELECT 1"
  /\ is_select (long_s ++ "elect 1") = true
  /\ sent_query (long_s ++ "elect 1") = long_s ++ "elect 1 LIMIT 1000"
  /\ passes_read_only_guard (long_s ++ "elect 1 LIMIT 1000") = true.
Proof. vm_compute. repeat split. Qed.

(** The regular expressions of the aggregate test ignore case without the
    flag [u] and do not take a long s for an S, whereas [toUpperCase] turns a
    dotless i into an I: the first query gets a row limit, the second is
    taken to have one. *)
Example case_outside_ASCII :
  let long_s := JS.utf8 0x17F%N in
  let dotless_i := JS.utf8 0x131%N in
  SQLExecutionAgent.isAggregateQuery ("select " ++ long_s ++ "um(x) from t") = false
  /\ sent_query ("select " ++ long_s ++ "um(x) from t")
     = "select " ++ long_s ++ "um(x) from t LIMIT 1000"
  /\ sent_query ("select 1 l" ++ dotless_i ++ "mit 5")
     = "select 1 l" ++ dotless_i ++ "mit 5".
Proof. vm_compute. repeat split. Qed.

(** X1. [executeSQL] never throws. What it returns has one of two shapes:
    with [success], the rows, their number and the columns of the first
    row, and no error; without, no rows, a row count of 0, no columns, and
    as error one of the three refusal reasons, the message the database
    rejected the query with, or the timeout message when the database was
    still pending. The execution time is the clock difference between the
    worlds before and after. *)
Theorem executeSQL_always_answers db input w :
  exists r w',
    SQLExecutionAgent.executeSQL db input w = (Ok r, w')
    /\ SQLExecution.executionTime r = now db w' - now db w
    /\ if SQLExecution.success r
       then
         refuses input = false /\ SQLExecution.error r = None
         /\ exists rows,
              SQLExecution.data r = Some rows
              /\ SQLExecution.rowCount r = Z.of_nat (length rows)
              /\ SQLExecution.columnInfo r = SQLExecutionAgent.extractColumnInfo rows
       else
         SQLExecution.data r = None /\ SQLExecution.rowCount r = 0
         /\ SQLExecution.columnInfo r = []
         /\ exists m,
              SQLExecution.error r = Some m
              /\ ((refuses input = true /\ In m refusal_reasons)
                  \/ (refuses input = false
                      /\ executeReadOnlyQuery db w
                           (sent_query (SQLExecution.sqlQuery input)) = Rejected m)
                  \/ (refuses input = false
                      /\ executeReadOnlyQuery db w
                           (sent_query (SQLExecution.sqlQuery input)) = Pending
                      /\ m = "Query execution timed out after 30000ms")).
Proof.
  rewrite executeSQL_cases. cbv zeta. unfold refuses, refusal_reasons.
  destruct (negb (SQLExecution.isValidated input)) eqn:E1.
  { do 2 eexists. split; [reflexivity|]. cbn. split; [lia|].
    repeat split. eexists. split; [reflexivity|]. left. split; auto. }
  destruct (RiskLevel_eqb (SQLExecution.riskLevel input) HIGH) eqn:E2.
  { do 2 eexists. split; [reflexivity|]. cbn. split; [lia|].
    repeat split. eexists. split; [reflexivity|]. left. split; auto. }
  destruct (negb (is_select (SQLExecution.sqlQuery input))) eqn:E3.
  { do 2 eexists. split; [reflexivity|]. cbn. split; [lia|].
    repeat split. eexists. split; [reflexivity|]. left. split; auto. }
  destruct (executeReadOnlyQuery db w (sent_query (SQLExecution.sqlQuery input)))
    as [result|m|] eqn:Eq.
  - do 2 eexists. split; [reflexivity|]. cbn. repeat split. eexists. repeat split.
  - do 2 eexists. split; [reflexivity|]. cbn. repeat split.
    eexists. split; [reflexivity|]. right. left. split; reflexivity.
  - do 2 eexists. split; [reflexivity|]. cbn. repeat split.
    eexists. split; [reflexivity|]. right. right. repeat split.
Qed.

(** X2. [executeSQL] asks the database at most once: nothing when it
    refuses, and otherwise one query, which still starts with SELECT and
    either contains LIMIT or is an aggregate query. *)
Theorem executeSQL_sends_one_bounded_select db input w :
  world_after (SQLExecutionAgent.executeSQL db input w)
  = (if refuses input then w
     else w ++ [Queried (sent_query (SQLExecution.sqlQuery input))])%list
  /\ (refuses input = false ->
      is_select (sent_query (SQLExecution.sqlQuery input)) = true
      /\ (JS.includes (JS.toUpperCase (sent_query (SQLExecution.sqlQuery input)))
            "LIMIT" = true
          \/ SQLExecutionAgent.isAggregateQuery
               (sent_query (SQLExecution.sqlQuery input)) = true)).
Proof.
  split.
  - rewrite executeSQL_cases. cbv zeta. unfold refuses.
    destruct (negb (SQLExecution.isValidated input)); [reflexivity|].
    destruct (RiskLevel_eqb (SQLExecution.riskLevel input) HIGH); [reflexivity|].
    destruct (negb (is_select (SQLExecution.sqlQuery input))); [reflexivity|].
    destruct (executeReadOnlyQuery db w (sent_query (SQLExecution.sqlQuery input)))
      as [result|m|]; reflexivity.
  - unfold refuses. intros H.
    apply orb_false_iff in H. destruct H as [_ H]. apply negb_false_iff in H.
    split; [apply sent_query_is_select, H | apply sent_query_is_bounded].
Qed.

Lemma test_at_word_start_mono (h1 h2 : string -> bool) :
  (forall s, h1 s = true -> h2 s = true) ->
  forall s b, SQLExecutionAgent.test_at_word_start h1 b s = true ->
              SQLExecutionAgent.test_at_word_start h2 b s = true.
Proof.
  intros Hh. induction s as [|c s IH]; intros b; cbn [SQLExecutionAgent.test_at_word_start].
  - rewrite !orb_false_r. destruct b; cbn; auto.
  - intros H. apply orb_true_iff in H. apply orb_true_iff. destruct H as [H|H].
    + left. destruct b; cbn in *; auto.
    + right. apply IH, H.
Qed.

Lemma count_star_is_aggregate_call s :
  SQLExecutionAgent.count_star_here s = true ->
  SQLExecutionAgent.aggregate_call_here s = true.
Proof.
  unfold SQLExecutionAgent.count_star_here, SQLExecutionAgent.aggregate_call_here.
  cbn [existsb].
  destruct (SQLExecutionAgent.after_literal "COUNT" s) as [r1|]; [|discriminate].
  unfold SQLExecutionAgent.opens_call, JS.startsWith.
  unfold SQLExecutionAgent.after_literal at 1.
  destruct (String.prefix "(" (JS.trimStart r1)); [reflexivity | discriminate].
Qed.

(** X3. The second test of [isAggregateQuery], for [COUNT( * )], adds
    nothing: a query is an aggregate query exactly when an aggregate call
    ([COUNT], [SUM], [AVG], [MAX], [MIN] or [GROUP BY] followed by an
    opening parenthesis) starts at a word boundary. *)
Theorem isAggregateQuery_is_the_first_test q :
  SQLExecutionAgent.isAggregateQuery q
  = SQLExecutionAgent.test_at_word_start SQLExecutionAgent.aggregate_call_here false
      (JS.ignore_case q).
Proof.
  unfold SQLExecutionAgent.isAggregateQuery. cbv zeta.
  destruct (SQLExecutionAgent.test_at_word_start SQLExecutionAgent.count_star_here
              false (JS.ignore_case q)) eqn:E.
  - rewrite (test_at_word_start_mono _ _ count_star_is_aggregate_call _ _ E). reflexivity.
  - apply orb_false_r.
Qed.

(* ================================================================== *)
(** ** The database service *)

(** X4. [executeReadOnlyQuery] rejects a query that starts with neither
    SELECT nor EXPLAIN with its own message, whatever the driver would do;
    otherwise a driver error comes back behind both prefixes, and a result
    is always an array. *)
Theorem executeReadOnlyQuery_outcomes ty conn w sql :
  match Database.executeReadOnlyQuery ty conn w sql with
  | Resolved r => passes_read_only_guard sql = true /\ exists rows, r = RowArray rows
  | Rejected m =>
      (passes_read_only_guard sql = false
       /\ m = "Only SELECT and EXPLAIN queries are allowed for safety"
       /\ forall conn', Database.executeReadOnlyQuery ty conn' w sql = Rejected m)
      \/ (passes_read_only_guard sql = true
          /\ exists m0,
               m = "SQL execution failed: Query execution failed: " ++ m0
               /\ Database.executeQuery ty conn w sql []
                  = Rejected ("Query execution failed: " ++ m0))
  | Pending => passes_read_only_guard sql = true
  end.
Proof.
  unfold Database.executeReadOnlyQuery, passes_read_only_guard. cbv zeta.
  destruct (negb (JS.startsWith (JS.toUpperCase (JS.trim sql)) "SELECT")
            && negb (JS.startsWith (JS.toUpperCase (JS.trim sql)) "EXPLAIN")) eqn:E.
  - left. apply andb_true_iff in E. destruct E as [E1 E2].
    apply negb_true_iff in E1, E2. rewrite E1, E2. repeat split.
  - assert (Hg : JS.startsWith (JS.toUpperCase (JS.trim sql)) "SELECT"
                 || JS.startsWith (JS.toUpperCase (JS.trim sql)) "EXPLAIN" = true).
    { destruct (JS.startsWith (JS.toUpperCase (JS.trim sql)) "SELECT"); [reflexivity|].
      destruct (JS.startsWith (JS.toUpperCase (JS.trim sql)) "EXPLAIN");
        [reflexivity | discriminate]. }
    unfold Database.executeQuery.
    destruct (match ty with
              | Database.postgresql => Database.pg_query conn w sql []
              | Database.mysql => Database.mysql_execute conn w sql []
              | Database.sqlite => Database.sqlite_all conn w sql []
              end) as [r|m|];
      [split; eauto
      | right; split; [exact Hg|]; exists m; split; reflexivity
      | exact Hg].
Qed.

Lemma is_select_passes_guard sql :
  is_select sql = true -> passes_read_only_guard sql = true.
Proof. unfold is_select, passes_read_only_guard. intros ->. reflexivity. Qed.

(** X5. With the executor on the repository's database service, the
    service's own guard never rejects what the executor sends, and a failed
    execution reports one of the three refusal reasons, the timeout, or a
    driver error behind the two prefixes of the service. *)
Theorem executor_on_database_failures ty conn clock input w r w' :
  SQLExecutionAgent.executeSQL (Database.service ty conn clock) input w = (Ok r, w') ->
  SQLExecution.success r = false ->
  exists m,
    SQLExecution.error r = Some m
    /\ m <> "Only SELECT and EXPLAIN queries are allowed for safety"
    /\ (In m refusal_reasons
        \/ m = "Query execution timed out after 30000ms"
        \/ exists m0, m = "SQL execution failed: Query execution failed: " ++ m0).
Proof.
  intros Hex Hfail. rewrite executeSQL_cases in Hex. cbv zeta in Hex.
  destruct (negb (SQLExecution.isValidated input));
    [injection Hex as <- _; eexists; split; [reflexivity|]; split;
       [discriminate | left; cbn; auto]|].
  destruct (RiskLevel_eqb (SQLExecution.riskLevel input) HIGH);
    [injection Hex as <- _; eexists; split; [reflexivity|]; split;
       [discriminate | left; cbn; auto]|].
  destruct (negb (is_select (SQLExecution.sqlQuery input))) eqn:Hsel;
    [injection Hex as <- _; eexists; split; [reflexivity|]; split;
       [discriminate | left; cbn; auto]|].
  apply negb_false_iff in Hsel.
  pose proof (is_select_passes_guard _ (sent_query_is_select _ Hsel)) as Hguard.
  unfold passes_read_only_guard in Hguard.
  cbn [Database.service executeReadOnlyQuery] in Hex.
  unfold Database.executeReadOnlyQuery in Hex. cbv zeta in Hex.
  destruct (JS.startsWith
              (JS.toUpperCase (JS.trim (sent_query (SQLExecution.sqlQuery input))))
              "SELECT");
    [|destruct (JS.startsWith
                  (JS.toUpperCase (JS.trim (sent_query (SQLExecution.sqlQuery input))))
                  "EXPLAIN"); [|discriminate Hguard]].
  all: cbn [negb andb] in Hex; unfold Database.executeQuery in Hex;
    destruct (match ty with
              | Database.postgresql => _
              | Database.mysql => _
              | Database.sqlite => _
              end) as [res|m|];
    injection Hex as <- _; try discriminate Hfail;
    eexists; (split; [reflexivity|]); (split; [discriminate|]);
    [right; right; exists m; reflexivity | right; left; reflexivity].
Qed.

(* ================================================================== *)
(** ** The agents that call the model *)

(** X6. [validateSQL] never throws, and a failure becomes a verdict on
    which the executor refuses: when the syntax check throws, the model is
    not consulted and the verdict is invalid, high-risk, with the issue
    [Syntax error: <message>]; when the model throws, the verdict is
    invalid, high-risk, with the issue [Validation failed: <message>];
    otherwise the verdict is the model's. *)
Theorem validateSQL_turns_failures_into_refusals explain validation_invoke input w :
  exists v w',
    SQLValidationAgent.validateSQL explain validation_invoke input w = (Ok v, w')
    /\ match explain (SQLValidation.sqlQuery input) w with
       | (Throw m, w1) =>
           w' = w1 /\ refusing v /\ SQLValidation.shouldExecute v = false
           /\ SQLValidation.isValid v = false /\ SQLValidation.riskLevel v = HIGH
           /\ SQLValidation.issues v = ["Syntax error: " ++ m]
       | (Ok _, w1) =>
           match validation_invoke input w1 with
           | (Ok v0, w2) => v = v0 /\ w' = w2
           | (Throw m, w2) =>
               w' = w2 /\ refusing v /\ SQLValidation.shouldExecute v = false
               /\ SQLValidation.isValid v = false /\ SQLValidation.riskLevel v = HIGH
               /\ SQLValidation.issues v = ["Validation failed: " ++ m]
           end
       end.
Proof.
  unfold SQLValidationAgent.validateSQL, SQLValidationAgent.validateSyntax,
    SQLValidationAgent.performSemanticValidation, bind, try_catch, ret, refusing.
  destruct (explain (SQLValidation.sqlQuery input) w) as [[[]|m] w1]; cbn.
  - destruct (validation_invoke input w1) as [[v0|m] w2];
      do 2 eexists; (split; [reflexivity|]); cbn; auto 10.
  - do 2 eexists. split; [reflexivity|]. cbn. auto 10.
Qed.

(** X7. [convertNLToSQL] returns only SELECT statements: what it returns
    is the model's answer, whose trimmed, upper-cased query starts with
    SELECT. Everything else is thrown behind the prefix
    [NL to SQL conversion failed: ], the agent's own rejection of another
    statement included. *)
Theorem convertNLToSQL_returns_only_select structuredLlm_invoke input w :
  match structuredLlm_invoke input w,
        NLToSQLAgent.convertNLToSQL structuredLlm_invoke input w with
  | (Ok answer, w1), (Ok out, w') =>
      out = answer /\ w' = w1 /\ is_select (NLToSQL.sqlQuery out) = true
  | (Ok answer, w1), (Throw m, w') =>
      w' = w1 /\ is_select (NLToSQL.sqlQuery answer) = false
      /\ m = "NL to SQL conversion failed: Generated query is not a SELECT statement"
  | (Throw m0, w1), (Throw m, w') =>
      w' = w1 /\ m = "NL to SQL conversion failed: " ++ m0
  | (Throw _, _), (Ok _, _) => False
  end.
Proof.
  unfold NLToSQLAgent.convertNLToSQL, bind, try_catch, throw, ret, is_select.
  destruct (structuredLlm_invoke input w) as [[answer|m0] w1]; [|auto].
  destruct (JS.startsWith (JS.toUpperCase (JS.trim (NLToSQL.sqlQuery answer))) "SELECT")
    eqn:E; cbn; rewrite ?E; repeat split.
Qed.

Lemma translation_agent_returns llm input w out w' :
  NLToSQLAgent.convertNLToSQL llm input w = (Ok out, w') ->
  is_select (NLToSQL.sqlQuery out) = true.
Proof.
  unfold NLToSQLAgent.convertNLToSQL, bind, try_catch, throw, ret, is_select.
  destruct (llm input w) as [[answer|m0] w1]; [|discriminate].
  destruct (JS.startsWith (JS.toUpperCase (JS.trim (NLToSQL.sqlQuery answer))) "SELECT")
    eqn:E; cbn; [|discriminate].
  intros [= <- _]. exact E.
Qed.

Lemma translation_agent_throws llm input w m w' :
  NLToSQLAgent.convertNLToSQL llm input w = (Throw m, w') ->
  exists m0, m = "NL to SQL conversion failed: " ++ m0.
Proof.
  unfold NLToSQLAgent.convertNLToSQL, bind, try_catch, throw, ret.
  destruct (llm input w) as [[answer|m0] w1].
  - destruct (JS.startsWith (JS.toUpperCase (JS.trim (NLToSQL.sqlQuery answer))) "SELECT");
      cbn; [discriminate|]. intros [= <- _].
    exists "Generated query is not a SELECT statement". reflexivity.
  - intros [= <- _]. exists m0. reflexivity.
Qed.

(** X8. Translate, wired to the repository's translator, stores a query
    only if it is a SELECT statement, and the error it stores for a failed
    translation carries the prefix twice, the workflow's and the agent's
    (unless the message is one the gateway threw). *)
Theorem translate_with_the_agent deps llm st w upd w' :
  convertNLToSQL (with_translation_agent deps llm) st w = (Ok upd, w') ->
  (forall q, In (set_sqlQuery q) upd -> is_select q = true)
  /\ (forall e,
         In (set_error (Some e)) upd ->
         e = "Database schema not available"
         \/ (exists m,
               e = "NL to SQL conversion failed: NL to SQL conversion failed: " ++ m)
         \/ (exists m,
               e = "NL to SQL conversion failed: " ++ m
               /\ gateway_threw (with_translation_agent deps llm) (sessionId st) m)).
Proof.
  set (D := with_translation_agent deps llm).
  unfold convertNLToSQL. run_node D.
  all: intros Heq; apply pair_equal_spec in Heq; destruct Heq as [Hu _];
    try discriminate Hu; injection Hu as <-.
  all: split; [intros q Hin | intros e Hin]; cbn in Hin;
    repeat match goal with H : _ \/ _ |- _ => destruct H as [H|H] end;
    try discriminate; try contradiction.
  all: try (injection Hin as <-).
  all: try match goal with
           | H : nlToSqlAgent_convertNLToSQL _ _ _ = (Ok _, _) |- _ =>
               exact (translation_agent_returns _ _ _ _ _ H)
           end.
  all: try (left; reflexivity).
  all: try match goal with
           | H : nlToSqlAgent_convertNLToSQL _ _ _ = (Throw _, _) |- _ =>
               destruct (translation_agent_throws _ _ _ _ _ H) as [m0 ->];
               right; left; exists m0; reflexivity
           end.
  all: right; right; eexists; split; [reflexivity|]; split; eauto.
Qed.

(* ================================================================== *)
(** ** More about runs *)

(** Every visit of a run but the first follows a visit that returned: its
    state is that visit's state merged with what it returned, and its node
    is the successor the merged state leads to. *)
Lemma Runs_predecessor deps n st w r tr w' :
  Runs deps n st w r tr w' ->
  forall v, In v tr ->
    (visited v = n /\ given v = st)
    \/ exists p upd,
         In p tr /\ returned p = Ok upd /\ given v = merge (given p) upd
         /\ successor (visited p) (given v) = Some (visited v).
Proof.
  intros HR.
  induction HR as [n st w m w' Hf | n st w upd w' Hf Hs
                  | n st w upd w' n' r tr w'' Hf Hs HR IH];
    intros v Hin.
  - destruct Hin as [<- | []]. left. split; reflexivity.
  - destruct Hin as [<- | []]. left. split; reflexivity.
  - destruct Hin as [<- | Hin]; [left; split; reflexivity|].
    right. destruct (IH v Hin) as [[Hv Hg] | (p & u & Hp & Hr & Hg & Hsucc)].
    + exists (visit n st (Ok upd)), upd. rewrite Hv, Hg.
      split; [left; reflexivity|]. repeat split; auto.
    + exists p, u. split; [right; exact Hp|]. auto.
Qed.

(** Only Validate leads to Experiment, and only with a verdict. *)
Lemma experiment_follows_a_verdict deps p w1 upd w2 st :
  node_function deps (visited p) (given p) w1 = (Ok upd, w2) ->
  st = merge (given p) upd ->
  successor (visited p) st = Some experiment_alternatives ->
  visited p = validate_sql
  /\ exists val, upd = [set_validationResult val]
                 /\ validationResult st = Some val
                 /\ sqlQuery st = sqlQuery (given p).
Proof.
  intros Hf -> Hs.
  destruct (visited p) eqn:Hv; cbn [successor] in Hs; try discriminate.
  - destruct (JS.truthy_string (error (merge (given p) upd))); discriminate.
  - split; [reflexivity|].
    node_cases deps Hf.
    destruct Hf as [(val & ->) | [-> | (m & ->)]].
    + exists val. split; [reflexivity|]. destruct (given p); split; reflexivity.
    + exfalso. destruct (given p); cbn in Hs. discriminate.
    + exfalso. destruct (given p); cbn in Hs. discriminate.
  - unfold route_after_execute in Hs.
    repeat match type of Hs with
           | context [if ?b then _ else _] => destruct b
           | context [match ?b with _ => _ end] => destruct b
           end; discriminate.
Qed.

(** X9. A query that Experiment puts in place of the translated one is
    never validated: Validate runs once, on the query Experiment was given,
    and Execute hands the replacement to the executor with the verdict
    Validate gave for that other query. *)
Theorem replacement_query_is_not_validated deps q sid w v upd q' :
  In v (graph_visits deps q sid w) ->
  visited v = experiment_alternatives ->
  returned v = Ok upd ->
  In (set_sqlQuery q') upd ->
  exists vv val ve,
    In vv (graph_visits deps q sid w) /\ visited vv = validate_sql
    /\ returned vv = Ok [set_validationResult val]
    /\ sqlQuery (given vv) = sqlQuery (given v)
    /\ (occurrences validate_sql (graph_visits deps q sid w) <= 1)%nat
    /\ In ve (graph_visits deps q sid w) /\ visited ve = execute_sql
    /\ sqlQuery (given ve) = Some q'
    /\ validationResult (given ve) = Some val
    /\ forall r, returned ve = Ok [set_executionResult r] ->
                 exists w1 w2,
                   sqlExecutionAgent_executeSQL deps (execution_input q' val) w1
                   = (Ok r, w2).
Proof.
  intros Hin Hv Hret Hq.
  pose proof (graph_run_Runs deps q sid w) as HR.
  pose proof (Runs_genuine _ _ _ _ _ _ _ HR) as Hg. rewrite Forall_forall in Hg.
  destruct (Runs_predecessor _ _ _ _ _ _ _ HR v Hin)
    as [[Hv0 _] | (p & updp & Hp & Hrp & Hgv & Hsucc)].
  { rewrite Hv in Hv0. discriminate. }
  rewrite Hv in Hsucc.
  destruct (Hg p Hp) as (w1 & w2 & Hfp). rewrite Hrp in Hfp.
  destruct (experiment_follows_a_verdict _ _ _ _ _ _ Hfp Hgv Hsucc)
    as (Hpv & val & -> & Hval & Hsql).
  destruct (Runs_experiment_then_execute _ _ _ _ _ _ _ HR v upd Hin Hv Hret)
    as (ve & Hve & Hvev & Hgve).
  destruct (Hg v Hin) as (w3 & w4 & Hfv). rewrite Hv, Hret in Hfv.
  node_cases deps Hfv.
  assert (Hupd : sqlQuery (given ve) = Some q'
                 /\ validationResult (given ve) = Some val).
  { rewrite Hgve.
    destruct Hfv as [-> | [(alts & ->) | (first & others & _ & ->)]].
    - destruct Hq.
    - destruct Hq as [Hq | []]. discriminate Hq.
    - cbn in Hq.
      destruct Hq as [Hq | [Hq | [Hq | [Hq | []]]]]; try discriminate Hq.
      injection Hq as <-. rewrite <- Hval.
      destruct (given v); split; reflexivity. }
  destruct Hupd as [Hsq Hvr].
  exists p, val, ve.
  split; [exact Hp|]. split; [exact Hpv|]. split; [exact Hrp|].
  split; [symmetry; exact Hsql|].
  split; [eapply Runs_occurs_once, HR|].
  split; [exact Hve|]. split; [exact Hvev|]. split; [exact Hsq|]. split; [exact Hvr|].
  intros r Hr.
  destruct (Hg ve Hve) as (w5 & w6 & Hfe). rewrite Hvev, Hr in Hfe.
  node_cases deps Hfe.
  destruct Hfe as [(sql & v0 & r0 & w7 & w8 & Hs1 & Hs2 & Hex & [= <-]) | [[=] | (m & [=])]].
  rewrite Hsq in Hs1. injection Hs1 as <-. rewrite Hvr in Hs2. injection Hs2 as <-.
  eauto.
Qed.

Lemma paths_from_start n : exists rest, In (n :: rest) (paths_from n).
Proof. destruct n; eexists; left; reflexivity. Qed.

Lemma paths_from_successor n st n' p :
  successor n st = Some n' -> In p (paths_from n') -> In (n :: p) (paths_from n).
Proof.
  destruct n; cbn [successor]; intros Hs; try discriminate; injection Hs as <-.
  all: unfold route_after_validate, route_after_execute.
  all: repeat match goal with
              | |- context [if ?b then _ else _] => destruct b
              | |- context [match validationResult ?s with _ => _ end] =>
                  destruct (validationResult s)
              | |- context [match executionResult ?s with _ => _ end] =>
                  destruct (executionResult s)
              end.
  all: cbn; intros H;
    repeat match goal with H : _ \/ _ |- _ => destruct H as [H|H] end;
    try contradiction; subst p; auto 12.
Qed.

Lemma Runs_follow_a_path deps n st w r tr w' :
  Runs deps n st w r tr w' ->
  exists p rest,
    In p (paths_from n) /\ p = (map visited tr ++ rest)%list
    /\ (forall st', r = Ok st' -> rest = []).
Proof.
  intros HR.
  induction HR as [n st w m w' Hf | n st w upd w' Hf Hs
                  | n st w upd w' n' r tr w'' Hf Hs HR IH].
  - destruct (paths_from_start n) as [rest Hin].
    exists (n :: rest), rest. split; [exact Hin|]. split; [reflexivity|]. discriminate.
  - exists [n], []. split; [|split; [reflexivity | reflexivity]].
    destruct (successor_None _ _ Hs) as [-> | ->]; left; reflexivity.
  - destruct IH as (p & rest & Hin & -> & Hrest).
    exists (n :: map visited tr ++ rest)%list, rest.
    split; [eapply paths_from_successor; eauto|]. split; [reflexivity | exact Hrest].
Qed.

(** X10. The stages a run visits follow one of the six paths of the graph
    from the schema loader: the visits are a path from its start on, and
    the whole path when the graph returns a state. *)
Theorem run_follows_a_path deps q sid w :
  exists p rest,
    In p (paths_from load_schema)
    /\ p = (map visited (graph_visits deps q sid w) ++ rest)%list
    /\ (forall st, graph_result deps q sid w = Ok st -> rest = []).
Proof.
  destruct (Runs_follow_a_path _ _ _ _ _ _ _ (graph_run_Runs deps q sid w))
    as (p & rest & Hin & Hp & Hrest).
  exists p, rest. repeat split; auto.
Qed.

(** *** The stages when their collaborators answer *)

Lemma loadSchema_returns deps st w sch :
  notifications_harmless deps (sessionId st) ->
  (forall w0, outcome (databaseService_getSchemaInfo deps w0) = Ok sch) ->
  exists w', loadSchema deps st w = (Ok [set_schema sch], w').
Proof.
  intros Hh Hs. unfold loadSchema. run_node deps; try use_always;
    try solve [eexists; reflexivity]; try contradict_harmless Hh.
Qed.

Lemma convertNLToSQL_returns deps st w sch out :
  notifications_harmless deps (sessionId st) ->
  schema st = Some sch ->
  always_returns (nlToSqlAgent_convertNLToSQL deps)
    {| NLToSQL.naturalLanguageQuery := originalQuestion st; NLToSQL.schema := sch |}
    out ->
  exists w',
    convertNLToSQL deps st w
    = (Ok [set_sqlQuery (NLToSQL.sqlQuery out);
           set_queryExplanation (NLToSQL.explanation out);
           set_sqlConfidence (NLToSQL.confidence out)], w').
Proof.
  intros Hh Hs Ha. unfold convertNLToSQL. rewrite Hs.
  run_node deps; try use_always;
    try solve [eexists; reflexivity]; try contradict_harmless Hh.
Qed.

Lemma validateSQL_returns deps st w sql sch val :
  notifications_harmless deps (sessionId st) ->
  sqlQuery st = Some sql -> sql <> "" -> schema st = Some sch ->
  always_returns (sqlValidationAgent_validateSQL deps) (validation_input st sql sch)
    val ->
  exists w', validateSQL deps st w = (Ok [set_validationResult val], w').
Proof.
  intros Hh Hq Hne Hs Ha. unfold validateSQL. rewrite Hq, Hs.
  destruct sql; [congruence|]. unfold validation_input in Ha.
  run_node deps; try use_always;
    try solve [eexists; reflexivity]; try contradict_harmless Hh.
Qed.

Lemma executeSQL_returns deps st w sql val r :
  notifications_harmless deps (sessionId st) ->
  sqlQuery st = Some sql -> sql <> "" -> validationResult st = Some val ->
  always_returns (sqlExecutionAgent_executeSQL deps) (execution_input sql val) r ->
  exists w', executeSQL deps st w = (Ok [set_executionResult r], w').
Proof.
  intros Hh Hq Hne Hv Ha. unfold executeSQL. rewrite Hq, Hv.
  destruct sql; [congruence|]. unfold execution_input in Ha.
  run_node deps; try use_always;
    try solve [eexists; reflexivity]; try contradict_harmless Hh.
Qed.

Lemma interpretResults_returns deps st w sql r f :
  notifications_harmless deps (sessionId st) ->
  executionResult st = Some r -> sqlQuery st = Some sql -> sql <> "" ->
  always_returns (resultInterpretationAgent_interpretResults deps)
    {| ResultInterpretation.originalQuestion := originalQuestion st;
       ResultInterpretation.sqlQuery := sql;
       ResultInterpretation.queryResults :=
         match SQLExecution.data r with
         | Some rows => rows
         | None => []
         end |} f ->
  exists w', interpretResults deps st w = (Ok [set_finalResponse f], w').
Proof.
  intros Hh Hr Hq Hne Ha. unfold interpretResults. rewrite Hr, Hq.
  destruct sql; [congruence|].
  run_node deps; try use_always;
    try solve [eexists; reflexivity]; try contradict_harmless Hh.
Qed.

Lemma Runs_deterministic deps n st w r1 tr1 w1 :
  Runs deps n st w r1 tr1 w1 ->
  forall r2 tr2 w2, Runs deps n st w r2 tr2 w2 -> r1 = r2 /\ tr1 = tr2 /\ w1 = w2.
Proof.
  intros HR.
  induction HR as [n st w m w' Hf | n st w upd w' Hf Hs
                  | n st w upd w' n' r tr w'' Hf Hs HR IH];
    intros r2 tr2 w2 H2; inversion H2; subst;
    match goal with
    | H : node_function _ _ _ _ = _ |- _ => rewrite Hf in H; inversion H; subst
    end; try congruence; auto.
  match goal with
  | H : successor n _ = Some _ |- _ => rewrite Hs in H; injection H as <-
  end.
  match goal with
  | H : Runs _ _ _ _ _ _ _ |- _ => destruct (IH _ _ _ H) as (-> & -> & ->)
  end.
  auto.
Qed.

(** X11. The run in which every stage succeeds. When no notification
    throws, the schema loads, the translator answers with a non-empty query
    of confidence 0 or at least 70, the validator accepts it, the executor
    succeeds and the interpreter answers, then the run visits the five
    stages in order and returns the state that holds the translation, the
    verdict, the execution result and the interpreter's answer, with no
    error and [retryCount] 0. *)
Theorem run_succeeds deps q sid w sch out val r f :
  notifications_harmless deps sid ->
  (forall w0, outcome (databaseService_getSchemaInfo deps w0) = Ok sch) ->
  always_returns (nlToSqlAgent_convertNLToSQL deps)
    {| NLToSQL.naturalLanguageQuery := q; NLToSQL.schema := sch |} out ->
  NLToSQL.sqlQuery out <> "" ->
  NLToSQL.confidence out = 0 \/ 70 <= NLToSQL.confidence out ->
  always_returns (sqlValidationAgent_validateSQL deps)
    {| SQLValidation.sqlQuery := NLToSQL.sqlQuery out;
       SQLValidation.originalQuestion := q;
       SQLValidation.schema := sch;
       SQLValidation.explanation := NLToSQL.explanation out |} val ->
  SQLValidation.isValid val = true ->
  SQLValidation.shouldExecute val = true ->
  always_returns (sqlExecutionAgent_executeSQL deps)
    (execution_input (NLToSQL.sqlQuery out) val) r ->
  SQLExecution.success r = true ->
  always_returns (resultInterpretationAgent_interpretResults deps)
    {| ResultInterpretation.originalQuestion := q;
       ResultInterpretation.sqlQuery := NLToSQL.sqlQuery out;
       ResultInterpretation.queryResults :=
         match SQLExecution.data r with
         | Some rows => rows
         | None => []
         end |} f ->
  exists st w',
    processQuery deps q sid w = (Ok st, w')
    /\ map visited (graph_visits deps q sid w)
       = [load_schema; nl_to_sql; validate_sql; execute_sql; interpret_results]
    /\ schema st = Some sch
    /\ sqlQuery st = Some (NLToSQL.sqlQuery out)
    /\ queryExplanation st = Some (NLToSQL.explanation out)
    /\ sqlConfidence st = Some (NLToSQL.confidence out)
    /\ validationResult st = Some val
    /\ alternativeQueries st = None
    /\ executionResult st = Some r
    /\ finalResponse st = Some f
    /\ error st = None
    /\ retryCount st = Some 0.
Proof.
  intros Hh Hsch Htr Hne Hc Hval Hvalid Hshould Hex Hsucc Hint.
  destruct (processQuery_returns_graph_state deps q sid w Hh) as (st & w' & Hp & Hgr).
  exists st, w'. split; [exact Hp|].
  pose proof (graph_run_Runs deps q sid w) as HR. rewrite Hgr in HR.
  pose proof (graph_input_harmless deps (stateWithSession q sid) Hh) as Hh0.
  set (st0 := graph_input deps (stateWithSession q sid)) in *.
  assert (Hst0 : st0 = stateWithSession q (sessionId st0)).
  { subst st0. unfold graph_input.
    destruct (graph_keeps_undeclared_keys deps); reflexivity. }
  set (sid0 := sessionId st0) in *. clearbody sid0. clearbody st0. subst st0.
  unfold stateWithSession in HR. cbn [sessionId] in Hh0.
  set (w0 := entry_world deps sid w) in *. clearbody w0.
  match type of HR with Runs _ _ ?s _ _ _ _ => set (s0 := s) in * end.
  destruct (loadSchema_returns deps s0 w0 sch Hh0 Hsch) as [w1 E1].
  set (s1 := merge s0 [set_schema sch]).
  destruct (convertNLToSQL_returns deps s1 w1 sch out Hh0 eq_refl Htr) as [w2 E2].
  set (s2 := merge s1 [set_sqlQuery (NLToSQL.sqlQuery out);
                       set_queryExplanation (NLToSQL.explanation out);
                       set_sqlConfidence (NLToSQL.confidence out)]).
  destruct (validateSQL_returns deps s2 w2 (NLToSQL.sqlQuery out) sch val
              Hh0 eq_refl Hne eq_refl Hval) as [w3 E3].
  set (s3 := merge s2 [set_validationResult val]).
  destruct (executeSQL_returns deps s3 w3 (NLToSQL.sqlQuery out) val r
              Hh0 eq_refl Hne eq_refl Hex) as [w4 E4].
  set (s4 := merge s3 [set_executionResult r]).
  destruct (interpretResults_returns deps s4 w4 (NLToSQL.sqlQuery out) r f
              Hh0 eq_refl eq_refl Hne Hint) as [w5 E5].
  assert (Hroute : route_after_validate s3 = execute_sql).
  { unfold route_after_validate. cbn. rewrite Hvalid, Hshould. cbn.
    destruct Hc as [-> | Hc]; [reflexivity|].
    replace (NLToSQL.confidence out <? 70) with false
      by (symmetry; apply Z.ltb_ge; exact Hc).
    rewrite andb_false_r. reflexivity. }
  assert (Hroute' : route_after_execute s4 = interpret_results).
  { unfold route_after_execute. cbn. rewrite Hsucc. reflexivity. }
  assert (HR' : Runs deps load_schema s0 w0
                  (Ok (merge s4 [set_finalResponse f]))
                  [visit load_schema s0 (Ok [set_schema sch]);
                   visit nl_to_sql s1
                     (Ok [set_sqlQuery (NLToSQL.sqlQuery out);
                          set_queryExplanation (NLToSQL.explanation out);
                          set_sqlConfidence (NLToSQL.confidence out)]);
                   visit validate_sql s2 (Ok [set_validationResult val]);
                   visit execute_sql s3 (Ok [set_executionResult r]);
                   visit interpret_results s4 (Ok [set_finalResponse f])]
                  w5).
  { eapply Runs_step; [exact E1 | reflexivity |].
    eapply Runs_step; [exact E2 | reflexivity |].
    eapply Runs_step; [exact E3 | cbn [successor]; fold s3; rewrite Hroute; reflexivity |].
    eapply Runs_step; [exact E4 | cbn [successor]; fold s4; rewrite Hroute'; reflexivity |].
    eapply Runs_end; [exact E5 | reflexivity]. }
  destruct (Runs_deterministic _ _ _ _ _ _ _ HR _ _ _ HR') as (Hst & Htr' & _).
  injection Hst as ->. rewrite Htr'.
  repeat split.
Qed.

(* ================================================================== *)
(** ** Runs in which the executor refuses *)

(** The rest of a run from one of its visits is a run, with the same
    end. *)
Lemma Runs_suffix deps n st w r tr w' :
  Runs deps n st w r tr w' ->
  forall v, In v tr ->
    exists w1 rest pre,
      Runs deps (visited v) (given v) w1 r (v :: rest) w'
      /\ tr = (pre ++ v :: rest)%list.
Proof.
  intros HR.
  induction HR as [n st w m w' Hf | n st w upd w' Hf Hs
                  | n st w upd w' n' r tr w'' Hf Hs HR IH];
    intros v Hin.
  - destruct Hin as [<- | []]. exists w, [], []. split; [|reflexivity].
    apply Runs_throw. exact Hf.
  - destruct Hin as [<- | []]. exists w, [], []. split; [|reflexivity].
    apply Runs_end; assumption.
  - destruct Hin as [<- | Hin].
    + exists w, tr, []. split; [|reflexivity]. eapply Runs_step; eauto.
    + destruct (IH v Hin) as (w1 & rest & pre & HR1 & ->).
      exists w1, rest, (visit n st (Ok upd) :: pre). split; [exact HR1 | reflexivity].
Qed.

(** Without a session a node does not throw. *)
Lemma node_returns_without_session deps n st w res w' :
  JS.truthy_string (sessionId st) = false ->
  node_function deps n st w = (res, w') ->
  exists upd, res = Ok upd /\ node_returns deps n st upd.
Proof.
  intros Hs Hf. apply node_function_result in Hf. destruct res as [upd|m].
  - exists upd. split; [reflexivity | exact Hf].
  - destruct Hf as [Ht _]. congruence.
Qed.

(** Execute on a refusing verdict, wired to the repository's executor and
    without a session: the executor refuses, unless the query is missing. *)
Lemma executeSQL_node_refuses deps db st w val :
  JS.truthy_string (sessionId st) = false ->
  validationResult st = Some val -> refusing val ->
  exists upd,
    node_function (with_execution_agent deps db) execute_sql st w = (Ok upd, w)
    /\ (upd = [set_error (Some "SQL query or validation result missing")]
        \/ exists rx reason,
             upd = [set_executionResult rx]
             /\ SQLExecution.success rx = false
             /\ SQLExecution.error rx = Some reason /\ In reason refusal_reasons).
Proof.
  intros Hs Hv Hbad. cbn [node_function]. unfold executeSQL. rewrite Hv.
  assert (Hsess : forall e w0, if_session (sessionId st) e w0 = (Ok tt, w0)).
  { intros e w0. unfold if_session.
    destruct (sessionId st) as [s|]; [|reflexivity]. rewrite Hs. reflexivity. }
  unfold bind at 1. rewrite Hsess.
  destruct (sqlQuery st) as [[|c q]|]; try (eexists; split; [reflexivity | left; reflexivity]).
  assert (Hrefuse : SQLExecution.isValidated (execution_input (String c q) val) = false
                    \/ SQLExecution.riskLevel (execution_input (String c q) val) = HIGH
                    \/ is_select (SQLExecution.sqlQuery (execution_input (String c q) val))
                       = false).
  { destruct Hbad as [Hb | Hb]; [left | right; left]; exact Hb. }
  destruct (executeSQL_refuses db (execution_input (String c q) val) w Hrefuse)
    as (rx & E & Hfail & _ & reason & Hreason & Hin).
  unfold try_catch, bind. cbn [with_execution_agent sqlExecutionAgent_executeSQL].
  unfold execution_input in E. rewrite E. rewrite Hsess. unfold ret.
  eexists. split; [reflexivity|]. right. exists rx, reason. auto.
Qed.

Lemma refused_run_from_execute deps db st w r tr w' val :
  Runs (with_execution_agent deps db) execute_sql st w r tr w' ->
  JS.truthy_string (sessionId st) = false ->
  validationResult st = Some val -> refusing val ->
  JS.truthy_string (error st) = false ->
  retryCount st = Some 0 -> finalResponse st = None ->
  exists st', r = Ok st' /\ refused_end st st'.
Proof.
  intros HR Hs Hv Hbad He Hrc Hfin.
  destruct (executeSQL_node_refuses deps db st w val Hs Hv Hbad) as (upd & Hcall & Hupd).
  inversion HR as [n0 st0 w0 m w1 Hf | n0 st0 w0 upd0 w1 Hf Hsucc
                  | n0 st0 w0 upd0 w1 n' r0 tr0 w2 Hf Hsucc HR']; subst;
    rewrite Hcall in Hf; try discriminate Hf.
  - discriminate Hsucc.
  - injection Hf as <- <-.
    assert (Hn : n' = handle_error /\ retryCount (merge st upd) = Some 0).
    { destruct Hupd as [-> | (rx & reason & -> & Hfail & _)];
        destruct st; cbn in *; subst.
      - injection Hsucc as <-. split; reflexivity.
      - unfold route_after_execute in Hsucc. cbn in Hsucc.
        rewrite He, Hfail in Hsucc. injection Hsucc as <-. split; reflexivity. }
    destruct Hn as [-> Hrc'].
    destruct (handle_error_run _ _ _ _ _ _ HR' Hrc') as [-> _].
    eexists. split; [reflexivity|]. unfold refused_end.
    destruct Hupd as [-> | (rx & reason & -> & Hfail & Hreason & Hin)];
      destruct st; cbn in *; subst.
    + repeat split. right. reflexivity.
    + repeat split. left. split; [reflexivity|]. exists rx, reason. auto.
Qed.

Lemma refused_run_from_validate deps db st w r rest w' val :
  Runs (with_execution_agent deps db) validate_sql st w r
    (visit validate_sql st (Ok [set_validationResult val]) :: rest) w' ->
  JS.truthy_string (sessionId st) = false ->
  refusing val ->
  JS.truthy_string (error st) = false ->
  retryCount st = Some 0 -> finalResponse st = None ->
  exists st', r = Ok st' /\ refused_end st st'.
Proof.
  intros HR Hs Hbad He Hrc Hfin.
  set (D := with_execution_agent deps db) in *.
  inversion HR as [n0 st0 w0 m w1 Hf Heq | n0 st0 w0 upd0 w1 Hf Hsucc
                  | n0 st0 w0 upd0 w1 n' r0 tr0 w2 Hf Hsucc HR' Heq1 Heq2 Heq3 Heq4 Heq5];
    subst; try discriminate.
  set (st1 := merge st [set_validationResult val]) in *.
  assert (H1 : sessionId st1 = sessionId st /\ error st1 = error st
               /\ retryCount st1 = retryCount st /\ finalResponse st1 = finalResponse st
               /\ validationResult st1 = Some val).
  { subst st1. destruct st; repeat split. }
  destruct H1 as (Hs1 & He1 & Hrc1 & Hfin1 & Hv1).
  cbn [successor] in Hsucc. unfold route_after_validate in Hsucc.
  rewrite He1, He, Hv1 in Hsucc. cbn [JS.truthy_object negb orb] in Hsucc.
  assert (Hn : n' = experiment_alternatives \/ n' = execute_sql).
  { destruct (negb (SQLValidation.isValid val) || negb (SQLValidation.shouldExecute val)
              || (JS.truthy_number (sqlConfidence st1)
                  && (JS.number_or_zero (sqlConfidence st1) <? 70)));
      injection Hsucc as <-; auto. }
  assert (Hend : forall st', refused_end st1 st' -> refused_end st st').
  { unfold refused_end. rewrite He1. auto. }
  destruct Hn as [-> | ->].
  - inversion HR' as [n0 st0 w0 m w3 Hf' | n0 st0 w0 upd1 w3 Hf' Hsucc'
                     | n0 st0 w0 upd1 w3 n'' r1 tr1 w4 Hf' Hsucc' HR'']; subst.
    + apply node_returns_without_session in Hf'; [|congruence].
      destruct Hf' as (u & [=] & _).
    + discriminate Hsucc'.
    + cbn [successor] in Hsucc'. injection Hsucc' as <-.
      apply node_returns_without_session in Hf'; [|congruence].
      destruct Hf' as (u & [= <-] & Hret).
      pose proof (merge_validationResult D experiment_alternatives st1 upd1
                    ltac:(cbn; lia) Hret) as Hv2.
      destruct (experiment_never_sets_error D st1 upd1 Hret) as [_ He2].
      assert (H2 : retryCount (merge st1 upd1) = retryCount st1
                   /\ finalResponse (merge st1 upd1) = finalResponse st1).
      { cbn [node_returns] in Hret.
        destruct Hret as [-> | [(alts & ->) | (first & others & _ & ->)]];
          destruct st1; split; reflexivity. }
      destruct H2 as [Hrc2 Hfin2].
      destruct (refused_run_from_execute deps db _ _ _ _ _ val HR'')
        as (st' & -> & Hre).
      * rewrite merge_sessionId. congruence.
      * congruence.
      * exact Hbad.
      * congruence.
      * congruence.
      * congruence.
      * exists st'. split; [reflexivity|]. apply Hend.
        unfold refused_end in *. rewrite He2 in Hre. exact Hre.
  - destruct (refused_run_from_execute deps db _ _ _ _ _ val HR')
      as (st' & -> & Hre); try congruence.
    exists st'. split; [reflexivity|]. apply Hend, Hre.
Qed.

(** The state of a run after a refusing verdict, without a session. *)
Lemma refused_run deps db q w val :
  validate_returned (graph_visits (with_execution_agent deps db) q None w) val ->
  refusing val ->
  exists st,
    graph_result (with_execution_agent deps db) q None w = Ok st
    /\ finalResponse st = None /\ retryCount st = Some 1
    /\ ((JS.truthy_string (error st) = false
         /\ exists rx reason,
              executionResult st = Some rx /\ SQLExecution.success rx = false
              /\ SQLExecution.error rx = Some reason /\ In reason refusal_reasons)
        \/ error st = Some "SQL query or validation result missing").
Proof.
  intros (vv & Hin & Hvis & Hret) Hbad.
  set (D := with_execution_agent deps db) in *.
  pose proof (graph_run_Runs D q None w) as HR.
  pose proof (Runs_entry_ok _ _ _ _ _ _ _ HR (graph_input_entry_ok D q None)) as Hok.
  pose proof (Runs_sessionId _ _ _ _ _ _ _ HR) as Hsid.
  rewrite Forall_forall in Hok, Hsid.
  destruct (Runs_suffix _ _ _ _ _ _ _ HR vv Hin) as (w1 & rest & pre & HR1 & _).
  specialize (Hok vv Hin). specialize (Hsid vv Hin).
  destruct vv as [n0 g0 r0]. cbn [visited given returned] in *. subst n0 r0.
  destruct Hok as (Hrc & Hfin & He).
  assert (Hs : JS.truthy_string (sessionId g0) = false).
  { rewrite Hsid. unfold graph_input.
    destruct (graph_keeps_undeclared_keys D); reflexivity. }
  destruct (refused_run_from_validate deps db _ _ _ _ _ val HR1 Hs Hbad He Hrc Hfin)
    as (st' & Hr & Hf' & Hrc' & Hcases).
  exists st'. split; [exact Hr|]. split; [exact Hf'|]. split; [exact Hrc'|].
  destruct Hcases as [(Herr & Hx) | Herr]; [left | right; exact Herr].
  split; [rewrite Herr; exact He | exact Hx].
Qed.

(* ================================================================== *)
(** ** The service *)

(** The service calls the workflow without a session, so the call returns
    the state the graph ended with and the service's own handler is never
    entered. *)
Lemma processNaturalLanguageQuery_unfolds deps clock request w :
  exists st w',
    processQuery deps (Response.question request) None w = (Ok st, w')
    /\ graph_result deps (Response.question request) None w = Ok st
    /\ AskQLService.processNaturalLanguageQuery deps clock request w
       = (Ok match error st with
             | Some (String c e) =>
                 AskQLService.failure
                   ("I encountered an error while processing your question: "
                      ++ String c e)
                   (clock w' - clock w) (String c e)
                   (AskQLService.debug_info request st)
             | _ =>
                 match finalResponse st with
                 | None =>
                     AskQLService.failure
                       "I was unable to generate a response to your question."
                       (clock w' - clock w) "No final response generated" None
                 | Some f =>
                     {| Response.success := true;
                        Response.answer := summary f;
                        Response.visualizations :=
                          AskQLService.build_visualizations f (executionResult st);
                        Response.metadata :=
                          {| Response.executionTime := clock w' - clock w;
                             Response.sqlQuery := sqlQuery st;
                             Response.confidence := sqlConfidence st;
                             Response.rowCount :=
                               AskQLService.data_length (executionResult st) |};
                        Response.debugInfo := AskQLService.debug_info request st;
                        Response.error := None |}
                 end
             end, w').
Proof.
  destruct (processQuery_returns_graph_state deps (Response.question request) None w
              ltac:(left; reflexivity)) as (st & w' & Hp & Hg).
  exists st, w'. split; [exact Hp|]. split; [exact Hg|].
  unfold AskQLService.processNaturalLanguageQuery, AskQLService.Date_now,
    bind, try_catch, ret.
  rewrite Hp.
  destruct (error st) as [[|c e]|]; [| reflexivity |];
    destruct (finalResponse st); reflexivity.
Qed.

(** X12. [processNaturalLanguageQuery] never throws, and its answer is
    decided by the state the graph ended with: a non-empty [error] is
    passed on; otherwise the interpreter's summary is the answer of a
    successful response; and a state with neither, which is what a failed
    or refused execution leaves, becomes the error
    [No final response generated], with the executor's own message left in
    the state. A response without success has no visualizations and a row
    count of 0. *)
Theorem processNaturalLanguageQuery_answers deps clock request w :
  exists st resp w',
    graph_result deps (Response.question request) None w = Ok st
    /\ AskQLService.processNaturalLanguageQuery deps clock request w = (Ok resp, w')
    /\ Response.executionTime (Response.metadata resp) = clock w' - clock w
    /\ (if JS.truthy_string (error st) then
          Response.success resp = false /\ Response.error resp = error st
          /\ Response.answer resp
             = "I encountered an error while processing your question: "
                 ++ JS.string_or_empty (error st)
        else
          match finalResponse st with
          | Some f =>
              Response.success resp = true /\ Response.error resp = None
              /\ Response.answer resp = summary f
              /\ Response.visualizations resp
                 = AskQLService.build_visualizations f (executionResult st)
              /\ Response.rowCount (Response.metadata resp)
                 = AskQLService.data_length (executionResult st)
              /\ Response.sqlQuery (Response.metadata resp) = sqlQuery st
              /\ Response.confidence (Response.metadata resp) = sqlConfidence st
          | None =>
              Response.success resp = false
              /\ Response.error resp = Some "No final response generated"
              /\ Response.answer resp
                 = "I was unable to generate a response to your question."
              /\ Response.debugInfo resp = None
              /\ execution_failed st
          end)
    /\ (Response.success resp = false ->
        Response.visualizations resp = []
        /\ Response.rowCount (Response.metadata resp) = 0
        /\ Response.error resp <> None).
Proof.
  destruct (processNaturalLanguageQuery_unfolds deps clock request w)
    as (st & w' & _ & Hg & Hr).
  exists st. eexists. exists w'. split; [exact Hg|]. split; [exact Hr|].
  destruct (graph_result_terminal _ _ _ _ _ Hg)
    as (last & upd & _ & _ & _ & Hterm).
  destruct (error st) as [[|c e]|] eqn:He; cbn [JS.truthy_string].
  2: { cbn. repeat split. discriminate. }
  all: destruct (finalResponse st) as [f|] eqn:Hf.
  all: cbn; repeat split; try discriminate.
  all: destruct Hterm as [(_ & Hone & _) | (_ & _ & _ & _ & [Ht | Hx])];
    [ | discriminate Ht | exact Hx ].
  all: exfalso; destruct Hone as [[Hn _] | [_ Ht]];
    [apply Hn; exact Hf | rewrite He in Ht; discriminate Ht].
Qed.

(** X13. A refusal of the executor reaches the caller as
    [No final response generated]. In a run of the service on the
    repository's executor, once Validate has returned a verdict the executor
    refuses on, the state ends with no final response and [retryCount] 1,
    and either with no error of its own, the refusal reason being in
    [executionResult.error] only, in which case the response carries the
    error [No final response generated] and no debug information; or, when
    Experiment left no query to execute, with the error
    [SQL query or validation result missing], which the response passes
    on. *)
Theorem refusal_reaches_the_caller_as_no_response deps db clock request w val :
  validate_returned
    (graph_visits (with_execution_agent deps db) (Response.question request) None w)
    val ->
  refusing val ->
  exists st resp w',
    graph_result (with_execution_agent deps db) (Response.question request) None w
    = Ok st
    /\ AskQLService.processNaturalLanguageQuery (with_execution_agent deps db) clock
         request w = (Ok resp, w')
    /\ finalResponse st = None /\ retryCount st = Some 1
    /\ Response.success resp = false /\ Response.visualizations resp = []
    /\ ((JS.truthy_string (error st) = false
         /\ (exists rx reason,
               executionResult st = Some rx /\ SQLExecution.success rx = false
               /\ SQLExecution.error rx = Some reason /\ In reason refusal_reasons)
         /\ Response.error resp = Some "No final response generated"
         /\ Response.answer resp
            = "I was unable to generate a response to your question."
         /\ Response.debugInfo resp = None)
        \/ (error st = Some "SQL query or validation result missing"
            /\ Response.error resp = Some "SQL query or validation result missing")).
Proof.
  intros Hval Hbad.
  destruct (refused_run deps db _ w val Hval Hbad) as (st & Hg & Hfin & Hrc & Hcases).
  destruct (processNaturalLanguageQuery_unfolds (with_execution_agent deps db) clock
              request w) as (st0 & w' & _ & Hg0 & Hr).
  rewrite Hg in Hg0. injection Hg0 as <-.
  exists st. eexists. exists w'. split; [exact Hg|]. split; [exact Hr|].
  split; [exact Hfin|]. split; [exact Hrc|]. rewrite Hfin.
  destruct Hcases as [(He & Hx) | He].
  - destruct (error st) as [[|c e]|]; try discriminate He.
    all: cbn; split; [reflexivity|]; split; [reflexivity|]; left; repeat split; auto.
  - rewrite He. cbn. split; [reflexivity|]. split; [reflexivity|]. right.
    split; reflexivity.
Qed.

(** X14. The steps listed for a run that produced a final response are all
    checked: the execution and interpretation steps are among them, and no
    step reports a failure. *)
Theorem steps_of_a_successful_run deps q sid w st :
  graph_result deps q sid w = Ok st ->
  finalResponse st <> None ->
  Forall (fun s => JS.startsWith s "✓" = true) (AskQLService.extractWorkflowSteps st)
  /\ In "✓ Executed SQL query successfully" (AskQLService.extractWorkflowSteps st)
  /\ In "✓ Interpreted results to natural language"
       (AskQLService.extractWorkflowSteps st).
Proof.
  intros Hg Hf.
  destruct (graph_result_terminal _ _ _ _ _ Hg)
    as (last & upd & Hend & Hret & Hst & [(Hl & Hone & _) | (_ & Hn & _)]);
    [|congruence].
  destruct Hone as [[_ He] | [Hn _]]; [|congruence].
  pose proof (graph_run_Runs deps q sid w) as HR.
  pose proof (Runs_entry_ok _ _ _ _ _ _ _ HR (graph_input_entry_ok deps q sid)) as Hok.
  pose proof (Runs_genuine _ _ _ _ _ _ _ HR) as Hgen.
  rewrite Forall_forall in Hok, Hgen. apply ends_with_In in Hend.
  specialize (Hok _ Hend). destruct (Hgen _ Hend) as (w1 & w2 & Hcall).
  rewrite Hl in Hok, Hcall. rewrite Hret in Hcall.
  destruct Hok as (_ & _ & _ & r & Hr & Hsucc & _).
  node_cases deps Hcall.
  assert (Hex : executionResult st = Some r).
  { rewrite Hst, <- Hr.
    destruct Hcall as [(f & _ & _ & ->) | [-> | (m & ->)]];
      destruct (given last); reflexivity. }
  unfold AskQLService.extractWorkflowSteps. rewrite Hex, Hsucc.
  destruct (finalResponse st) as [f|]; [|congruence]. cbn [JS.truthy_object].
  destruct (error st) as [[|c e]|]; try discriminate He.
  all: split; [|split; apply in_or_app; right; apply in_or_app; right;
                apply in_or_app; right; apply in_or_app; right;
                [left; reflexivity | right; left; reflexivity]].
  all: repeat (apply Forall_app; split);
    repeat match goal with
           | |- Forall _ (if ?b then _ else _) => destruct b
           | |- Forall _ (match ?b with _ => _ end) => destruct b
           end; repeat constructor.
Qed.

Lemma chart_visualization_shape c kind fallback :
  fallback <> "" ->
  (length (AskQLService.chart_visualization c kind fallback) <= 1)%nat
  /\ Forall (fun v => Response.type v = Response.chart
                      /\ Response.title v <> ""
                      /\ Response.chartType (Response.config v) = Some kind
                      /\ Response.data v = None)
       (AskQLService.chart_visualization c kind fallback).
Proof.
  intros Hne. unfold AskQLService.chart_visualization.
  destruct c as [c|]; [|split; [cbn; lia | constructor]].
  destruct (chart_should_show c); [|split; [cbn; lia | constructor]].
  split; [cbn; lia|]. constructor; [|constructor]. cbn.
  repeat split. destruct (chart_title c); [exact Hne | discriminate].
Qed.

(** X15. The visualizations of a response: at most four, the charts in
    the order bar, line, pie and then the table; every one has a title, a
    chart with an empty title getting the name of its kind; the table is
    there exactly when the interpreter asked for it, and shows the
    interpreter's rows or, when it gave none, the rows of the execution, so
    it is empty only when both are. *)
Theorem visualizations_are_well_formed f e :
  exists charts tables,
    AskQLService.build_visualizations f e = (charts ++ tables)%list
    /\ (length charts <= 3)%nat
    /\ Forall (fun v => Response.type v = Response.chart
                        /\ Response.title v <> ""
                        /\ Response.chartType (Response.config v) <> None
                        /\ Response.data v = None) charts
    /\ StronglySorted
         (fun a b =>
            match Response.chartType (Response.config a),
                  Response.chartType (Response.config b) with
            | Some Response.bar, Some (Response.line | Response.pie)
            | Some Response.line, Some Response.pie => True
            | _, _ => False
            end) charts
    /\ (if table_should_show (table f)
        then exists tv,
               tables = [tv] /\ Response.type tv = Response.table_view
               /\ Response.title tv = "Data Table"
               /\ Response.data tv = Some (AskQLService.tableData f e)
               /\ Response.columns (Response.config tv) <> None
        else tables = [])
    /\ (AskQLService.tableData f e = [] <->
        table_data (table f) = [] /\ AskQLService.data_length e = 0).
Proof.
  unfold AskQLService.build_visualizations.
  exists (AskQLService.chart_visualization (bar_chart f) Response.bar "Bar Chart"
          ++ AskQLService.chart_visualization (line_chart f) Response.line "Line Chart"
          ++ AskQLService.chart_visualization (pie_chart f) Response.pie "Pie Chart")%list,
    (AskQLService.table_visualization f e).
  split; [rewrite <- !app_assoc; reflexivity|].
  split; [|split; [|split; [|split]]].
  - unfold AskQLService.chart_visualization.
    destruct (bar_chart f) as [b|]; [destruct (chart_should_show b)|];
      (destruct (line_chart f) as [l|]; [destruct (chart_should_show l)|]);
      (destruct (pie_chart f) as [p|]; [destruct (chart_should_show p)|]);
      cbn; lia.
  - repeat (apply Forall_app; split).
    all: match goal with
         | |- Forall _ (AskQLService.chart_visualization ?c ?k ?fb) =>
             destruct (chart_visualization_shape c k fb ltac:(discriminate)) as [_ H];
             eapply Forall_impl; [|exact H]
         end.
    all: cbn; intros v (H1 & H2 & H3 & H4); rewrite H3; repeat split; auto; discriminate.
  - unfold AskQLService.chart_visualization.
    destruct (bar_chart f) as [b|]; [destruct (chart_should_show b)|];
      (destruct (line_chart f) as [l|]; [destruct (chart_should_show l)|]);
      (destruct (pie_chart f) as [p|]; [destruct (chart_should_show p)|]);
      cbn; repeat constructor.
  - unfold AskQLService.table_visualization.
    destruct (table_should_show (table f)); [|reflexivity].
    eexists. split; [reflexivity|]. cbn. repeat split. discriminate.
  - unfold AskQLService.tableData, AskQLService.data_length.
    destruct (table_data (table f)) as [|row rows]; cbn.
    + destruct e as [r|]; [destruct (SQLExecution.data r) as [[|x xs]|]|]; cbn;
        split; try tauto; try (intros [_ H]; lia); try discriminate.
    + split; [discriminate | intros [H _]; discriminate H].
Qed.

(** X16. [getQuerySuggestions] never throws and never mentions a table:
    it answers with one placeholder when the schema has no table, with the
    eight general suggestions when it has any, since the cut to eight
    drops every suggestion made from a table name, and with three general
    suggestions when the schema cannot be read. *)
Theorem getQuerySuggestions_ignores_the_tables deps w :
  exists l w',
    AskQLService.getQuerySuggestions deps w = (Ok l, w')
    /\ match databaseService_getSchemaInfo deps w with
       | (Ok [], w1) => l = ["No tables found in the database."] /\ w' = w1
       | (Ok (_ :: _), w1) => l = AskQLService.base_suggestions /\ w' = w1
       | (Throw _, w1) =>
           l = ["Show me all tables in this database";
                "What is the structure of this database?";
                "How many tables are in this database?"] /\ w' = w1
       end
    /\ forall s tableName, In s l -> ~ In s (AskQLService.table_suggestions tableName).
Proof.
  unfold AskQLService.getQuerySuggestions, try_catch, bind, ret.
  destruct (databaseService_getSchemaInfo deps w) as [[[|t ts]|m] w1]; cbn;
    do 2 eexists; (split; [reflexivity|]); (split; [split; reflexivity|]).
  all: intros s tableName Hs Ht; cbn in Hs, Ht;
    repeat match goal with H : _ \/ _ |- _ => destruct H as [H|H] end;
    try contradiction; subst s; discriminate.
Qed.

(* ================================================================== *)
(** ** The gateway's sessions *)

Section MapLemmas.
Context {V : Type}.
Implicit Types (m : list (string * V)) (k : string) (v : V).

Lemma get_None_iff m k : JSMap.get m k = None <-> ~ In k (map fst m).
Proof.
  induction m as [|[k' v'] m IH]; cbn; [tauto|].
  destruct (String.eqb k' k) eqn:E.
  - apply String.eqb_eq in E. split; [discriminate | tauto].
  - apply String.eqb_neq in E. rewrite IH. tauto.
Qed.

Lemma get_set_same m k v : JSMap.get (JSMap.set m k v) k = Some v.
Proof.
  induction m as [|[k' v'] m IH]; cbn; [now rewrite String.eqb_refl|].
  destruct (String.eqb k' k) eqn:E; cbn; [now rewrite String.eqb_refl|].
  rewrite E. exact IH.
Qed.

Lemma get_set_other m k v k0 :
  k0 <> k -> JSMap.get (JSMap.set m k v) k0 = JSMap.get m k0.
Proof.
  intros Hne. induction m as [|[k' v'] m IH]; cbn.
  - destruct (String.eqb k k0) eqn:E; [apply String.eqb_eq in E; congruence | reflexivity].
  - destruct (String.eqb k' k) eqn:E; cbn.
    + apply String.eqb_eq in E. subst k'.
      destruct (String.eqb k k0) eqn:E0; [apply String.eqb_eq in E0; congruence|].
      reflexivity.
    + destruct (String.eqb k' k0); [reflexivity | exact IH].
Qed.

Lemma keys_delete m k x : In x (map fst (JSMap.delete m k)) -> In x (map fst m).
Proof.
  induction m as [|[k' v'] m IH]; cbn; [tauto|].
  destruct (String.eqb k' k); cbn; [tauto|]. intros [H|H]; [left; exact H | right; auto].
Qed.

Lemma get_delete_same m k :
  NoDup (map fst m) -> JSMap.get (JSMap.delete m k) k = None.
Proof.
  induction m as [|[k' v'] m IH]; cbn; [reflexivity|].
  intros Hnd. inversion Hnd as [|? ? Hnot Hnd']; subst.
  destruct (String.eqb k' k) eqn:E; cbn.
  - apply String.eqb_eq in E. subst k'. apply get_None_iff. exact Hnot.
  - rewrite E. apply IH, Hnd'.
Qed.

Lemma get_delete_other m k k0 :
  k0 <> k -> JSMap.get (JSMap.delete m k) k0 = JSMap.get m k0.
Proof.
  intros Hne. induction m as [|[k' v'] m IH]; cbn; [reflexivity|].
  destruct (String.eqb k' k) eqn:E; cbn.
  - apply String.eqb_eq in E. subst k'.
    destruct (String.eqb k k0) eqn:E0; [apply String.eqb_eq in E0; congruence|].
    reflexivity.
  - destruct (String.eqb k' k0); [reflexivity | exact IH].
Qed.

Lemma keys_set m k v x :
  In x (map fst (JSMap.set m k v)) <-> x = k \/ In x (map fst m).
Proof.
  induction m as [|[k' v'] m IH]; cbn; [intuition congruence|].
  destruct (String.eqb k' k) eqn:E; cbn.
  - apply String.eqb_eq in E. subst k'. intuition congruence.
  - rewrite IH. intuition congruence.
Qed.

Lemma NoDup_set m k v : NoDup (map fst m) -> NoDup (map fst (JSMap.set m k v)).
Proof.
  induction m as [|[k' v'] m IH]; cbn; intros Hnd.
  - constructor; [tauto | constructor].
  - inversion Hnd as [|? ? Hnot Hnd']; subst.
    destruct (String.eqb k' k) eqn:E; cbn.
    + apply String.eqb_eq in E. subst k'. constructor; assumption.
    + apply String.eqb_neq in E. constructor; [|apply IH, Hnd'].
      rewrite keys_set. intros [H|H]; [congruence | contradiction].
Qed.

Lemma NoDup_delete m k : NoDup (map fst m) -> NoDup (map fst (JSMap.delete m k)).
Proof.
  induction m as [|[k' v'] m IH]; cbn; intros Hnd; [constructor|].
  inversion Hnd as [|? ? Hnot Hnd']; subst.
  destruct (String.eqb k' k); cbn; [exact Hnd'|].
  constructor; [|apply IH, Hnd']. intros H. apply Hnot. eapply keys_delete, H.
Qed.

Lemma size_set m k v :
  JSMap.size (JSMap.set m k v)
  = JSMap.size m + match JSMap.get m k with Some _ => 0 | None => 1 end.
Proof.
  unfold JSMap.size. induction m as [|[k' v'] m IH]; cbn [JSMap.set JSMap.get]; [reflexivity|].
  destruct (String.eqb k' k); [cbn [length]; lia|].
  cbn [length]. rewrite !Nat2Z.inj_succ. lia.
Qed.

Lemma size_delete m k :
  JSMap.size (JSMap.delete m k)
  = JSMap.size m - match JSMap.get m k with Some _ => 1 | None => 0 end.
Proof.
  unfold JSMap.size. induction m as [|[k' v'] m IH]; cbn [JSMap.delete JSMap.get]; [reflexivity|].
  destruct (String.eqb k' k); cbn [length]; rewrite ?Nat2Z.inj_succ; lia.
Qed.
End MapLemmas.

(** X17. A message reaches a client exactly while the client is connected.
    After [handleConnection] a message for the client's id is handed to its
    socket, the one that connected last under that id; after
    [handleDisconnect] it is dropped, and the call cannot throw; for a
    session that is not connected nothing is sent and nothing is thrown;
    and neither handler touches what another session receives. *)
Theorem messages_reach_connected_clients s client m :
  sessions_ok s ->
  let s1 := snd (AskQLGateway.handleConnection client s) in
  let s2 := snd (AskQLGateway.handleDisconnect client s) in
  sessions_ok s1 /\ sessions_ok s2
  /\ AskQLGateway.sent (snd (AskQLGateway.emit_to (AskQLGateway.id client) m s1))
     = (AskQLGateway.sent s ++ [(AskQLGateway.id client, m)])%list
  /\ fst (AskQLGateway.emit_to (AskQLGateway.id client) m s1)
     = match AskQLGateway.emit_throws client m with
       | None => Ok tt
       | Some message => Throw message
       end
  /\ AskQLGateway.emit_to (AskQLGateway.id client) m s2 = (Ok tt, s2)
  /\ (forall sid, connected s sid = false ->
                  AskQLGateway.emit_to sid m s = (Ok tt, s))
  /\ (forall sid, sid <> AskQLGateway.id client ->
                  connected s1 sid = connected s sid
                  /\ connected s2 sid = connected s sid).
Proof.
  unfold sessions_ok, connected. intros Hok. cbn.
  split; [apply NoDup_set, Hok|]. split; [apply NoDup_delete, Hok|].
  unfold AskQLGateway.emit_to. cbn. rewrite get_set_same, get_delete_same by exact Hok.
  split; [destruct (AskQLGateway.emit_throws client m); reflexivity|].
  split; [destruct (AskQLGateway.emit_throws client m); reflexivity|].
  split; [reflexivity|]. split.
  - intros sid H. destruct (JSMap.get (AskQLGateway.sessions s) sid); [discriminate|].
    reflexivity.
  - intros sid Hne. rewrite get_set_other, get_delete_other by exact Hne.
    split; reflexivity.
Qed.

(** X18. [getActiveSessionsCount] counts the connected client ids: a
    connection adds one unless the id is already connected, a disconnection
    takes one away if the id was connected, and a client that connects and
    disconnects leaves the count of the sessions of the others. *)
Theorem active_sessions_are_counted s client :
  let s1 := snd (AskQLGateway.handleConnection client s) in
  let s2 := snd (AskQLGateway.handleDisconnect client s) in
  AskQLGateway.getActiveSessionsCount s1
  = AskQLGateway.getActiveSessionsCount s
    + (if connected s (AskQLGateway.id client) then 0 else 1)
  /\ AskQLGateway.getActiveSessionsCount s2
     = AskQLGateway.getActiveSessionsCount s
       - (if connected s (AskQLGateway.id client) then 1 else 0)
  /\ AskQLGateway.getActiveSessionsCount (snd (AskQLGateway.handleDisconnect client s1))
     = AskQLGateway.getActiveSessionsCount s2
  /\ 0 <= AskQLGateway.getActiveSessionsCount s2.
Proof.
  unfold connected, AskQLGateway.getActiveSessionsCount. cbn.
  rewrite !size_delete, size_set, get_set_same.
  destruct (JSMap.get (AskQLGateway.sessions s) (AskQLGateway.id client)) eqn:E.
  - repeat split; try lia. unfold JSMap.size.
    destruct (AskQLGateway.sessions s); [discriminate E | cbn [length]; lia].
  - repeat split; try lia. unfold JSMap.size. lia.
Qed.

(* ================================================================== *)
(** ** Suggestions *)

Lemma In_firstn {A} (x : A) n l : In x (firstn n l) -> In x l.
Proof.
  revert l. induction n as [|n IH]; intros [|a l]; cbn; try tauto.
  intros [H|H]; [left; exact H | right; apply IH, H].
Qed.

Lemma includes_In ops op :
  DrillDownAgent.includes ops op = true <-> In op ops.
Proof.
  unfold DrillDownAgent.includes. rewrite existsb_exists. split.
  - intros (o & Hin & Heq). destruct o, op; try discriminate; exact Hin.
  - intros Hin. exists op. split; [exact Hin | destruct op; reflexivity].
Qed.

(** X19. What [suggestDrillDowns] suggests, [validateDrillDown] accepts,
    provided the visualization names its table: there are at most four
    suggestions, each belongs to an operation that is valid for the
    visualization. Without a table every operation is invalid, though the
    same suggestions are made. *)
Theorem drill_down_suggestions_are_valid ctx s :
  In s (DrillDownAgent.suggestDrillDowns (Some ctx)) ->
  (length (DrillDownAgent.suggestDrillDowns (Some ctx)) <= 4)%nat
  /\ exists op,
       In s (suggestions_for op)
       /\ DrillDownAgent.valid (DrillDownAgent.validateDrillDown op (Some ctx))
          = negb (String.eqb
                    (DrillDownAgent.table (DrillDownAgent.dataSource ctx)) "").
Proof.
  intros Hin. split; [apply firstn_le_length|].
  unfold DrillDownAgent.suggestDrillDowns in Hin. apply In_firstn in Hin.
  assert (Hop : exists op,
             In s (suggestions_for op)
             /\ DrillDownAgent.includes
                  match DrillDownAgent.supportedOperations ctx with
                  | Some ops => ops
                  | None => [DrillDownAgent.detail; DrillDownAgent.filter;
                             DrillDownAgent.group; DrillDownAgent.trend]
                  end op = true).
  { repeat (apply in_app_or in Hin; destruct Hin as [Hin|Hin]).
    all: match type of Hin with
         | In _ (if ?b then _ else _) => destruct b eqn:E; [|destruct Hin]
         end.
    - exists DrillDownAgent.detail. split; assumption.
    - exists DrillDownAgent.filter. split; assumption.
    - exists DrillDownAgent.group. split; assumption.
    - exists DrillDownAgent.trend. split; assumption. }
  destruct Hop as (op & Hs & Hinc). exists op. split; [exact Hs|].
  unfold DrillDownAgent.validateDrillDown.
  destruct (DrillDownAgent.table (DrillDownAgent.dataSource ctx)) as [|c t];
    [reflexivity|]. cbn [JS.truthy_string negb String.eqb].
  destruct (DrillDownAgent.supportedOperations ctx) as [ops|].
  - rewrite Hinc. rewrite andb_false_r. reflexivity.
  - reflexivity.
Qed.

(** X20. [suggestDrillDowns] at the edges. Without a drill-down context
    there is no suggestion. When [supportedOperations] is missing, or
    whenever detail and filter are both supported, the four suggestions
    are those of detail and filter, and grouping and trends are never
    suggested. With an empty [supportedOperations] there is no suggestion
    at all, although [validateDrillDown] then accepts every operation on a
    named table. *)
Theorem drill_down_suggestions_at_the_edges ctx :
  DrillDownAgent.suggestDrillDowns None = []
  /\ (match DrillDownAgent.supportedOperations ctx with
      | None => True
      | Some ops => In DrillDownAgent.detail ops /\ In DrillDownAgent.filter ops
      end ->
      DrillDownAgent.suggestDrillDowns (Some ctx)
      = (suggestions_for DrillDownAgent.detail
         ++ suggestions_for DrillDownAgent.filter)%list)
  /\ (DrillDownAgent.supportedOperations ctx = Some [] ->
      DrillDownAgent.suggestDrillDowns (Some ctx) = []
      /\ forall op,
           DrillDownAgent.valid (DrillDownAgent.validateDrillDown op (Some ctx))
           = negb (String.eqb
                     (DrillDownAgent.table (DrillDownAgent.dataSource ctx)) "")).
Proof.
  split; [reflexivity|]. split.
  - unfold DrillDownAgent.suggestDrillDowns.
    destruct (DrillDownAgent.supportedOperations ctx) as [ops|]; [|reflexivity].
    intros [Hd Hf]. apply includes_In in Hd, Hf. rewrite Hd, Hf. reflexivity.
  - intros H. unfold DrillDownAgent.suggestDrillDowns, DrillDownAgent.validateDrillDown.
    rewrite H. split; [reflexivity|]. intros op.
    destruct (DrillDownAgent.table (DrillDownAgent.dataSource ctx)); reflexivity.
Qed.

(** X21. [suggestEdits] returns between four and six suggestions, the
    conversions to other chart types first: it offers the pie, bar and line
    conversions except the one to the chart's own type, so at least two of
    them, and these are never cut off. *)
Theorem edit_suggestions_start_with_conversions config availableData :
  let l := VisualizationEditAgent.suggestEdits config availableData in
  (4 <= length l <= 6)%nat
  /\ (exists conversions rest,
        l = (conversions ++ rest)%list
        /\ (2 <= length conversions <= 3)%nat
        /\ forall t s,
             conversion_to t = Some s ->
             (In s conversions <->
              VisualizationEditAgent.is_chart_type
                (VisualizationEditAgent.chartType config) t = false))
  /\ forall t s,
       conversion_to t = Some s ->
       (In s l <->
        VisualizationEditAgent.is_chart_type
          (VisualizationEditAgent.chartType config) t = false).
Proof.
  cbv zeta. unfold VisualizationEditAgent.suggestEdits.
  set (others :=
         (match availableData with
          | [] => []
          | firstRow :: _ => _
          end ++ ["Show only top 10"; "Filter recent data"])%list).
  assert (Hlen : (2 <= length others)%nat).
  { subst others. rewrite length_app. cbn. lia. }
  assert (Hnot : forall t s, conversion_to t = Some s -> ~ In s others).
  { intros t s Ht Hin. subst others.
    apply in_app_or in Hin. destruct Hin as [Hin|Hin].
    - destruct availableData as [|firstRow rows]; [destruct Hin|].
      apply in_app_or in Hin. destruct Hin as [Hin|Hin].
      + apply in_map_iff in Hin. destruct Hin as (col & <- & _).
        destruct t; discriminate Ht.
      + match type of Hin with
        | In _ (if ?b then _ else _) => destruct b; [|destruct Hin]
        end.
        destruct Hin as [<- | [<- | []]]; destruct t; discriminate Ht.
    - destruct Hin as [<- | [<- | []]]; destruct t; discriminate Ht. }
  clearbody others.
  destruct (VisualizationEditAgent.chartType config) as [[]|];
    cbn [VisualizationEditAgent.is_chart_type negb app].
  all: destruct others as [|o1 [|o2 [|o3 [|o4 rest]]]]; cbn in Hlen; try lia.
  all: cbn [firstn length].
  all: split; [lia|].
  all: split;
    [ match goal with
      | |- context [("Convert to pie chart" :: "Show as bar chart"
                       :: "Make it a line graph" :: ?r)] =>
          exists ["Convert to pie chart"; "Show as bar chart"; "Make it a line graph"], r
      | |- context [("Convert to pie chart" :: "Show as bar chart" :: ?r)] =>
          exists ["Convert to pie chart"; "Show as bar chart"], r
      | |- context [("Convert to pie chart" :: "Make it a line graph" :: ?r)] =>
          exists ["Convert to pie chart"; "Make it a line graph"], r
      | |- context [("Show as bar chart" :: "Make it a line graph" :: ?r)] =>
          exists ["Show as bar chart"; "Make it a line graph"], r
      end;
      split; [reflexivity|]; split; [cbn; lia|];
      intros t s Ht; destruct t; cbn in Ht; try discriminate Ht;
      injection Ht as <-; cbn; split; intros H;
      repeat match goal with H : _ \/ _ |- _ => destruct H as [H|H] end;
      try discriminate; try contradiction; auto
    | intros t s Ht; pose proof (Hnot t s Ht) as Hn;
      destruct t; cbn in Ht; try discriminate Ht; injection Ht as <-;
      cbn in Hn |- *; split; intros H;
      repeat match goal with H : _ \/ _ |- _ => destruct H as [H|H] end;
      try discriminate; try contradiction; auto;
      exfalso; apply Hn; auto 8 ].
Qed.

Lemma find_skips {A} (f : A -> bool) l x :
  find f l = Some x ->
  f x = true
  /\ exists pre post, l = (pre ++ x :: post)%list /\ Forall (fun a => f a = false) pre.
Proof.
  induction l as [|a l IH]; cbn; [discriminate|].
  destruct (f a) eqn:E.
  - intros [= <-]. split; [exact E|]. exists [], l. split; [reflexivity | constructor].
  - intros H. destruct (IH H) as (Hx & pre & post & -> & Hp).
    split; [exact Hx|]. exists (a :: pre), post. split; [reflexivity|].
    constructor; assumption.
Qed.

(** X24. [generateSmartFilters] sets at most one filter, on the first
    column of the first row, in key order, that holds the selected value or
    the selected label in some row; without rows, or without such a column,
    it sets none. The filter is the selected value only if that value is
    truthy: for a selected 0, false, empty string, null or missing value the
    filter is the label, also when the column was found by the value. *)
Theorem smart_filter_is_the_first_match selectedValue selectedLabel availableData :
  let filters :=
    DrillDownAgent.generateSmartFilters selectedValue selectedLabel availableData in
  (length filters <= 1)%nat
  /\ (forall col v,
         In (col, v) filters ->
         exists firstRow rest pre post,
           availableData = firstRow :: rest
           /\ map fst firstRow = (pre ++ col :: post)%list
           /\ DrillDownAgent.column_holds availableData selectedValue selectedLabel col
              = true
           /\ Forall
                (fun c =>
                   DrillDownAgent.column_holds availableData selectedValue
                     selectedLabel c = false) pre
           /\ (DrillDownAgent.truthy selectedValue = true -> selectedValue = Some v)
           /\ (DrillDownAgent.truthy selectedValue = false ->
               v = JString selectedLabel))
  /\ (filters = [] <->
      match availableData with
      | [] => True
      | firstRow :: _ =>
          Forall
            (fun c =>
               DrillDownAgent.column_holds availableData selectedValue selectedLabel c
               = false) (map fst firstRow)
      end).
Proof.
  cbv zeta. unfold DrillDownAgent.generateSmartFilters.
  destruct availableData as [|firstRow rest].
  { split; [cbn; lia|]. split; [intros col v []|]. tauto. }
  destruct (find (DrillDownAgent.column_holds (firstRow :: rest) selectedValue
                    selectedLabel) (map fst firstRow)) as [col|] eqn:Ef.
  - destruct (find_skips _ _ _ Ef) as (Hx & pre & post & Hl & Hp).
    split; [cbn; lia|]. split.
    + intros c v [[= <- <-] | []].
      exists firstRow, rest, pre, post. repeat split; auto.
      * intros Ht. destruct selectedValue as [x|]; [rewrite Ht; reflexivity|].
        discriminate Ht.
      * intros Ht. destruct selectedValue as [x|]; [rewrite Ht|]; reflexivity.
    + split; [discriminate|]. intros Hall. exfalso.
      rewrite Forall_forall in Hall. rewrite Hall in Hx; [discriminate|].
      rewrite Hl. apply in_or_app. right. left. reflexivity.
  - split; [cbn; lia|]. split; [intros c v []|].
    split; [|reflexivity]. intros _. apply Forall_forall. intros c Hc.
    apply (find_none _ _ Ef), Hc.
Qed.

(* ================================================================== *)
(** ** The last notification of a streamed run *)

(** X22. A run with a session, on a gateway that does not throw, ends by
    telling the client how it went: the last gateway call is
    [emitWorkflowError] with the error of the state returned when that
    error is non-empty, and [emitWorkflowComplete] with the state
    otherwise, also when the state has no final response. *)
Theorem streamed_run_ends_with_its_outcome deps q s w :
  s <> "" ->
  gateway_never_throws (streamingService_gateway deps) ->
  exists st w1,
    processQuery deps q (Some s) w
    = (Ok st,
       (w1 ++ [Notified
                 match error st with
                 | Some (String c e) => emitWorkflowError s (String c e)
                 | _ => emitWorkflowComplete s st
                 end])%list)
    /\ graph_result deps q (Some s) w = Ok st.
Proof.
  intros Hne Hq.
  assert (Hh : notifications_harmless deps (Some s)) by (right; exact Hq).
  destruct (processQuery_returns_graph_state deps q (Some s) w Hh) as (st & w' & Hp & Hg).
  exists st. revert Hp. pose proof Hg as Hg'.
  unfold graph_result, graph_run, entry_world in Hg.
  unfold processQuery, bind, try_catch, ret.
  destruct (if_session (Some s)
              (WorkflowStreamingService.emitSchemaLoading (streamingService_gateway deps))
              w) as [[[]|m0] w0] eqn:E0; cbn [world_after snd] in Hg.
  2: { intros [=]. }
  unfold invoke.
  destruct (invoke_traced deps (stateWithSession q (Some s)) w0) as [[r tr] w2].
  cbn [fst] in Hg. subst r.
  unfold if_session. destruct s as [|c0 s0]; [congruence|]. cbn [JS.truthy_string].
  destruct (error st) as [[|c e]|];
    unfold WorkflowStreamingService.emitWorkflowCompleted,
      WorkflowStreamingService.emitWorkflowError, gateway_call; rewrite Hq;
    intros [= <-]; exists w2; (split; [reflexivity | exact Hg']).
Qed.

(* ================================================================== *)
(** ** A schema that cannot be loaded *)

Lemma convertNLToSQL_without_schema deps st w :
  notifications_harmless deps (sessionId st) ->
  schema st = None ->
  exists w',
    convertNLToSQL deps st w
    = (Ok [set_error (Some "Database schema not available")], w').
Proof.
  intros Hh Hs. unfold convertNLToSQL. rewrite Hs.
  run_node deps; try solve [eexists; reflexivity]; try contradict_harmless Hh.
Qed.

(** X23. When the schema cannot be loaded, the cause is lost: the loader
    stores [Failed to load database schema: <message>], the translator,
    which runs next in any case, replaces it by
    [Database schema not available], and that is the error of the state
    returned, after the three stages loader, translator and error
    handler. *)
Theorem schema_failure_is_reported_as_unavailable deps q sid w m :
  notifications_harmless deps sid ->
  (forall w0, outcome (databaseService_getSchemaInfo deps w0) = Throw m) ->
  exists st w',
    processQuery deps q sid w = (Ok st, w')
    /\ map visited (graph_visits deps q sid w) = [load_schema; nl_to_sql; handle_error]
    /\ (exists v,
          In v (graph_visits deps q sid w) /\ visited v = load_schema
          /\ returned v
             = Ok [set_error (Some ("Failed to load database schema: " ++ m))])
    /\ error st = Some "Database schema not available"
    /\ schema st = None /\ sqlQuery st = None /\ finalResponse st = None
    /\ retryCount st = Some 1.
Proof.
  intros Hh Hthrow.
  destruct (processQuery_returns_graph_state deps q sid w Hh) as (st & w' & Hp & Hgr).
  exists st, w'. split; [exact Hp|].
  pose proof (graph_run_Runs deps q sid w) as HR. rewrite Hgr in HR.
  pose proof (graph_input_harmless deps (stateWithSession q sid) Hh) as Hh0.
  set (st0 := graph_input deps (stateWithSession q sid)) in *.
  assert (Hst0 : st0 = stateWithSession q (sessionId st0)).
  { subst st0. unfold graph_input.
    destruct (graph_keeps_undeclared_keys deps); reflexivity. }
  set (sid0 := sessionId st0) in *. clearbody sid0. clearbody st0. subst st0.
  unfold stateWithSession in HR. cbn [sessionId] in Hh0.
  set (w0 := entry_world deps sid w) in *. clearbody w0.
  match type of HR with Runs _ _ ?s _ _ _ _ => set (s0 := s) in * end.
  destruct (stage_catches deps load_schema s0 w0 m Hh0 Hthrow) as [w1 E1].
  cbn [caught_as] in E1.
  set (s1 := merge s0 [set_error (Some ("Failed to load database schema: " ++ m))]).
  destruct (convertNLToSQL_without_schema deps s1 w1 Hh0 eq_refl) as [w2 E2].
  set (s2 := merge s1 [set_error (Some "Database schema not available")]).
  assert (HR' : Runs deps load_schema s0 w0
                  (Ok (merge s2 [set_error (error s2); set_retryCount 1]))
                  [visit load_schema s0
                     (Ok [set_error (Some ("Failed to load database schema: " ++ m))]);
                   visit nl_to_sql s1
                     (Ok [set_error (Some "Database schema not available")]);
                   visit handle_error s2
                     (Ok [set_error (error s2); set_retryCount 1])]
                  w2).
  { eapply Runs_step; [exact E1 | reflexivity |].
    eapply Runs_step; [exact E2 | reflexivity |].
    eapply Runs_end; [reflexivity | reflexivity]. }
  destruct (Runs_deterministic _ _ _ _ _ _ _ HR _ _ _ HR') as (Hst & Htr' & _).
  injection Hst as ->. rewrite Htr'.
  split; [reflexivity|]. split; [|repeat split].
  eexists. split; [left; reflexivity|]. split; reflexivity.
Qed.

(* ================================================================== *)
(** ** The further properties at concrete inputs *)

(** On a lost connection the executor reports the driver's message behind
    the two prefixes of the database service. *)
Lemma executor_on_database_failures_witness :
  exists r w',
    SQLExecutionAgent.executeSQL
      (Database.service Database.postgresql Cases.lost_connection Cases.event_clock)
      Cases.list_orders [] = (Ok r, w')
    /\ SQLExecution.success r = false
    /\ w' = [Queried "select * from orders LIMIT 1000"]
    /\ exists m,
         SQLExecution.error r = Some m
         /\ m <> "Only SELECT and EXPLAIN queries are allowed for safety"
         /\ (In m refusal_reasons
             \/ m = "Query execution timed out after 30000ms"
             \/ exists m0, m = "SQL execution failed: Query execution failed: " ++ m0).
Proof.
  do 2 eexists.
  assert (H1 : SQLExecutionAgent.executeSQL
                 (Database.service Database.postgresql Cases.lost_connection
                    Cases.event_clock)
                 Cases.list_orders []
               = (Ok {| SQLExecution.success := false; SQLExecution.data := None;
                        SQLExecution.error :=
                          Some "SQL execution failed: Query execution failed: connection reset";
                        SQLExecution.executionTime := 1; SQLExecution.rowCount := 0;
                        SQLExecution.columnInfo := [] |},
                  [Queried "select * from orders LIMIT 1000"]))
    by (vm_compute; reflexivity).
  split; [exact H1|]. split; [reflexivity|]. split; [reflexivity|].
  exact (executor_on_database_failures _ _ _ _ _ _ _ H1 eq_refl).
Defined.

(** A model that answers with a DELETE statement: Translate stores no
    query, and the error carries the prefix twice. *)
Lemma translate_with_the_agent_witness :
  convertNLToSQL (with_translation_agent Cases.answering Cases.deleting_model)
    Cases.schema_loaded []
  = (Ok [set_error
           (Some ("NL to SQL conversion failed: NL to SQL conversion failed: "
                    ++ "Generated query is not a SELECT statement"))], [])
  /\ (forall q,
         In (set_sqlQuery q)
           [set_error
              (Some ("NL to SQL conversion failed: NL to SQL conversion failed: "
                       ++ "Generated query is not a SELECT statement"))] ->
         is_select q = true).
Proof.
  assert (H : convertNLToSQL (with_translation_agent Cases.answering Cases.deleting_model)
                Cases.schema_loaded []
              = (Ok [set_error
                       (Some ("NL to SQL conversion failed: NL to SQL conversion failed: "
                                ++ "Generated query is not a SELECT statement"))], []))
    by (vm_compute; reflexivity).
  split; [exact H|].
  exact (proj1 (translate_with_the_agent _ _ _ _ _ _ H)).
Defined.

(** The run in which Experiment replaces the rejected query by
    [SELECT COUNT(1) FROM orders]. *)
Lemma replacement_query_is_not_validated_witness :
  exists v upd,
    In v (graph_visits Cases.replacing question None [])
    /\ visited v = experiment_alternatives
    /\ returned v = Ok upd
    /\ In (set_sqlQuery "SELECT COUNT(1) FROM orders") upd
    /\ exists vv val ve,
         In vv (graph_visits Cases.replacing question None [])
         /\ visited vv = validate_sql
         /\ returned vv = Ok [set_validationResult val]
         /\ sqlQuery (given vv) = sqlQuery (given v)
         /\ In ve (graph_visits Cases.replacing question None [])
         /\ visited ve = execute_sql
         /\ sqlQuery (given ve) = Some "SELECT COUNT(1) FROM orders"
         /\ validationResult (given ve) = Some val.
Proof.
  do 2 eexists.
  assert (H1 : In (nth 3 (graph_visits Cases.replacing question None [])
                     (visit handle_error (initialState "") (Ok [])))
                 (graph_visits Cases.replacing question None []))
    by (vm_compute; do 3 right; left; reflexivity).
  assert (H2 : visited (nth 3 (graph_visits Cases.replacing question None [])
                          (visit handle_error (initialState "") (Ok [])))
               = experiment_alternatives) by (vm_compute; reflexivity).
  assert (H3 : returned (nth 3 (graph_visits Cases.replacing question None [])
                           (visit handle_error (initialState "") (Ok [])))
               = Ok [set_alternativeQueries (Some three_alternatives);
                     set_sqlQuery "SELECT COUNT(1) FROM orders";
                     set_queryExplanation "another way";
                     set_sqlConfidence 85]) by (vm_compute; reflexivity).
  assert (H4 : In (set_sqlQuery "SELECT COUNT(1) FROM orders")
                 [set_alternativeQueries (Some three_alternatives);
                  set_sqlQuery "SELECT COUNT(1) FROM orders";
                  set_queryExplanation "another way";
                  set_sqlConfidence 85]) by (right; left; reflexivity).
  split; [exact H1|]. split; [exact H2|]. split; [exact H3|]. split; [exact H4|].
  destruct (replacement_query_is_not_validated _ _ _ _ _ _ _ H1 H2 H3 H4)
    as (vv & val & ve & A1 & A2 & A3 & A4 & _ & A5 & A6 & A7 & A8 & _).
  exists vv, val, ve. repeat split; assumption.
Defined.

(** The run in which every collaborator answers. *)
Lemma run_succeeds_witness :
  notifications_harmless Cases.answering None
  /\ exists st w',
       processQuery Cases.answering question None [] = (Ok st, w')
       /\ map visited (graph_visits Cases.answering question None [])
          = [load_schema; nl_to_sql; validate_sql; execute_sql; interpret_results]
       /\ finalResponse st = Some answer
       /\ executionResult st = Some Cases.five_orders
       /\ error st = None.
Proof.
  assert (Hh : notifications_harmless Cases.answering None) by (left; reflexivity).
  split; [exact Hh|].
  destruct (run_succeeds Cases.answering question None [] orders_schema
              (translation 92) accepted Cases.five_orders answer Hh
              ltac:(intros; reflexivity) ltac:(intros w0; reflexivity)
              ltac:(discriminate) ltac:(right; vm_compute; discriminate)
              ltac:(intros w0; reflexivity) eq_refl eq_refl
              ltac:(intros w0; reflexivity) eq_refl ltac:(intros w0; reflexivity))
    as (st & w' & Hp & Hv & _ & _ & _ & _ & _ & _ & Hx & Hf & He & _).
  exists st, w'. repeat split; assumption.
Defined.

(** The service on the run in which Validate rejects the query. *)
Lemma refusal_reaches_the_caller_as_no_response_witness :
  (validate_returned
     (graph_visits Cases.replacing (Response.question Cases.ask) None []) rejected
   /\ refusing rejected)
  /\ exists resp w',
       AskQLService.processNaturalLanguageQuery Cases.replacing Cases.event_clock
         Cases.ask [] = (Ok resp, w')
       /\ Response.success resp = false
       /\ Response.error resp = Some "No final response generated".
Proof.
  assert (H1 : validate_returned
                 (graph_visits Cases.replacing (Response.question Cases.ask) None [])
                 rejected).
  { eexists. split; [vm_compute; do 2 right; left; reflexivity|].
    split; reflexivity. }
  assert (H2 : refusing rejected) by (left; reflexivity).
  split; [split; assumption|].
  destruct (refusal_reaches_the_caller_as_no_response
              (healthy quiet_gateway 50 rejected) database Cases.event_clock Cases.ask []
              rejected H1 H2)
    as (st & resp & w' & Hg & Hr & _ & _ & Hs & _ & [(_ & _ & He & _) | (Hst & _)]).
  - exists resp, w'. repeat split; assumption.
  - exfalso. vm_compute in Hg. injection Hg as <-. discriminate Hst.
Defined.

(** The steps of the run in which every collaborator answers. *)
Lemma steps_of_a_successful_run_witness :
  exists st,
    graph_result Cases.answering question None [] = Ok st
    /\ finalResponse st <> None
    /\ AskQLService.extractWorkflowSteps st
       = ["✓ Loaded database schema";
          "✓ Converted natural language to SQL";
          "✓ Validated SQL query (LOW risk)";
          "✓ Executed SQL query successfully";
          "✓ Interpreted results to natural language"]
    /\ Forall (fun s => JS.startsWith s "✓" = true)
         (AskQLService.extractWorkflowSteps st).
Proof.
  assert (H : exists st,
             graph_result Cases.answering question None [] = Ok st
             /\ finalResponse st <> None
             /\ AskQLService.extractWorkflowSteps st
                = ["✓ Loaded database schema";
                   "✓ Converted natural language to SQL";
                   "✓ Validated SQL query (LOW risk)";
                   "✓ Executed SQL query successfully";
                   "✓ Interpreted results to natural language"]).
  { vm_compute. eexists. split; [reflexivity|]. split; [discriminate | reflexivity]. }
  destruct H as (st & H1 & H2 & H3).
  exists st. split; [exact H1|]. split; [exact H2|]. split; [exact H3|].
  exact (proj1 (steps_of_a_successful_run _ _ _ _ _ H1 H2)).
Defined.

(** A browser that connects to a gateway nobody is connected to, and a
    message for it. *)
Lemma messages_reach_connected_clients_witness :
  sessions_ok Cases.nobody_connected
  /\ AskQLGateway.emit_to "socket-1" (AskQLGateway.workflow_error "timed out")
       (snd (AskQLGateway.handleDisconnect Cases.browser Cases.nobody_connected))
     = (Ok tt, snd (AskQLGateway.handleDisconnect Cases.browser Cases.nobody_connected))
  /\ AskQLGateway.sent
       (snd (AskQLGateway.emit_to "socket-1" (AskQLGateway.workflow_error "timed out")
               (snd (AskQLGateway.handleConnection Cases.browser
                       Cases.nobody_connected))))
     = [("socket-1", AskQLGateway.workflow_error "timed out")].
Proof.
  assert (H : sessions_ok Cases.nobody_connected) by constructor.
  split; [exact H|].
  destruct (messages_reach_connected_clients Cases.nobody_connected Cases.browser
              (AskQLGateway.workflow_error "timed out") H)
    as (_ & _ & Hsent & _ & Hdrop & _).
  split; [exact Hdrop | exact Hsent].
Defined.

(** A chart of orders that names its table and lists no operations. *)
Lemma drill_down_suggestions_are_valid_witness :
  In "Show detailed records" (DrillDownAgent.suggestDrillDowns (Some Cases.orders_chart))
  /\ exists op,
       In "Show detailed records" (suggestions_for op)
       /\ DrillDownAgent.valid
            (DrillDownAgent.validateDrillDown op (Some Cases.orders_chart)) = true.
Proof.
  assert (H : In "Show detailed records"
                (DrillDownAgent.suggestDrillDowns (Some Cases.orders_chart)))
    by (left; reflexivity).
  split; [exact H|].
  exact (proj2 (drill_down_suggestions_are_valid Cases.orders_chart _ H)).
Defined.

(** The successful run with a session on a quiet gateway. *)
Lemma streamed_run_ends_with_its_outcome_witness :
  ("session-1" <> "" /\ gateway_never_throws (streamingService_gateway Cases.answering))
  /\ exists st w1,
       processQuery Cases.answering question (Some "session-1") []
       = (Ok st,
          (w1 ++ [Notified
                    match error st with
                    | Some (String c e) => emitWorkflowError "session-1" (String c e)
                    | _ => emitWorkflowComplete "session-1" st
                    end])%list).
Proof.
  assert (H1 : "session-1" <> "") by discriminate.
  assert (H2 : gateway_never_throws (streamingService_gateway Cases.answering))
    by (intros w c; reflexivity).
  split; [split; assumption|].
  destruct (streamed_run_ends_with_its_outcome Cases.answering question "session-1" []
              H1 H2) as (st & w1 & Hp & _).
  exists st, w1. exact Hp.
Defined.

(** The run on a database that cannot be reached. *)
Lemma schema_failure_is_reported_as_unavailable_witness :
  notifications_harmless Cases.unreachable_database None
  /\ exists st w',
       processQuery Cases.unreachable_database question None [] = (Ok st, w')
       /\ map visited (graph_visits Cases.unreachable_database question None [])
          = [load_schema; nl_to_sql; handle_error]
       /\ error st = Some "Database schema not available".
Proof.
  assert (Hh : notifications_harmless Cases.unreachable_database None)
    by (left; reflexivity).
  split; [exact Hh|].
  destruct (schema_failure_is_reported_as_unavailable Cases.unreachable_database
              question None [] "connection refused" Hh ltac:(intros w0; reflexivity))
    as (st & w' & Hp & Hv & _ & He & _).
  exists st, w'. repeat split; assumption.
Defined.

(** Clicking a bar of height 0 that is labelled [none]: the column found
    is [orders], by the value, and the filter on it is the label. *)
Example smart_filter_on_a_zero :
  DrillDownAgent.generateSmartFilters (Some (JInteger 0)) "none" Cases.orders_by_region
  = [("orders", JString "none")].
Proof. reflexivity. Qed.
